(** * XSD-to-XML sample generator: a shallow embedding of [xsd_to_xml.py]

    The development follows the Python module top-down: Python and lxml
    primitives the module relies on, the value synthesizer
    [generate_sample_value], then the methods of [XSDToXMLGenerator]
    ([_get_global_definitions], [_get_type_definition], [_get_xsd_type_name],
    [_get_occurrence], [_process_content_model], [_process_attributes],
    [_generate_xml_element], [generate_xml]), and finally the properties.

    A Python string is kept as its UTF-8 encoding, one [ascii] per byte.
    The string operations of the module ([split], [startswith], [in],
    concatenation) look for ASCII characters only and give the same answer
    on the encoding as on the code points.  The strings of a schema are
    XML character data, as the parser hands them out. *)

From Stdlib Require Import String Ascii List ZArith Lia Bool Arith.
From Stdlib Require Import DecimalString.
Import ListNotations.
Open Scope string_scope.
Open Scope Z_scope.

Set Warnings "-register-all".

(* ================================================================== *)
(** ** Outcomes *)
(* ================================================================== *)

(** Exceptions the module can raise while generating. *)
Inductive py_error : Type :=
| ValueError (msg : string)
| TypeError (msg : string)
| AttributeError (msg : string).

(** What a call does: it returns; it raises; the recursion budget of the
    model is used up before it does either; or it leaves the part of
    Python and lxml that this development describes (digits or names
    outside ASCII, a path expression with a quote inside a quoted value,
    a namespace that is not a plain URI), and the development then says
    nothing about the call. *)
Inductive outcome (A : Type) : Type :=
| Ok (a : A)
| Raise (e : py_error)
| OutOfFuel
| Unmodelled.

Arguments Ok {A} a.
Arguments Raise {A} e.
Arguments OutOfFuel {A}.
Arguments Unmodelled {A}.

(** One step after another, the first that does not return deciding. *)
Definition and_then {A B} (o : outcome A) (k : A -> outcome B) : outcome B :=
  match o with
  | Ok a => k a
  | Raise e => Raise e
  | OutOfFuel => OutOfFuel
  | Unmodelled => Unmodelled
  end.

(* ================================================================== *)
(** ** Python string primitives *)
(* ================================================================== *)

Module Py.

(** [s.startswith(p)] *)
Definition startswith (s p : string) : bool := String.prefix p s.

(** [str.lower()].  The letters [A] to [Z] go to [a] to [z].  Outside
    ASCII one code point has a lower-case form inside ASCII: KELVIN SIGN
    (U+212A, the bytes 226 132 170), which goes to [k].  Every other code
    point outside ASCII has a lower-case form outside ASCII; it is left in
    place here, since the module uses the result only as a key into a
    table whose keys are ASCII, which can tell whether the result is ASCII
    text, and which, and nothing more. *)
Definition lower_ascii (c : ascii) : ascii :=
  let n := nat_of_ascii c in
  if andb (Nat.leb 65 n) (Nat.leb n 90) then ascii_of_nat (n + 32) else c.

Definition is_kelvin (c1 c2 c3 : ascii) : bool :=
  andb (Nat.eqb (nat_of_ascii c1) 226)
       (andb (Nat.eqb (nat_of_ascii c2) 132) (Nat.eqb (nat_of_ascii c3) 170)).

Fixpoint lower (s : string) : string :=
  match s with
  | EmptyString => EmptyString
  | String c r =>
      match r with
      | String c2 (String c3 r') =>
          if is_kelvin c c2 c3 then String "k" (lower r')
          else String (lower_ascii c) (lower r)
      | _ => String (lower_ascii c) (lower r)
      end
  end.

(** All code points of [s] are ASCII. *)
Fixpoint is_ascii (s : string) : bool :=
  match s with
  | EmptyString => true
  | String c r => andb (Nat.ltb (nat_of_ascii c) 128) (is_ascii r)
  end.

(** [c in s] for a one-character [c] *)
Fixpoint contains (c : ascii) (s : string) : bool :=
  match s with
  | EmptyString => false
  | String d r => if Ascii.eqb c d then true else contains c r
  end.

(** [s.split(c)]: never the empty list. *)
Fixpoint split (c : ascii) (s : string) : list string :=
  match s with
  | EmptyString => [EmptyString]
  | String d r =>
      if Ascii.eqb c d then EmptyString :: split c r
      else match split c r with
           | [] => [String d EmptyString]
           | h :: t => String d h :: t
           end
  end.

(** [str(n)] for an integer *)
Definition str_of_Z (n : Z) : string := NilZero.string_of_int (Z.to_int n).

(** [str(x)] where [x] is a string or [None], as an f-string prints it *)
Definition str_of_opt (o : option string) : string :=
  match o with Some s => s | None => "None" end.

(** Truth value of a string or [None] *)
Definition truthy (o : option string) : bool :=
  match o with
  | None => false
  | Some EmptyString => false
  | Some _ => true
  end.

(** Zero-padded decimal of a natural number, as [%02d], [%04d]. *)
Definition pad (width : nat) (n : nat) : string :=
  let s := str_of_Z (Z.of_nat n) in
  let fix zeros k := match k with O => EmptyString | S k' => String "0" (zeros k') end in
  zeros (width - String.length s)%nat ++ s.

(** [int(s)] on an ASCII string of moderate length: surrounding white
    space, an optional sign, and decimal digits, single underscores
    allowed between digits; anything else is a [ValueError].  Outside
    ASCII Python knows further digits and white space, the separator
    characters 28 to 31 are white space to some of its functions, and
    beyond 4300 characters the interpreter may refuse the conversion:
    none of this is described here. *)
Definition is_space (c : ascii) : bool :=
  let n := nat_of_ascii c in
  orb (Nat.eqb n 32) (andb (Nat.leb 9 n) (Nat.leb n 13)).

Definition digit_of (c : ascii) : option Z :=
  let n := nat_of_ascii c in
  if andb (Nat.leb 48 n) (Nat.leb n 57) then Some (Z.of_nat (n - 48)) else None.

Fixpoint lstrip (s : string) : string :=
  match s with
  | String c r => if is_space c then lstrip r else s
  | EmptyString => EmptyString
  end.

Fixpoint all_space (s : string) : bool :=
  match s with
  | EmptyString => true
  | String c r => andb (is_space c) (all_space r)
  end.

(** [digits acc after_digit s]: [after_digit] tells whether the previous
    character was a digit (an underscore is legal only then, and the
    literal may end only then). *)
Fixpoint digits (acc : Z) (after_digit : bool) (s : string) : option Z :=
  match s with
  | EmptyString => if after_digit then Some acc else None
  | String c r =>
      match digit_of c with
      | Some d => digits (10 * acc + d) true r
      | None =>
          if andb after_digit (Ascii.eqb c "_") then digits acc false r
          else if andb after_digit (all_space s) then Some acc
          else None
      end
  end.

Definition int_ascii (s : string) : option Z :=
  match lstrip s with
  | String "-" r => option_map Z.opp (digits 0 false r)
  | String "+" r => digits 0 false r
  | r => digits 0 false r
  end.

Fixpoint plain_literal (s : string) : bool :=
  match s with
  | EmptyString => true
  | String c r =>
      let n := nat_of_ascii c in
      andb (andb (Nat.ltb n 128) (negb (andb (Nat.leb 28 n) (Nat.leb n 31))))
           (plain_literal r)
  end.

Definition int (s : string) : outcome Z :=
  if andb (plain_literal s) (Z.of_nat (String.length s) <=? 4300) then
    match int_ascii s with
    | Some n => Ok n
    | None => Raise (ValueError "invalid literal for int() with base 10")
    end
  else Unmodelled.

End Py.

(* ================================================================== *)
(** ** The generation session and its monad *)
(* ================================================================== *)

(** A wall-clock reading, for the [datetime] calls: a date of the common
    era with a year of four digits, and a time of day. *)
Record datetime : Type := mkDatetime {
  year : nat; month : nat; day : nat;
  hour : nat; minute : nat; second : nat
}.

(** Everything a run reads or writes besides the document under
    construction: the random number generator (an arbitrary stream of
    draws, the head of which is consumed by each call into [random]),
    the clock ([datetime.now()] local and UTC), and the lines printed. *)
Record session : Type := mkSession {
  rng : nat -> Z;
  local_now : datetime;
  utc_now : datetime;
  printed : list string
}.

Definition M (A : Type) : Type := session -> outcome (A * session).

Definition ret {A} (a : A) : M A := fun s => Ok (a, s).

Definition bind {A B} (m : M A) (k : A -> M B) : M B :=
  fun s => match m s with
           | Ok (a, s') => k a s'
           | Raise e => Raise e
           | OutOfFuel => OutOfFuel
           | Unmodelled => Unmodelled
           end.

Definition raise {A} (e : py_error) : M A := fun _ => Raise e.

Definition out_of_fuel {A} : M A := fun _ => OutOfFuel.

Declare Scope gen_scope.
Delimit Scope gen_scope with gen.
Notation "x <- m ;; k" := (bind m (fun x => k))
  (at level 100, m at next level, right associativity) : gen_scope.
Notation "m ;;; k" := (bind m (fun _ => k))
  (at level 100, right associativity) : gen_scope.
Open Scope gen_scope.

(** [print(line)] *)
Definition print (line : string) : M unit :=
  fun s => Ok (tt, mkSession (rng s) (local_now s) (utc_now s) (printed s ++ [line])).

(** One raw draw from the generator. *)
Definition draw : M Z :=
  fun s => Ok (rng s 0%nat,
               mkSession (fun n => rng s (S n)) (local_now s) (utc_now s) (printed s)).

(** Drop [n] draws. *)
Definition skip_draws (n : nat) : M unit :=
  fun s => Ok (tt, mkSession (fun k => rng s (n + k)%nat) (local_now s) (utc_now s) (printed s)).

(** The value [random.randint(a, b)] takes on raw draw [r], for [a <= b]. *)
Definition randint_of (a b r : Z) : Z := a + r mod (b - a + 1).

(** [random.randint(a, b)]: [ValueError] on an empty range. *)
Definition randint (a b : Z) : M Z :=
  if b <? a then raise (ValueError "empty range for randrange()")
  else r <- draw ;; ret (randint_of a b r).

(** [random.random() < 0.5] *)
Definition coin : M bool := r <- draw ;; ret (Z.even r).

(** [random.choice(xs)] on raw draw [r]; [d] is returned on the empty
    list, where Python raises (the module never calls it so). *)
Definition choice_of {A} (d : A) (xs : list A) (r : Z) : A :=
  nth (Z.to_nat (r mod Z.of_nat (List.length xs))) xs d.

Definition choice {A} (d : A) (xs : list A) : M A :=
  r <- draw ;; ret (choice_of d xs r).

(** [f"{random.uniform(1.0, 1000.0):.Nf}"]: floating point is modelled by
    fixed point, a draw of [digits] decimals between 1 and 1000. *)
Definition uniform_fmt (digits : nat) (r : Z) : string :=
  let scale := 10 ^ Z.of_nat digits in
  let v := randint_of scale (1000 * scale) r in
  Py.str_of_Z (v / scale) ++ "." ++ Py.pad digits (Z.to_nat (v mod scale)).

(* ================================================================== *)
(** ** The value synthesizer *)
(* ================================================================== *)

Definition isoformat_date (d : datetime) : string :=
  Py.pad 4 (year d) ++ "-" ++ Py.pad 2 (month d) ++ "-" ++ Py.pad 2 (day d).

Definition strftime_time (d : datetime) : string :=
  Py.pad 2 (hour d) ++ ":" ++ Py.pad 2 (minute d) ++ ":" ++ Py.pad 2 (second d).

(** The dictionary literal of [generate_sample_value].  Python evaluates
    every value when the literal is built, so each call makes all fifteen
    draws, in the order of the literal, whatever the key looked up. *)
Definition type_map (s : session) : list (string * string) :=
  let r := rng s in
  let here := local_now s in
  [ ("string", "sample_string");
    ("normalizedstring", "sample_normalized_string");
    ("token", "sample_token");
    ("boolean", choice_of "" ["true"; "false"] (r 0%nat));
    ("decimal", uniform_fmt 2 (r 1%nat));
    ("integer", Py.str_of_Z (randint_of 1 1000 (r 2%nat)));
    ("long", Py.str_of_Z (randint_of 1000 100000 (r 3%nat)));
    ("int", Py.str_of_Z (randint_of 1 1000 (r 4%nat)));
    ("short", Py.str_of_Z (randint_of 1 100 (r 5%nat)));
    ("byte", Py.str_of_Z (randint_of 0 127 (r 6%nat)));
    ("nonnegativeinteger", Py.str_of_Z (randint_of 0 1000 (r 7%nat)));
    ("positiveinteger", Py.str_of_Z (randint_of 1 1000 (r 8%nat)));
    ("nonpositiveinteger", Py.str_of_Z (randint_of (-1000) 0 (r 9%nat)));
    ("negativeinteger", Py.str_of_Z (randint_of (-1000) (-1) (r 10%nat)));
    ("double", uniform_fmt 4 (r 11%nat));
    ("float", uniform_fmt 4 (r 12%nat));
    ("duration", "P1Y2M3DT4H5M6S");
    ("datetime", isoformat_date (utc_now s) ++ "T" ++ strftime_time (utc_now s) ++ "+00:00");
    ("time", strftime_time here);
    ("date", isoformat_date here);
    ("gyearmonth", Py.pad 4 (year here) ++ "-" ++ Py.pad 2 (month here));
    ("gyear", Py.pad 4 (year here));
    ("gmonthday", "--" ++ Py.pad 2 (month here) ++ "-" ++ Py.pad 2 (day here));
    ("gday", "---" ++ Py.pad 2 (day here));
    ("gmonth", "--" ++ Py.pad 2 (month here) ++ "--");
    ("hexbinary", "0FB7");
    ("base64binary", "AQIDBA==");
    ("anyuri", "http://example.com/resource");
    ("qname", "tns:sampleQName");
    ("notation", "sample_notation");
    ("id", "id" ++ Py.str_of_Z (randint_of 1000 9999 (r 13%nat)));
    ("idref", "idref" ++ Py.str_of_Z (randint_of 1000 9999 (r 14%nat)));
    ("idrefs", "idrefs_1 idrefs_2");
    ("nmtoken", "sample_NMTOKEN");
    ("nmtokens", "sample_NMTOKEN_1 sample_NMTOKEN_2");
    ("name", "sample_Name");
    ("ncname", "sampleNCName");
    ("language", "en-US");
    ("entity", "entity_name");
    ("entities", "entity_name_1 entity_name_2");
    ("notations", "notation_1 notation_2");
    ("anysimpletype", "any_simple_type_value") ].

(** [d.get(k)] on a dictionary kept as an association list. *)
Fixpoint dict_get {V} (k : string) (d : list (string * V)) : option V :=
  match d with
  | [] => None
  | (k', v) :: r => if String.eqb k k' then Some v else dict_get k r
  end.

(** [d[k] = v]: the entry is replaced where the key is there already. *)
Fixpoint dict_set {V} (k : string) (v : V) (d : list (string * V)) : list (string * V) :=
  match d with
  | [] => [(k, v)]
  | (k', v') :: r => if String.eqb k k' then (k, v) :: r else (k', v') :: dict_set k v r
  end.

(** [generate_sample_value(xsd_type_name)].  The argument is [None] when a
    caller passes on the [None] that [_get_xsd_type_name] can return;
    [None.lower()] raises. *)
Definition generate_sample_value (xsd_type_name : option string) : M string :=
  fun s =>
    let tm := type_map s in
    bind (skip_draws 15)
      (fun _ =>
         match xsd_type_name with
         | None => raise (AttributeError "'NoneType' object has no attribute 'lower'")
         | Some name =>
             match dict_get (Py.lower name) tm with
             | Some v => ret v
             | None => ret ("UNKNOWN_TYPE_" ++ name)
             end
         end) s.

(* ================================================================== *)
(** ** lxml trees *)
(* ================================================================== *)

(** A node of the parsed schema document: its tag in Clark notation, its
    attributes and its child nodes in document order.  Comments and
    processing instructions are child nodes as well (lxml counts them in
    the length of an element, though [find] and [findall] pass them over);
    they are nodes whose tag is the tag of no element. *)
Inductive xsd_node : Type :=
| XNode (tag : string) (attrib : list (string * string)) (children : list xsd_node).

Definition tag_of (n : xsd_node) : string := let (t, _, _) := n in t.
Definition attrib_of (n : xsd_node) : list (string * string) := let (_, a, _) := n in a.
Definition children_of (n : xsd_node) : list xsd_node := let (_, _, c) := n in c.

(** [node.get(key)] *)
Definition get (n : xsd_node) (key : string) : option string := dict_get key (attrib_of n).

Definition has_tag (t : string) (n : xsd_node) : bool := String.eqb (tag_of n) t.

(** [node.findall(tag)]: the direct children with that tag, in order. *)
Definition findall (n : xsd_node) (t : string) : list xsd_node :=
  filter (has_tag t) (children_of n).

(** [node.find(tag)]: the first direct child with that tag, or [None]. *)
Definition find (n : xsd_node) (t : string) : option xsd_node :=
  List.find (has_tag t) (children_of n).

(** Truth value of [node.find(...)]: lxml makes an element false when it
    has no child node, so [None] and a childless element are both false. *)
Definition elem_truthy (o : option xsd_node) : bool :=
  match o with
  | None => false
  | Some n => match children_of n with [] => false | _ :: _ => true end
  end.

(** Python's [a or b] on two results of [find]. *)
Definition py_or (a b : option xsd_node) : option xsd_node :=
  if elem_truthy a then a else b.

(** A generated element: tag, namespace map, attributes in the order they
    were first set, text, children in document order. *)
Inductive xml_tree : Type :=
| XmlElement (tag : string) (nsmap : option string)
             (attrib : list (string * string)) (text : option string)
             (children : list xml_tree).

Definition xml_tag (e : xml_tree) : string := let (t, _, _, _, _) := e in t.
Definition xml_attrib (e : xml_tree) : list (string * string) := let (_, _, a, _, _) := e in a.
Definition xml_text (e : xml_tree) : option string := let (_, _, _, x, _) := e in x.
Definition xml_children (e : xml_tree) : list xml_tree := let (_, _, _, _, c) := e in c.

(** The element that [etree.Element(tag, nsmap=...)] makes once lxml has
    accepted the tag and the namespace: no attributes, no text, no
    children.  [etree_Element] below is the call with its checks. *)
Definition Element (t : string) (ns : option string) : xml_tree :=
  XmlElement t ns [] None [].

(** The element after a successful [element.set(name, value)]: the value
    is replaced where the attribute is there already, and the attribute is
    added after the others where it is not.  [element_set] below is the
    call with its check. *)
Definition set_attr (name value : string) (e : xml_tree) : xml_tree :=
  let (t, ns, a, x, c) := e in XmlElement t ns (dict_set name value a) x c.

(** [element.text = value] *)
Definition set_text (value : option string) (e : xml_tree) : xml_tree :=
  let (t, ns, a, _, c) := e in XmlElement t ns a value c.

(** The effect on [parent] of [etree.SubElement(parent, ...)] once the new
    child has been filled in: the child is the last of the children. *)
Definition append_child (child : xml_tree) (parent : xml_tree) : xml_tree :=
  let (t, ns, a, x, c) := parent in XmlElement t ns a x (c ++ [child]).

(** *** What lxml checks before it builds *)

(** The code of [c] lies between [lo] and [hi]. *)
Definition between (lo hi : nat) (c : ascii) : bool :=
  andb (Nat.leb lo (nat_of_ascii c)) (Nat.leb (nat_of_ascii c) hi).

Definition is_letter (c : ascii) : bool := orb (between 65 90 c) (between 97 122 c).

Definition is_digit (c : ascii) : bool := between 48 57 c.

Fixpoint all_chars (f : ascii -> bool) (s : string) : bool :=
  match s with
  | EmptyString => true
  | String c r => andb (f c) (all_chars f r)
  end.

(** The ASCII strings that are XML names without a colon: a letter or an
    underscore, then letters, digits, [.], [-] and [_]. *)
Definition name_char (c : ascii) : bool :=
  orb (is_letter c)
      (orb (is_digit c) (orb (Ascii.eqb c ".") (orb (Ascii.eqb c "-") (Ascii.eqb c "_")))).

Definition is_name (s : string) : bool :=
  match s with
  | EmptyString => false
  | String c r => andb (orb (is_letter c) (Ascii.eqb c "_")) (all_chars name_char r)
  end.

(** The check lxml makes on the tag of a new element and on the name of
    an attribute that is set: the empty string is refused, and so is an
    ASCII string that is not an XML name or has a colon in it
    ([ValueError] both).  A string that starts with a brace is read as a
    name in Clark notation, and a name outside ASCII is checked against
    the character tables of libxml2: neither is described here. *)
Definition name_check (name : string) : outcome unit :=
  match name with
  | EmptyString => Raise (ValueError "Empty tag name")
  | String c _ =>
      if orb (negb (Py.is_ascii name)) (Ascii.eqb c "{") then Unmodelled
      else if is_name name then Ok tt
      else Raise (ValueError "Invalid tag name")
  end.

(** Namespace names that are plain URIs: a scheme, a colon, and then
    either a path of letters, digits and [- . _ ~ : /] that does not start
    with two slashes, or two slashes, a host name of letters, digits and
    [- . _ ~] and such a path after it. *)
Definition scheme_char (c : ascii) : bool :=
  orb (is_letter c) (orb (is_digit c) (orb (Ascii.eqb c "-") (Ascii.eqb c "."))).

Definition host_char (c : ascii) : bool :=
  orb (is_letter c)
      (orb (is_digit c)
         (orb (Ascii.eqb c "-") (orb (Ascii.eqb c ".") (orb (Ascii.eqb c "_") (Ascii.eqb c "~"))))).

Definition path_char (c : ascii) : bool :=
  orb (host_char c) (orb (Ascii.eqb c ":") (Ascii.eqb c "/")).

Definition plain_path (s : string) : bool :=
  if Py.startswith s "//" then
    let r := substring 2 (String.length s) s in
    match Py.split "/" r with
    | host :: _ =>
        andb (negb (String.eqb host "")) (andb (all_chars host_char host) (all_chars path_char r))
    | [] => false
    end
  else all_chars path_char s.

Definition plain_uri (u : string) : bool :=
  match Py.split ":" u with
  | scheme :: _ :: _ =>
      andb (match scheme with String c _ => is_letter c | EmptyString => false end)
           (andb (all_chars scheme_char scheme)
                 (plain_path (substring (S (String.length scheme)) (String.length u) u)))
  | _ => false
  end.

(** The check lxml makes on a namespace map [{None: uri}]: the namespace
    has to parse as a URI ([ValueError] otherwise).  A plain URI does;
    what the parser of libxml2 makes of any other string is not described
    here. *)
Definition uri_check (ns : option string) : outcome unit :=
  match ns with
  | None => Ok tt
  | Some u => if plain_uri u then Ok tt else Unmodelled
  end.

(** [etree.Element(tag, nsmap=...)]: the tag is checked first. *)
Definition etree_Element (t : string) (ns : option string) : outcome xml_tree :=
  and_then (name_check t) (fun _ => and_then (uri_check ns) (fun _ => Ok (Element t ns))).

(** [etree.SubElement(parent, tag, nsmap=...)], as far as the new child
    goes; [append_child] puts it under its parent. *)
Definition etree_SubElement (t : string) (ns : option string) : outcome xml_tree :=
  etree_Element t ns.

(** [element.set(name, value)] *)
Definition element_set (name value : string) (e : xml_tree) : outcome xml_tree :=
  and_then (name_check name) (fun _ => Ok (set_attr name value e)).

(* ================================================================== *)
(** ** [XSDToXMLGenerator] *)
(* ================================================================== *)

Definition XSD_NAMESPACE : string := "{http://www.w3.org/2001/XMLSchema}".

(** [f"{self.XSD_NAMESPACE}{local}"] *)
Definition xsd (local : string) : string := XSD_NAMESPACE ++ local.

(** The fields [__init__] sets that generation reads: the root of the
    parsed schema document, its [targetNamespace], and the two lookups of
    global definitions. *)
Record XSDToXMLGenerator : Type := mkGenerator {
  schema_root : xsd_node;
  target_namespace : option string;
  complex_types : list (string * xsd_node);
  simple_types : list (string * xsd_node)
}.

(** [self.namespace_map]: [{None: target_namespace}] or [{}]. *)
Definition namespace_map (self : XSDToXMLGenerator) : option string :=
  if Py.truthy (target_namespace self) then target_namespace self else None.

(** [_get_global_definitions(tag_name)] over the schema root. *)
Definition _get_global_definitions (root : xsd_node) (tag_name : string)
  : list (string * xsd_node) :=
  fold_left
    (fun definitions definition =>
       match get definition "name" with
       | Some name =>
           if Py.truthy (Some name) then dict_set name definition definitions
           else definitions
       | None => definitions
       end)
    (findall root (xsd tag_name)) [].

(** [__init__], lines 73 to 81, from the root of the document that
    [etree.parse] read and [etree.XMLSchema] accepted.  Parsing and schema
    validation are lxml's and are not described: [init] takes any tree,
    and only a tree of a valid schema is the tree of a generator that
    exists. *)
Definition init (root : xsd_node) : XSDToXMLGenerator :=
  mkGenerator root (get root "targetNamespace")
    (_get_global_definitions root "complexType")
    (_get_global_definitions root "simpleType").

(** [_get_type_definition(type_name)] *)
Definition _get_type_definition (self : XSDToXMLGenerator) (type_name : option string)
  : option xsd_node :=
  match type_name with
  | None => None
  | Some type_name =>
      if Py.startswith type_name "xs:" then None
      else match dict_get type_name (complex_types self) with
           | Some d => Some d
           | None =>
               match dict_get type_name (simple_types self) with
               | Some d => Some d
               | None => None
               end
           end
  end.

(** The three statements that [_get_xsd_type_name] runs on the [base]
    attribute of an inline extension (lines 158-164) and, word for word
    again, of an inline restriction (lines 171-177).  [":" in base_type]
    is evaluated on [None] when the attribute is missing. *)
Definition type_name_of_base (base_type : option string) : outcome (option string) :=
  match base_type with
  | Some b =>
      if andb (Py.truthy base_type) (Py.startswith b "xs:")
      then Ok (Some (nth 1 (Py.split ":" b) ""))
      else if Py.contains ":" b then Ok (Some (last (Py.split ":" b) ""))
      else Ok (Some (if Py.truthy base_type then b else "string"))
  | None => Raise (TypeError "argument of type 'NoneType' is not iterable")
  end.

(** [_get_xsd_type_name(xsd_element)] *)
Definition _get_xsd_type_name (xsd_element : xsd_node) : outcome (option string) :=
  let type_attr := get xsd_element "type" in
  match type_attr with
  | Some (String _ _ as t) =>
      if Py.startswith t "xs:" then Ok (Some (nth 1 (Py.split ":" t) ""))
      else if Py.contains ":" t then Ok (Some (last (Py.split ":" t) ""))
      else Ok (Some t)
  | _ =>
      if Py.truthy (get xsd_element "ref") then Ok (Some "string")
      else
        match find xsd_element (xsd "complexType") with
        | Some complex_type_def =>
            match find complex_type_def (xsd "simpleContent") with
            | Some simple_content_def =>
                match find simple_content_def (xsd "extension") with
                | Some extension_def => type_name_of_base (get extension_def "base")
                | None => Ok None
                end
            | None => Ok None
            end
        | None =>
            match find xsd_element (xsd "simpleType") with
            | Some simple_type_def =>
                match find simple_type_def (xsd "restriction") with
                | Some restriction => type_name_of_base (get restriction "base")
                | None => Ok None
                end
            | None => Ok (Some "string")
            end
        end
  end.

(** [maxOccurs]: a number or [float('inf')]. *)
Inductive max_occurs : Type :=
| Unbounded
| Finite (n : Z).

(** [_get_occurrence(xsd_node)].  [minOccurs] is converted first. *)
Definition _get_occurrence (node : xsd_node) : outcome (Z * max_occurs) :=
  and_then
    (match get node "minOccurs" with
     | None => Ok 1
     | Some s => Py.int s
     end)
    (fun min_occurs =>
       let max_occurs_str :=
         match get node "maxOccurs" with
         | None => "1"
         | Some s => s
         end in
       if String.eqb max_occurs_str "unbounded" then Ok (min_occurs, Unbounded)
       else and_then (Py.int max_occurs_str) (fun n => Ok (min_occurs, Finite n))).

(** A pure step that may raise, inside the monad. *)
Definition lift {A} (o : outcome A) : M A :=
  fun s => match o with
           | Ok a => Ok (a, s)
           | Raise e => Raise e
           | OutOfFuel => OutOfFuel
           | Unmodelled => Unmodelled
           end.

(** [for x in xs: acc = body(acc, x)] *)
Fixpoint for_each {A B} (xs : list A) (body : B -> A -> M B) (acc : B) : M B :=
  match xs with
  | [] => ret acc
  | x :: r => acc' <- body acc x ;; for_each r body acc'
  end.

(** [for _ in range(n): acc = body(acc)] *)
Fixpoint repeat_times {B} (n : nat) (body : B -> M B) (acc : B) : M B :=
  match n with
  | O => ret acc
  | S k => acc' <- body acc ;; repeat_times k body acc'
  end.

(** [_process_attributes(xml_element, xsd_definition)].  The element is
    mutated in place by the source; here the updated element is returned. *)
Definition _process_attributes (xml_element : xml_tree) (xsd_definition : xsd_node)
  : M xml_tree :=
  e <- for_each (findall xsd_definition (xsd "attribute"))
         (fun e attr =>
            let attr_name := get attr "name" in
            if Py.truthy attr_name then
              attr_type <- lift (_get_xsd_type_name attr) ;;
              attr_value <- generate_sample_value attr_type ;;
              lift (element_set (Py.str_of_opt attr_name) attr_value e)
            else
              match get attr "ref" with
              | Some (String _ _ as ref_attr) =>
                  let resolved_name := last (Py.split ":" ref_attr) "" in
                  lift (element_set resolved_name ("ref_value_for_" ++ resolved_name) e)
              | _ =>
                  print ("Warning: Attribute definition without 'name' or 'ref' found in "
                           ++ tag_of xsd_definition ++ ". Skipping.") ;;;
                  ret e
              end)
         xml_element ;;
  for_each (findall xsd_definition (xsd "attributeGroup"))
    (fun (_ : unit) attr_group_ref =>
       match get attr_group_ref "ref" with
       | Some (String _ _ as ref_name) =>
           print ("Warning: xs:attributeGroup reference '" ++ ref_name
                    ++ "' found. This is not fully resolved. Skipping group content.")
       | _ => ret tt
       end)
    tt ;;;
  ret e.

(** [d.find(sequence) or d.find(all) or d.find(choice) or
    d.find(complexContent) or d.find(simpleContent)] (lines 382-386 and
    420-424). *)
Definition content_model_of (d : xsd_node) : option xsd_node :=
  py_or (find d (xsd "sequence"))
    (py_or (find d (xsd "all"))
       (py_or (find d (xsd "choice"))
          (py_or (find d (xsd "complexContent"))
             (find d (xsd "simpleContent"))))).

(** The same chain without [simpleContent] (lines 231-234). *)
Definition base_content_model_of (d : xsd_node) : option xsd_node :=
  py_or (find d (xsd "sequence"))
    (py_or (find d (xsd "all"))
       (py_or (find d (xsd "choice"))
          (find d (xsd "complexContent")))).

(** [[e.get("value") for e in restriction.findall(enumeration)]] *)
Definition enum_values_of (restriction : xsd_node) : list (option string) :=
  map (fun e => get e "value") (findall restriction (xsd "enumeration")).

(** The occurrence sampling of [_generate_xml_element] (lines 353-364). *)
Definition sample_occurrences (min_occurs : Z) (max_occurs : max_occurs) : M Z :=
  match max_occurs with
  | Unbounded =>
      n <- randint min_occurs (Z.min (min_occurs + 1) 2) ;;
      ret (if andb (n =? 0) (min_occurs =? 0) then 1 else n)
  | Finite m =>
      if 1 <? m then
        n <- randint min_occurs m ;;
        ret (if andb (n =? 0) (min_occurs =? 0) then 1 else n)
      else if min_occurs =? 0 then
        skip <- coin ;;
        ret (if skip then 0 else 1)
      else ret 1
  end.

(** [base_type and base_type.startswith("xs:")] *)
Definition is_xs (base_type : option string) : bool :=
  andb (Py.truthy base_type) (Py.startswith (Py.str_of_opt base_type) "xs:").

(** The text of an element from a [restriction] of a simple type (lines
    392-404 and 434-445); [no_base_or_enum] is the placeholder of the
    call site. *)
Definition text_of_restriction (restriction : xsd_node) (no_base_or_enum : string)
  : M (option string) :=
  let base_type := get restriction "base" in
  if is_xs base_type then
    v <- generate_sample_value (Some (nth 1 (Py.split ":" (Py.str_of_opt base_type)) "")) ;;
    ret (Some v)
  else
    match enum_values_of restriction with
    | (_ :: _) as enum_values => choice None enum_values
    | [] => ret (Some no_base_or_enum)
    end.

(** The [simpleContent] branch of [_process_content_model] (lines
    260-299), which does not recurse. *)
Definition process_simple_content (parent_xml_element : xml_tree)
    (content_model_element : xsd_node) (current_path : string) : M xml_tree :=
  match find content_model_element (xsd "extension"),
        find content_model_element (xsd "restriction") with
  | Some extension, _ =>
      let base_type_name := get extension "base" in
      v <- (if Py.truthy base_type_name then
              if Py.startswith (Py.str_of_opt base_type_name) "xs:" then
                generate_sample_value
                  (Some (nth 1 (Py.split ":" (Py.str_of_opt base_type_name)) ""))
              else
                generate_sample_value
                  (Some (last (Py.split ":" (Py.str_of_opt base_type_name)) ""))
            else generate_sample_value (Some "string")) ;;
      _process_attributes (set_text (Some v) parent_xml_element) extension
  | None, Some restriction =>
      let base_type_name := get restriction "base" in
      v <- (if Py.truthy base_type_name then
              if Py.startswith (Py.str_of_opt base_type_name) "xs:" then
                v <- generate_sample_value
                       (Some (nth 1 (Py.split ":" (Py.str_of_opt base_type_name)) "")) ;;
                ret (Some v)
              else
                match enum_values_of restriction with
                | (_ :: _) as enum_values => choice None enum_values
                | [] =>
                    v <- generate_sample_value
                           (Some (last (Py.split ":" (Py.str_of_opt base_type_name)) "")) ;;
                    ret (Some v)
                end
            else
              match enum_values_of restriction with
              | (_ :: _) as enum_values => choice None enum_values
              | [] => v <- generate_sample_value (Some "string") ;; ret (Some v)
              end) ;;
      _process_attributes (set_text v parent_xml_element) restriction
  | None, None =>
      print ("Warning: simpleContent at " ++ current_path
               ++ " has no extension or restriction.") ;;;
      ret parent_xml_element
  end.

(** The body of the loop of [_generate_xml_element] (lines 370-450) from
    the new element on: the instance of [xsd_element_def] with its
    attributes, children and text.  [walk] is [_process_content_model]. *)
Definition fill_instance (self : XSDToXMLGenerator)
    (walk : xml_tree -> option xsd_node -> string -> M xml_tree)
    (xml_element : xml_tree) (xsd_element_def : xsd_node) (current_path : string)
  : M xml_tree :=
  xsd_type_name <- lift (_get_xsd_type_name xsd_element_def) ;;
  match _get_type_definition self xsd_type_name with
  | Some xsd_type_def =>
      xml_element <- _process_attributes xml_element xsd_type_def ;;
      match content_model_of xsd_type_def with
      | Some _ as complex_type_content =>
          walk xml_element complex_type_content current_path
      | None =>
          if String.eqb (tag_of xsd_type_def) (xsd "simpleType") then
            match find xsd_type_def (xsd "restriction") with
            | Some restriction =>
                v <- text_of_restriction restriction
                       ("SIMPLE_TYPE_NO_BASE_OR_ENUM_" ++ Py.str_of_opt xsd_type_name) ;;
                ret (set_text v xml_element)
            | None =>
                ret (set_text
                       (Some ("SIMPLE_TYPE_NO_RESTRICTION_" ++ Py.str_of_opt xsd_type_name))
                       xml_element)
            end
          else ret xml_element
      end
  | None =>
      xml_element <- _process_attributes xml_element xsd_element_def ;;
      match find xsd_element_def (xsd "complexType") with
      | Some inline_complex_type =>
          match content_model_of inline_complex_type with
          | Some _ as content_model => walk xml_element content_model current_path
          | None => ret xml_element
          end
      | None =>
          match find xsd_element_def (xsd "simpleType") with
          | Some inline_simple_type =>
              match find inline_simple_type (xsd "restriction") with
              | Some restriction =>
                  v <- text_of_restriction restriction
                         "INLINE_SIMPLE_TYPE_NO_BASE_OR_ENUM" ;;
                  ret (set_text v xml_element)
              | None =>
                  ret (set_text (Some "INLINE_SIMPLE_TYPE_NO_RESTRICTION") xml_element)
              end
          | None =>
              v <- generate_sample_value xsd_type_name ;;
              ret (set_text (Some v) xml_element)
          end
      end
  end.

Section Generator.

Variable self : XSDToXMLGenerator.

(** [_generate_xml_element] and [_process_content_model] call each other
    through the schema and its type registry, so the recursion is not
    structural: [fuel] bounds the depth of the calls, as the interpreter's
    recursion limit does.  Both return the parent element they were
    given, updated.  A new child is appended once it is complete; the
    source appends it empty and fills it in place, which gives the same
    parent whenever the call returns. *)
Fixpoint _generate_xml_element (fuel : nat) (parent_xml_node : xml_tree)
    (xsd_element_def : xsd_node) (current_path : string) {struct fuel} : M xml_tree :=
  match fuel with
  | O => out_of_fuel
  | S fuel =>
      let element_name := get xsd_element_def "name" in
      if negb (Py.truthy element_name) then
        print ("Warning: Skipping unnamed element in XSD at " ++ current_path) ;;;
        ret parent_xml_node
      else
        let element_name := Py.str_of_opt element_name in
        let current_path := current_path ++ "/" ++ element_name in
        occ <- lift (_get_occurrence xsd_element_def) ;;
        let '(min_occurs, max_occurs) := occ in
        if andb (min_occurs =? 0)
                (match max_occurs with Finite 0 => true | _ => false end)
        then ret parent_xml_node
        else
          num_occurrences <- sample_occurrences min_occurs max_occurs ;;
          if num_occurrences =? 0 then ret parent_xml_node
          else
            repeat_times (Z.to_nat num_occurrences)
              (fun parent =>
                 xml_element <- lift (etree_SubElement element_name (namespace_map self)) ;;
                 xml_element <-
                   fill_instance self (_process_content_model fuel)
                     xml_element xsd_element_def current_path ;;
                 ret (append_child xml_element parent))
              parent_xml_node
  end

with _process_content_model (fuel : nat) (parent_xml_element : xml_tree)
    (content_model_element : option xsd_node) (path : string) {struct fuel} : M xml_tree :=
  match fuel with
  | O => out_of_fuel
  | S fuel =>
      let current_path := path in
      match content_model_element with
      | None => ret parent_xml_element
      | Some cme =>
          if orb (String.eqb (tag_of cme) (xsd "sequence"))
                 (String.eqb (tag_of cme) (xsd "all")) then
            parent <- for_each (findall cme (xsd "element"))
                        (fun parent child_xsd_element =>
                           _generate_xml_element fuel parent child_xsd_element current_path)
                        parent_xml_element ;;
            for_each (findall cme (xsd "group"))
              (fun (_ : unit) group_ref =>
                 print ("Warning: xs:group reference '"
                          ++ Py.str_of_opt (get group_ref "ref") ++ "' at " ++ current_path
                          ++ " is not fully resolved. Skipping group content."))
              tt ;;;
            ret parent
          else if String.eqb (tag_of cme) (xsd "choice") then
            match find cme (xsd "element") with
            | Some first_choice =>
                _generate_xml_element fuel parent_xml_element first_choice current_path
            | None =>
                print ("Warning: xs:choice at " ++ current_path ++ " contains no elements.") ;;;
                ret parent_xml_element
            end
          else if String.eqb (tag_of cme) (xsd "complexContent") then
            match find cme (xsd "extension"), find cme (xsd "restriction") with
            | Some extension, _ =>
                let base_type_name := get extension "base" in
                let base_type_def := _get_type_definition self base_type_name in
                parent <-
                  (if elem_truthy base_type_def then
                     match base_type_def with
                     | Some base_type_def =>
                         parent <- _process_attributes parent_xml_element base_type_def ;;
                         match base_content_model_of base_type_def with
                         | Some _ as base_content_model =>
                             _process_content_model fuel parent
                               base_content_model current_path
                         | None => ret parent
                         end
                     | None => ret parent_xml_element
                     end
                   else ret parent_xml_element) ;;
                parent <- _process_attributes parent extension ;;
                match find extension (xsd "sequence") with
                | Some _ as sequence =>
                    _process_content_model fuel parent sequence current_path
                | None => ret parent
                end
            | None, Some restriction =>
                print ("Warning: xs:complexContent with restriction at " ++ current_path
                         ++ " found. This is a complex case and might not be fully generated.") ;;;
                parent <- _process_attributes parent_xml_element restriction ;;
                match find restriction (xsd "sequence") with
                | Some _ as sequence =>
                    _process_content_model fuel parent sequence current_path
                | None => ret parent
                end
            | None, None =>
                print ("Warning: xs:complexContent at " ++ current_path
                         ++ " has no extension or restriction.") ;;;
                ret parent_xml_element
            end
          else if String.eqb (tag_of cme) (xsd "simpleContent") then
            process_simple_content parent_xml_element cme current_path
          else
            print ("Warning: Unhandled content model tag: " ++ tag_of cme ++ " at "
                     ++ current_path ++ ". Skipping content generation for this part.") ;;;
            ret parent_xml_element
      end
  end.

End Generator.

(** [root.find(f"{XSD_NAMESPACE}element[@name='{name}']")].  lxml reads
    the whole string as a path expression: a tag, and a predicate that
    compares the attribute [name] with the text between the two quotes.
    For a [name] without an apostrophe that text is [name], and the
    answer is the first global element declaration whose [name] attribute
    is [name].  An apostrophe in [name] ends the quoted text early and what
    follows it becomes part of the expression; how lxml reads such
    expressions is not described here. *)
Definition find_global_element (root : xsd_node) (name : string)
  : outcome (option xsd_node) :=
  if Py.contains "'" name then Unmodelled
  else Ok (List.find
             (fun n => andb (has_tag (xsd "element") n)
                            (match get n "name" with
                             | Some v => String.eqb v name
                             | None => false
                             end))
             (children_of root)).

(** [generate_xml(root_element_name)].  The result is the root element that
    the source hands to [etree.tostring]. *)
Definition generate_xml (self : XSDToXMLGenerator) (fuel : nat)
    (root_element_name : option string) : M xml_tree :=
  selected_root_xsd_element <-
    (if Py.truthy root_element_name then
       found <- lift (find_global_element (schema_root self)
                        (Py.str_of_opt root_element_name)) ;;
       match found with
       | Some e => ret e
       | None =>
           raise (ValueError ("Root element '" ++ Py.str_of_opt root_element_name
                                ++ "' not found in XSD."))
       end
     else
       match find (schema_root self) (xsd "element") with
       | Some e =>
           print ("Info: No specific root element specified. Using first global element: '"
                    ++ Py.str_of_opt (get e "name") ++ "'") ;;;
           ret e
       | None =>
           raise (ValueError
                    "No global element definition found in the XSD to start XML generation.")
       end) ;;
  match get selected_root_xsd_element "name" with
  | None => raise (TypeError "Argument 'tag' has incorrect type")
  | Some root_name =>
      root_element <- lift (etree_Element root_name (namespace_map self)) ;;
      _generate_xml_element self fuel root_element selected_root_xsd_element ""
  end.

(** A fresh session: nothing printed yet. *)
Definition new_session (r : nat -> Z) (here utc : datetime) : session :=
  mkSession r here utc [].

(* ================================================================== *)
(** ** Vocabulary of the properties *)
(* ================================================================== *)

(** The names of the built-in types that the synthesizer knows: the keys
    of the dictionary literal of lines 12 to 53. *)
Definition builtin_type_names : list string :=
  [ "string"; "normalizedstring"; "token"; "boolean"; "decimal"; "integer";
    "long"; "int"; "short"; "byte"; "nonnegativeinteger"; "positiveinteger";
    "nonpositiveinteger"; "negativeinteger"; "double"; "float"; "duration";
    "datetime"; "time"; "date"; "gyearmonth"; "gyear"; "gmonthday"; "gday";
    "gmonth"; "hexbinary"; "base64binary"; "anyuri"; "qname"; "notation";
    "id"; "idref"; "idrefs"; "nmtoken"; "nmtokens"; "name"; "ncname";
    "language"; "entity"; "entities"; "notations"; "anysimpletype" ].

(** The built-in types whose sample is the same in every call, with that
    sample (lines 12 to 53). *)
Definition fixed_samples : list (string * string) :=
  [ ("string", "sample_string");
    ("normalizedstring", "sample_normalized_string");
    ("token", "sample_token");
    ("duration", "P1Y2M3DT4H5M6S");
    ("hexbinary", "0FB7");
    ("base64binary", "AQIDBA==");
    ("anyuri", "http://example.com/resource");
    ("qname", "tns:sampleQName");
    ("notation", "sample_notation");
    ("idrefs", "idrefs_1 idrefs_2");
    ("nmtoken", "sample_NMTOKEN");
    ("nmtokens", "sample_NMTOKEN_1 sample_NMTOKEN_2");
    ("name", "sample_Name");
    ("ncname", "sampleNCName");
    ("language", "en-US");
    ("entity", "entity_name");
    ("entities", "entity_name_1 entity_name_2");
    ("notations", "notation_1 notation_2");
    ("anysimpletype", "any_simple_type_value") ].

(** A name is a known built-in type when its lower-case form is one of
    them. *)
Definition is_builtin (name : string) : bool :=
  existsb (String.eqb (Py.lower name)) builtin_type_names.

(** A string whose first character is there and is not [U]: no such
    string starts with ["UNKNOWN_TYPE_"]. *)
Definition starts_plain (v : string) : Prop :=
  match v with
  | String c _ => c <> "U"%char
  | EmptyString => False
  end.

(** Schema nodes, for writing schemas down. *)
Definition xs (local : string) (attrs : list (string * string)) (kids : list xsd_node)
  : xsd_node :=
  XNode (xsd local) attrs kids.

(** The result of a call without the session it leaves. *)
Definition value_of {A} (o : outcome (A * session)) : outcome A :=
  match o with
  | Ok (a, _) => Ok a
  | Raise e => Raise e
  | OutOfFuel => OutOfFuel
  | Unmodelled => Unmodelled
  end.

(* ================================================================== *)
(** ** Sample sessions and schema fragments *)
(* ================================================================== *)

Definition noon : datetime := mkDatetime 2024 3 9 12 0 0.

(** [<xs:element name="Ntry" minOccurs="3" maxOccurs="unbounded"/>] *)
Definition entry_three_or_more : xsd_node :=
  xs "element" [("name", "Ntry"); ("minOccurs", "3"); ("maxOccurs", "unbounded")] [].

(** An element whose inline simple type restricts an anonymous simple
    type, so that the [restriction] has a [simpleType] child in place of a
    [base] attribute. *)
Definition code_restriction_without_base : xsd_node :=
  xs "element" [("name", "Cd")]
    [xs "simpleType" []
       [xs "restriction" []
          [xs "simpleType" [] [xs "restriction" [("base", "xs:string")] []];
           xs "enumeration" [("value", "A")] []]]].

(** An element whose inline complex type has simple content with an
    [extension] that names no [base]. *)
Definition amount_extension_without_base : xsd_node :=
  xs "element" [("name", "Amt")]
    [xs "complexType" []
       [xs "simpleContent" []
          [xs "extension" [] [xs "attribute" [("name", "Ccy"); ("type", "xs:string")] []]]]].

(** The credit/debit indicator as an attribute: an inline enumeration with
    the two facets [CRDT] and [DBIT] and nothing else. *)
Definition credit_debit_attribute : xsd_node :=
  xs "attribute" [("name", "CdtDbtInd")]
    [xs "simpleType" []
       [xs "restriction" [("base", "xs:string")]
          [xs "enumeration" [("value", "CRDT")] [];
           xs "enumeration" [("value", "DBIT")] []]]].

Definition entry_type : xsd_node :=
  xs "complexType" [("name", "Entry")] [credit_debit_attribute].

Definition entry_schema : xsd_node :=
  xs "schema" []
    [xs "element" [("name", "Ntry"); ("type", "Entry")] []; entry_type].


(** A type whose content model is a [choice] without children, and a
    schema that uses it. *)
Definition empty_choice : xsd_node := xs "choice" [] [].

Definition party_type : xsd_node := xs "complexType" [("name", "Party")] [empty_choice].

Definition party_schema : xsd_node :=
  xs "schema" [] [xs "element" [("name", "Pty"); ("type", "Party")] []; party_type].

(** A type definition in which a childless [sequence] stands before a
    [choice] that has an alternative. *)
Definition shadowed_type : xsd_node :=
  xs "complexType" [("name", "Shadowed")]
    [xs "sequence" [] [];
     xs "choice" [] [xs "element" [("name", "A")] []]].

(* ================================================================== *)
(** ** A program logic for the session monad *)
(* ================================================================== *)

(** [ensures m Q]: whenever [m] returns, its result satisfies [Q]. *)
Definition ensures {A} (m : M A) (Q : A -> Prop) : Prop :=
  forall s a s', m s = Ok (a, s') -> Q a.


(** [p] with [added] after its children. *)
Definition add_children (added : list xml_tree) (p : xml_tree) : xml_tree :=
  let (t, ns, a, x, c) := p in XmlElement t ns a x (c ++ added)%list.

(** [p'] is [p] with more children after the ones it had; attributes and
    text may have been set. *)
Definition grows (p p' : xml_tree) : Prop :=
  xml_tag p' = xml_tag p /\
  exists added, xml_children p' = (xml_children p ++ added)%list.

(** [p'] is [p] with new children after the ones it had, each with the
    tag [name], and nothing else changed. *)
Definition extended_with (name : option string) (p p' : xml_tree) : Prop :=
  exists added,
    p' = add_children added p /\
    Forall (fun c => Some (xml_tag c) = name) added.












(** [p'] has the tag and the children of [p]. *)
Definition same_children (p p' : xml_tree) : Prop :=
  xml_tag p' = xml_tag p /\ xml_children p' = xml_children p.

(** [<xs:choice>] between [A] and [B]. *)
Definition choice_a_b : xsd_node :=
  xs "choice" [] [xs "element" [("name", "A")] []; xs "element" [("name", "B")] []].

(** [<xs:element ref="tns:Acct"/>]: a declaration by reference, with the
    default bounds and no name of its own. *)
Definition account_ref : xsd_node := xs "element" [("ref", "tns:Acct")] [].

(** [<xs:element name="Amt" type="xs:decimal" minOccurs="1" maxOccurs="1"/>] *)
Definition amount_once : xsd_node :=
  xs "element"
    [("name", "Amt"); ("type", "xs:decimal"); ("minOccurs", "1"); ("maxOccurs", "1")] [].

(** A base type with one child element, and two types that extend it: one
    adds its element in a [sequence], the other in a [choice]. *)
Definition base_type : xsd_node :=
  xs "complexType" [("name", "Base")]
    [xs "sequence" [] [xs "element" [("name", "Id"); ("type", "xs:string")] []];
     xs "attribute" [("name", "ver"); ("type", "xs:string")] []].

Definition extension_with_sequence : xsd_node :=
  xs "complexContent" []
    [xs "extension" [("base", "Base")]
       [xs "sequence" [] [xs "element" [("name", "Nm"); ("type", "xs:string")] []];
        xs "attribute" [("name", "lang"); ("type", "xs:string")] []]].

Definition extension_with_choice : xsd_node :=
  xs "complexContent" []
    [xs "extension" [("base", "Base")]
       [xs "choice" [] [xs "element" [("name", "Nm"); ("type", "xs:string")] []]]].

Definition derived_schema (content : xsd_node) : xsd_node :=
  xs "schema" []
    [xs "element" [("name", "Pty"); ("type", "Derived")] [];
     base_type;
     xs "complexType" [("name", "Derived")] [content]].

(** A session whose draws are 0, 1, 2, ... *)
Definition counting_session : session := new_session (fun n => Z.of_nat n) noon noon.


(** A session whose draws are all [r]. *)
Definition constant_session (r : Z) : session := new_session (fun _ => r) noon noon.




(** [<xs:choice>] whose first alternative is a reference to the global
    element [Acct] and whose second alternative is [B], and a schema with
    it. *)
Definition choice_ref_b : xsd_node :=
  xs "choice" []
    [xs "element" [("ref", "Acct")] [];
     xs "element" [("name", "B"); ("type", "xs:string")] []].

Definition choice_ref_schema : xsd_node :=
  xs "schema" []
    [xs "element" [("name", "Doc")] [xs "complexType" [] [choice_ref_b]];
     xs "element" [("name", "Acct"); ("type", "xs:string")] []].

(** [<xs:choice>] whose first alternative may repeat. *)
Definition choice_repeated_a_b : xsd_node :=
  xs "choice" []
    [xs "element" [("name", "A"); ("type", "xs:string"); ("maxOccurs", "unbounded")] [];
     xs "element" [("name", "B"); ("type", "xs:string")] []].

(** The type name [toKen] written with KELVIN SIGN for its third letter. *)
Definition token_with_kelvin_sign : string :=
  String "t" (String "o" (String "226" (String "132" (String "170" "en")))).

(** [d] carries the non-empty name [n]. *)
Definition named (n : string) (d : xsd_node) : bool :=
  match get d "name" with
  | Some m => andb (Py.truthy (Some m)) (String.eqb n m)
  | None => false
  end.

(** Two global type definitions with one name, and a schema with both. *)
Definition first_amount_type : xsd_node :=
  xs "complexType" [("name", "Amount")] [xs "sequence" [] []].

Definition second_amount_type : xsd_node :=
  xs "complexType" [("name", "Amount")] [xs "all" [] []].

Definition twice_defined_schema : xsd_node :=
  xs "schema" [] [first_amount_type; xs "element" [("name", "Doc")] []; second_amount_type].

(** An extension whose base is written with a namespace prefix. *)
Definition extension_with_prefixed_base : xsd_node :=
  xs "complexContent" []
    [xs "extension" [("base", "tns:Base")]
       [xs "sequence" [] [xs "element" [("name", "Nm"); ("type", "xs:string")] []]]].

(** [<xs:element name="Flg" type="xs:boolean" minOccurs="2" maxOccurs="3"/>] *)
Definition flag_two_to_three : xsd_node :=
  xs "element"
    [("name", "Flg"); ("type", "xs:boolean"); ("minOccurs", "2"); ("maxOccurs", "3")] [].

(** A reference to a global element, with bounds that are not numbers. *)
Definition malformed_ref : xsd_node :=
  xs "element" [("ref", "tns:Acct"); ("minOccurs", "many")] [].

(** The session [s] after [print(line)]. *)
Definition after_print (s : session) (line : string) : session :=
  mkSession (rng s) (local_now s) (utc_now s) (printed s ++ [line]).

(** A type whose attribute has an inline simple type that is a list, not a
    restriction. *)
Definition codes_type : xsd_node :=
  xs "complexType" [("name", "Codes")]
    [xs "attribute" [("name", "codes")]
       [xs "simpleType" [] [xs "list" [("itemType", "xs:string")] []]]].

Definition xml_nsmap (e : xml_tree) : option string := let (_, ns, _, _, _) := e in ns.

(** The names of the attributes of a generated element, in order. *)
Definition attribute_names (e : xml_tree) : list string := map fst (xml_attrib e).

(** The attribute that an attribute declaration stands for: its [name],
    or the local part of its [ref]. *)
Definition attribute_key (attr : xsd_node) : option string :=
  if Py.truthy (get attr "name") then get attr "name"
  else match get attr "ref" with
       | Some (String _ _ as ref_attr) => Some (last (Py.split ":" ref_attr) "")
       | _ => None
       end.

(** [e'] differs from [e] in its attributes at most. *)
Definition attributes_only (e e' : xml_tree) : Prop :=
  xml_tag e' = xml_tag e /\ xml_nsmap e' = xml_nsmap e /\
  xml_text e' = xml_text e /\ xml_children e' = xml_children e.

(** A type with a named attribute, a reference to an attribute and the
    named attribute once more. *)
Definition versioned_type : xsd_node :=
  xs "complexType" [("name", "Versioned")]
    [xs "attribute" [("name", "ver"); ("type", "xs:string")] [];
     xs "attribute" [("ref", "xml:lang")] [];
     xs "attribute" [("name", "ver"); ("type", "xs:int")] []].

(** What [_process_attributes] keeps and what it adds, stated on one
    relation between the element before and after, for the declarations
    [l] processed in between. *)
Definition attributes_set (l : list xsd_node) (e e' : xml_tree) : Prop :=
  attributes_only e e' /\
  (exists extra,
      attribute_names e' = (attribute_names e ++ extra)%list /\
      Forall (fun k => exists attr, In attr l /\ attribute_key attr = Some k) extra) /\
  (forall attr k, In attr l -> attribute_key attr = Some k -> In k (attribute_names e')) /\
  (NoDup (attribute_names e) -> NoDup (attribute_names e')).

(** [<xs:sequence>] of [B], a group reference and [A], in this order. *)
Definition sequence_b_a : xsd_node :=
  xs "sequence" []
    [xs "element" [("name", "B"); ("type", "xs:string")] [];
     xs "group" [("ref", "tns:Grp")] [];
     xs "element" [("name", "A"); ("type", "xs:string")] []].

(** Every node of [e] carries the namespace map [ns]. *)
Fixpoint in_namespace (ns : option string) (e : xml_tree) : Prop :=
  match e with
  | XmlElement _ n _ _ c =>
      n = ns /\
      (fix all (l : list xml_tree) : Prop :=
         match l with
         | [] => True
         | x :: r => in_namespace ns x /\ all r
         end) c
  end.

(** [p'] has the namespace map of [p] and the children of [p] followed by
    children that are in the namespace [ns] throughout. *)
Definition grows_within (ns : option string) (p p' : xml_tree) : Prop :=
  xml_nsmap p' = xml_nsmap p /\
  exists added,
    xml_children p' = (xml_children p ++ added)%list /\
    Forall (in_namespace ns) added.

(** A schema with a target namespace. *)
Definition namespaced_schema : xsd_node :=
  xs "schema" [("targetNamespace", "urn:iso:std:iso:20022:tech:xsd:camt.053.001.08")]
    [xs "element" [("name", "Document")]
       [xs "complexType" []
          [xs "sequence" []
             [xs "element" [("name", "Id"); ("type", "xs:string")] []]]]].

(** Simple content that extends [xs:decimal] with a currency attribute. *)
Definition amount_simple_content : xsd_node :=
  xs "simpleContent" []
    [xs "extension" [("base", "xs:decimal")]
       [xs "attribute" [("name", "Ccy"); ("type", "xs:string")] []]].

(* ================================================================== *)
(** * Properties *)
(* ================================================================== *)

(** ** Python primitives on examples *)

Example split_qualified : Py.split ":" "xs:int" = ["xs"; "int"].
Proof. reflexivity. Qed.

Example split_plain : Py.split ":" "Amount" = ["Amount"].
Proof. reflexivity. Qed.

Example int_plain : Py.int "12" = Ok 12.
Proof. reflexivity. Qed.

Example int_spaced : Py.int " -1_0 " = Ok (-10).
Proof. reflexivity. Qed.

Example int_word :
  Py.int "unbounded" = Raise (ValueError "invalid literal for int() with base 10").
Proof. reflexivity. Qed.

Example lower_mixed : Py.lower "nonNegativeInteger" = "nonnegativeinteger".
Proof. reflexivity. Qed.

Example lower_kelvin_sign : Py.lower token_with_kelvin_sign = "token".
Proof. reflexivity. Qed.

Example name_check_space : name_check "a b" = Raise (ValueError "Invalid tag name").
Proof. reflexivity. Qed.

Example plain_uri_urn : plain_uri "urn:iso:std:iso:20022:tech:xsd:camt.053.001.08" = true.
Proof. reflexivity. Qed.

Example plain_uri_http : plain_uri "http://www.w3.org/2001/XMLSchema" = true.
Proof. reflexivity. Qed.

Example pad_day : Py.pad 2 7 = "07".
Proof. reflexivity. Qed.

(** ** Strings that are never empty *)

Lemma append_nonempty_r (a b : string) : b <> "" -> a ++ b <> "".
Proof.
  intros Hb H. destruct a as [|c a]; simpl in H; [contradiction | discriminate].
Qed.

Lemma str_of_Z_nonempty (n : Z) : Py.str_of_Z n <> "".
Proof.
  unfold Py.str_of_Z, NilZero.string_of_int, NilZero.string_of_uint.
  destruct (Z.to_int n) as [d|d]; destruct d; simpl; discriminate.
Qed.

Lemma pad_nonempty (w n : nat) : Py.pad w n <> "".
Proof. unfold Py.pad. apply append_nonempty_r, str_of_Z_nonempty. Qed.

Lemma uniform_fmt_nonempty (d : nat) (r : Z) : uniform_fmt d r <> "".
Proof.
  unfold uniform_fmt. cbv zeta. apply append_nonempty_r. simpl. discriminate.
Qed.

Lemma choice_of_in {A} (d : A) (xs : list A) (r : Z) :
  xs <> [] -> In (choice_of d xs r) xs.
Proof.
  intros Hne. unfold choice_of. apply nth_In.
  assert (0 < Z.of_nat (List.length xs)) by (destruct xs; [contradiction | simpl; lia]).
  pose proof (Z.mod_pos_bound r (Z.of_nat (List.length xs)) H). lia.
Qed.

Lemma dict_get_in {V} (k : string) (d : list (string * V)) (v : V) :
  dict_get k d = Some v -> In (k, v) d.
Proof.
  induction d as [|[k' v'] d IH]; simpl; [discriminate|].
  destruct (String.eqb k k') eqn:E.
  - apply String.eqb_eq in E. intros [= ->]. subst. now left.
  - intros H. right. auto.
Qed.

Ltac nonempty :=
  unfold isoformat_date, strftime_time;
  repeat first [ discriminate
               | apply uniform_fmt_nonempty
               | apply str_of_Z_nonempty
               | apply pad_nonempty
               | apply append_nonempty_r ].

Lemma type_map_values_nonempty (s : session) :
  Forall (fun kv => snd kv <> "") (type_map s).
Proof.
  unfold type_map. cbv zeta.
  repeat (apply Forall_cons; [ cbn [snd]; try nonempty | ]).
  - pose proof (@choice_of_in string "" ["true"; "false"] (rng s 0%nat)) as H.
    destruct H as [H|[H|[]]]; [discriminate | rewrite <- H; discriminate.. ].
  - apply Forall_nil.
Qed.

(** What [generate_sample_value] returns on a string, and the session it
    leaves. *)
Lemma generate_sample_value_eq (name : string) (s : session) :
  generate_sample_value (Some name) s =
  Ok (match dict_get (Py.lower name) (type_map s) with
      | Some v => v
      | None => "UNKNOWN_TYPE_" ++ name
      end,
      mkSession (fun k => rng s (15 + k)%nat) (local_now s) (utc_now s) (printed s)).
Proof.
  unfold generate_sample_value, bind, skip_draws.
  destruct (dict_get (Py.lower name) (type_map s)); reflexivity.
Qed.

Lemma generate_sample_value_nonempty (name : string) (s : session) :
  exists v s', generate_sample_value (Some name) s = Ok (v, s') /\ v <> "".
Proof.
  rewrite generate_sample_value_eq. eexists; eexists; split; [reflexivity|].
  destruct (dict_get (Py.lower name) (type_map s)) as [v|] eqn:E.
  - apply dict_get_in in E.
    pose proof (type_map_values_nonempty s) as F.
    rewrite Forall_forall in F. exact (F _ E).
  - discriminate.
Qed.

(** The keys of the dictionary are the names of the built-in types, in
    every session. *)
Lemma type_map_keys (s : session) : map fst (type_map s) = builtin_type_names.
Proof. reflexivity. Qed.

Lemma dict_get_none_iff {V} (k : string) (d : list (string * V)) :
  dict_get k d = None <-> existsb (String.eqb k) (map fst d) = false.
Proof.
  induction d as [|[a v] d IH]; simpl; [tauto|].
  destruct (String.eqb k a); simpl; [split; discriminate | exact IH].
Qed.

Lemma is_builtin_spec (name : string) (s : session) :
  is_builtin name = false <-> dict_get (Py.lower name) (type_map s) = None.
Proof.
  unfold is_builtin. rewrite <- (type_map_keys s). symmetry. apply dict_get_none_iff.
Qed.

(** ** Samples never look like the marker of an unknown type *)

Lemma starts_plain_app (a b : string) : starts_plain a -> starts_plain (a ++ b).
Proof. destruct a; simpl; [contradiction | auto]. Qed.

Lemma starts_plain_str_of_Z (n : Z) : starts_plain (Py.str_of_Z n).
Proof.
  unfold Py.str_of_Z, NilZero.string_of_int, NilZero.string_of_uint.
  destruct (Z.to_int n) as [d|d]; destruct d; simpl; discriminate.
Qed.

Lemma starts_plain_pad (w n : nat) : starts_plain (Py.pad w n).
Proof.
  unfold Py.pad. destruct (w - String.length (Py.str_of_Z (Z.of_nat n)))%nat.
  - apply starts_plain_str_of_Z.
  - simpl. discriminate.
Qed.

Lemma starts_plain_not_unknown (v : string) :
  starts_plain v -> Py.startswith v "UNKNOWN_TYPE_" = false.
Proof.
  destruct v as [|c v]; [contradiction|]. intros H.
  unfold Py.startswith. cbn [String.prefix].
  destruct (ascii_dec "U" c) as [E|_]; [|reflexivity].
  now contradiction H.
Qed.

Ltac plain :=
  lazymatch goal with
  | |- starts_plain (String _ _) => simpl; discriminate
  | |- starts_plain (_ ++ _) => apply starts_plain_app; plain
  | |- starts_plain (Py.str_of_Z _) => apply starts_plain_str_of_Z
  | |- starts_plain (Py.pad _ _) => apply starts_plain_pad
  | |- starts_plain (uniform_fmt _ _) => unfold uniform_fmt; cbv zeta; plain
  | |- starts_plain (isoformat_date _) => unfold isoformat_date; plain
  | |- starts_plain (strftime_time _) => unfold strftime_time; plain
  end.

Lemma type_map_values_plain (s : session) :
  Forall (fun kv => starts_plain (snd kv)) (type_map s).
Proof.
  unfold type_map. cbv zeta.
  repeat (apply Forall_cons; [ cbn [snd]; try plain | ]).
  - pose proof (@choice_of_in string "" ["true"; "false"] (rng s 0%nat)) as H.
    destruct H as [H|[H|[]]]; [discriminate | rewrite <- H; simpl; discriminate.. ].
  - apply Forall_nil.
Qed.

(** The samples that are the same in every call are the entries of the
    table for their names. *)
Lemma fixed_samples_in_type_map (k sample : string) (s : session) :
  In (k, sample) fixed_samples -> dict_get k (type_map s) = Some sample.
Proof.
  unfold fixed_samples. intros H.
  repeat (destruct H as [H|H]; [injection H as <- <-; reflexivity|]).
  destruct H.
Qed.

(** ** The value synthesizer *)

(** C10: [generate_sample_value] returns on every string, and what it
    returns is never the empty string.  The lookup is on the lower-cased
    name.  When the lower-case form is the name of a built-in type, the
    sample is the entry of the table for it, it does not start with
    ["UNKNOWN_TYPE_"], it is the fixed sample of the type when the type
    has one, and every name with that lower-case form gets the same
    sample.  When the lower-case form is no built-in type the result
    is ["UNKNOWN_TYPE_"] followed by the name as it was given. *)
Theorem C10_generate_sample_value_total (name : string) (s : session) :
  exists v s',
    generate_sample_value (Some name) s = Ok (v, s') /\
    v <> "" /\
    (is_builtin name = true ->
       In (Py.lower name, v) (type_map s) /\
       Py.startswith v "UNKNOWN_TYPE_" = false /\
       (forall sample, In (Py.lower name, sample) fixed_samples -> v = sample) /\
       forall name', Py.lower name' = Py.lower name ->
                     value_of (generate_sample_value (Some name') s) = Ok v) /\
    (is_builtin name = false -> v = "UNKNOWN_TYPE_" ++ name).
Proof.
  eexists; eexists. split; [apply generate_sample_value_eq|].
  destruct (dict_get (Py.lower name) (type_map s)) as [w|] eqn:E.
  - pose proof (dict_get_in _ _ _ E) as Hin.
    split.
    { pose proof (type_map_values_nonempty s) as F.
      rewrite Forall_forall in F. exact (F _ Hin). }
    split.
    + intros _. split; [exact Hin|]. split; [|split].
      * pose proof (type_map_values_plain s) as F.
        rewrite Forall_forall in F. exact (starts_plain_not_unknown _ (F _ Hin)).
      * intros sample Hs. apply (fixed_samples_in_type_map _ _ s) in Hs. congruence.
      * intros name' Hl. rewrite generate_sample_value_eq, Hl, E. reflexivity.
    + intros Hb. apply (is_builtin_spec name s) in Hb. congruence.
  - split; [discriminate|]. split.
    + intros Hb. apply (is_builtin_spec name s) in E. congruence.
    + reflexivity.
Qed.

Lemma C10_generate_sample_value_total_witness :
  value_of (generate_sample_value (Some "STRING") counting_session) = Ok "sample_string" /\
  value_of (generate_sample_value (Some token_with_kelvin_sign) counting_session)
    = Ok "sample_token" /\
  value_of (generate_sample_value (Some "Amount_Type") counting_session)
    = Ok "UNKNOWN_TYPE_Amount_Type".
Proof.
  split; [|split].
  - destruct (C10_generate_sample_value_total "string" counting_session)
      as (v & s' & Hrun & _ & Hb & _).
    destruct (Hb eq_refl) as (_ & _ & _ & Hsame).
    rewrite (Hsame "STRING" eq_refl). f_equal.
    rewrite generate_sample_value_eq in Hrun. now inversion Hrun.
  - destruct (C10_generate_sample_value_total "token" counting_session)
      as (v & s' & Hrun & _ & Hb & _).
    destruct (Hb eq_refl) as (_ & _ & _ & Hsame).
    rewrite (Hsame token_with_kelvin_sign eq_refl). f_equal.
    rewrite generate_sample_value_eq in Hrun. now inversion Hrun.
  - destruct (C10_generate_sample_value_total "Amount_Type" counting_session)
      as (v & s' & Hrun & _ & _ & Hu).
    rewrite Hrun. simpl. f_equal. exact (Hu eq_refl).
Defined.

(** ** The occurrence sampler *)

Lemma randint_of_bounds (a b r : Z) : a <= b -> a <= randint_of a b r <= b.
Proof.
  intros H. unfold randint_of.
  pose proof (Z.mod_pos_bound r (b - a + 1) ltac:(lia)). lia.
Qed.

(** With [maxOccurs="unbounded"] the draw is [randint(min, min(min + 1, 2))]:
    up to [minOccurs = 2] the range is not empty and the count is at least
    one and at most two. *)
Lemma sample_unbounded_small (min_occurs : Z) (s : session) :
  0 <= min_occurs <= 2 ->
  exists n s', sample_occurrences min_occurs Unbounded s = Ok (n, s') /\
               Z.max min_occurs 1 <= n <= 2.
Proof.
  intros H. unfold sample_occurrences, randint.
  assert (E : (Z.min (min_occurs + 1) 2 <? min_occurs) = false) by (apply Z.ltb_ge; lia).
  rewrite E. unfold bind, draw, ret. eexists; eexists; split; [reflexivity|].
  pose proof (randint_of_bounds min_occurs (Z.min (min_occurs + 1) 2) (rng s 0%nat)
                ltac:(lia)) as B.
  destruct (Z.eqb_spec (randint_of min_occurs (Z.min (min_occurs + 1) 2) (rng s 0%nat)) 0);
    destruct (Z.eqb_spec min_occurs 0); cbn [andb]; lia.
Qed.

(** From [minOccurs = 3] on, the range is empty and [randint] raises. *)
Lemma sample_unbounded_large (min_occurs : Z) (s : session) :
  3 <= min_occurs ->
  sample_occurrences min_occurs Unbounded s =
  Raise (ValueError "empty range for randrange()").
Proof.
  intros H. unfold sample_occurrences, randint.
  assert (E : (Z.min (min_occurs + 1) 2 <? min_occurs) = true) by (apply Z.ltb_lt; lia).
  rewrite E. reflexivity.
Qed.

(** C1: on [<xs:element name="Ntry" minOccurs="3" maxOccurs="unbounded"/>]
    the draw is [randint(3, 2)], which raises [ValueError]: whatever the
    generator, the parent, the random draws and the depth allowed, the
    element generator does not return a count, it aborts. *)
Theorem C1_unbounded_min_three_raises
    (self : XSDToXMLGenerator) (fuel : nat) (parent : xml_tree) (path : string)
    (s : session) :
  _get_occurrence entry_three_or_more = Ok (3, Unbounded) /\
  sample_occurrences 3 Unbounded s = Raise (ValueError "empty range for randrange()") /\
  _generate_xml_element self (S fuel) parent entry_three_or_more path s =
  Raise (ValueError "empty range for randrange()").
Proof. repeat split. Qed.

(** ** Type resolution *)

(** C3: a [restriction] without a [base] attribute makes
    [_get_xsd_type_name] evaluate [":" in None], a [TypeError]; so does an
    [extension] without one.  The error leaves [generate_xml] as it is: no
    document is produced for a schema whose root element is declared so. *)
Theorem C3_missing_base_raises (s : session) (fuel : nat) :
  _get_xsd_type_name code_restriction_without_base =
    Raise (TypeError "argument of type 'NoneType' is not iterable") /\
  _get_xsd_type_name amount_extension_without_base =
    Raise (TypeError "argument of type 'NoneType' is not iterable") /\
  generate_xml (init (xs "schema" [] [code_restriction_without_base])) (S fuel) None s =
    Raise (TypeError "argument of type 'NoneType' is not iterable").
Proof. repeat split. Qed.

(** ** Attributes *)

(** C2: the attribute [CdtDbtInd], whose only facets are the enumeration
    values [CRDT] and [DBIT], is set to ["sample_string"] in every run:
    [_process_attributes] takes the base of the restriction as the type
    name and never reads the enumeration. *)
Theorem C2_enumerated_attribute_gets_base_sample (s : session) (fuel : nat) :
  enum_values_of
    (xs "restriction" [("base", "xs:string")]
       [xs "enumeration" [("value", "CRDT")] [];
        xs "enumeration" [("value", "DBIT")] []]) = [Some "CRDT"; Some "DBIT"] /\
  value_of (_process_attributes (Element "Ntry" None) entry_type s) =
    Ok (XmlElement "Ntry" None [("CdtDbtInd", "sample_string")] None []) /\
  value_of (generate_xml (init entry_schema) (S (S fuel)) (Some "Ntry") s) =
    Ok (XmlElement "Ntry" None []  None
          [XmlElement "Ntry" None [("CdtDbtInd", "sample_string")] None []]).
Proof. repeat split. Qed.

(** ** Content model selection *)

(** C5: the type [Party] has a [choice] node, and the chain of [or] passes
    it over because it has no children: no content model is found, the
    [choice] is not walked, and nothing is printed, while walking that
    [choice] prints the warning for a choice without elements.  In
    [Shadowed] the [sequence] comes first and has no children, and the
    [choice] after it is the node that is walked. *)
Theorem C5_childless_content_model_is_passed_over
    (self : XSDToXMLGenerator) (fuel : nat) (parent : xml_tree) (path : string)
    (s : session) :
  find party_type (xsd "choice") = Some empty_choice /\
  content_model_of party_type = None /\
  generate_xml (init party_schema) (S (S fuel)) (Some "Pty") s =
    Ok (XmlElement "Pty" None [] None [XmlElement "Pty" None [] None []], s) /\
  _process_content_model self (S fuel) parent (Some empty_choice) path s =
    Ok (parent,
        mkSession (rng s) (local_now s) (utc_now s)
          (printed s ++ ["Warning: xs:choice at " ++ path ++ " contains no elements."])) /\
  find shadowed_type (xsd "sequence") = Some (xs "sequence" [] []) /\
  content_model_of shadowed_type = find shadowed_type (xsd "choice").
Proof. repeat split. Qed.

(** ** The entry point *)

Lemma find_none_forall {A} (f : A -> bool) (l : list A) :
  (forall x, In x l -> f x = false) -> List.find f l = None.
Proof.
  induction l as [|x l IH]; simpl; intros H; [reflexivity|].
  rewrite (H x (or_introl eq_refl)). apply IH. intros y Hy. apply H. now right.
Qed.

Lemma truthy_nonempty (name : string) : name <> "" -> Py.truthy (Some name) = true.
Proof. destruct name; [contradiction | reflexivity]. Qed.

(** C7, as stated, at the empty string as the requested root name: no
    global element declaration of the schema has the empty name, and yet
    the call does not raise; the empty string counts as no request, and
    the document of the first global element is returned. *)
Lemma C7_empty_root_name_returns_document :
  (forall d, In d (children_of (schema_root (init entry_schema))) ->
             tag_of d = xsd "element" -> get d "name" <> Some "") /\
  value_of (generate_xml (init entry_schema) 3 (Some "") counting_session) =
    Ok (XmlElement "Ntry" None [] None
          [XmlElement "Ntry" None [("CdtDbtInd", "sample_string")] None []]).
Proof.
  split; [|reflexivity].
  intros d [<-|[<-|[]]] _; discriminate.
Qed.

(** C7, for a requested name that is not empty and has no apostrophe in
    it: when no global element declaration has it, [generate_xml] raises
    the error for the missing root.  It does so for every recursion
    budget, the empty one included, and for every session: the element
    generator is not entered and no document is returned. *)
Theorem C7_missing_root_raises
    (self : XSDToXMLGenerator) (fuel : nat) (name : string) (s : session) :
  name <> "" ->
  Py.contains "'" name = false ->
  (forall d, In d (children_of (schema_root self)) ->
             tag_of d = xsd "element" -> get d "name" <> Some name) ->
  generate_xml self fuel (Some name) s =
  Raise (ValueError ("Root element '" ++ name ++ "' not found in XSD.")).
Proof.
  intros Hne Hq Habsent. unfold generate_xml.
  rewrite (truthy_nonempty name Hne). cbn [Py.str_of_opt].
  unfold find_global_element. rewrite Hq.
  rewrite find_none_forall; [reflexivity|].
  intros d Hd. unfold has_tag.
  destruct (String.eqb_spec (tag_of d) (xsd "element")) as [Ht|]; [|reflexivity].
  cbn [andb]. specialize (Habsent d Hd Ht).
  destruct (get d "name") as [v|]; [|reflexivity].
  destruct (String.eqb_spec v name); [congruence | reflexivity].
Qed.

Lemma C7_missing_root_raises_witness :
  generate_xml (init entry_schema) 0 (Some "Document")
    (new_session (fun n => Z.of_nat n) noon noon) =
  Raise (ValueError "Root element 'Document' not found in XSD.").
Proof.
  apply (C7_missing_root_raises (init entry_schema) 0 "Document"
           (new_session (fun n => Z.of_nat n) noon noon)).
  - discriminate.
  - reflexivity.
  - intros d [<-|[<-|[]]] _; discriminate.
Defined.

(** ** Rules of the program logic *)

Lemma ensures_ret {A} (a : A) (Q : A -> Prop) : Q a -> ensures (ret a) Q.
Proof. intros H s b s' [= <- _]. exact H. Qed.

Lemma ensures_bind {A B} (m : M A) (k : A -> M B) (P : A -> Prop) (Q : B -> Prop) :
  ensures m P -> (forall a, P a -> ensures (k a) Q) -> ensures (bind m k) Q.
Proof.
  intros Hm Hk s b s'. unfold bind.
  destruct (m s) as [[a s1]| | |] eqn:E; try discriminate.
  intros H. exact (Hk a (Hm _ _ _ E) _ _ _ H).
Qed.

Lemma ensures_weaken {A} (m : M A) (P Q : A -> Prop) :
  ensures m P -> (forall a, P a -> Q a) -> ensures m Q.
Proof. intros H I s a s' E. exact (I a (H _ _ _ E)). Qed.

Lemma ensures_true {A} (m : M A) : ensures m (fun _ => True).
Proof. intros s a s' _. exact I. Qed.

Lemma ensures_raise {A} (e : py_error) (Q : A -> Prop) : ensures (raise e) Q.
Proof. intros s a s'. discriminate. Qed.

Lemma ensures_out_of_fuel {A} (Q : A -> Prop) : ensures out_of_fuel Q.
Proof. intros s a s'. discriminate. Qed.

Lemma ensures_lift {A} (o : outcome A) : ensures (lift o) (fun a => o = Ok a).
Proof. intros s a s'. unfold lift. destruct o; [intros [= <- _]; reflexivity | discriminate..]. Qed.

Lemma ensures_for_each {A B} (xs : list A) (body : B -> A -> M B) (I : B -> Prop) :
  (forall acc x, In x xs -> I acc -> ensures (body acc x) I) ->
  forall acc, I acc -> ensures (for_each xs body acc) I.
Proof.
  induction xs as [|x xs IH]; intros Hbody acc Hacc; simpl.
  - now apply ensures_ret.
  - apply ensures_bind with (P := I).
    + apply Hbody; [now left | exact Hacc].
    + intros acc' Hacc'. apply IH; [|exact Hacc'].
      intros a y Hy. apply Hbody. now right.
Qed.

Lemma ensures_repeat_times {B} (n : nat) (body : B -> M B) (I : B -> Prop) :
  (forall acc, I acc -> ensures (body acc) I) ->
  forall acc, I acc -> ensures (repeat_times n body acc) I.
Proof.
  induction n as [|n IH]; intros Hbody acc Hacc; simpl.
  - now apply ensures_ret.
  - apply ensures_bind with (P := I); [now apply Hbody | intros; now apply IH].
Qed.

Lemma ensures_element_set (k v : string) (e : xml_tree) :
  ensures (lift (element_set k v e)) (fun e' => e' = set_attr k v e).
Proof.
  intros s a s'. unfold lift, element_set, and_then.
  destruct (name_check k) as [[]| | |]; try discriminate.
  intros [= <- _]. reflexivity.
Qed.

Lemma ensures_etree_Element (t : string) (ns : option string) :
  ensures (lift (etree_Element t ns)) (fun e => e = Element t ns).
Proof.
  intros s a s'. unfold lift, etree_Element, and_then.
  destruct (name_check t) as [[]| | |]; try discriminate.
  destruct (uri_check ns) as [[]| | |]; try discriminate.
  intros [= <- _]. reflexivity.
Qed.

Lemma ensures_etree_SubElement (t : string) (ns : option string) :
  ensures (lift (etree_SubElement t ns)) (fun e => e = Element t ns).
Proof. apply ensures_etree_Element. Qed.

(** ** How the generated tree grows *)

Lemma grows_refl (p : xml_tree) : grows p p.
Proof. split; [reflexivity | exists []; now rewrite app_nil_r]. Qed.

Lemma grows_trans (p q r : xml_tree) : grows p q -> grows q r -> grows p r.
Proof.
  intros [Ht [a Ha]] [Ht' [b Hb]]. split; [congruence|].
  exists (a ++ b)%list. rewrite Hb, Ha. now rewrite <- app_assoc.
Qed.

Lemma grows_set_attr (n v : string) (p : xml_tree) : grows p (set_attr n v p).
Proof. destruct p. split; [reflexivity | exists []; simpl; now rewrite app_nil_r]. Qed.

Lemma grows_set_text (v : option string) (p : xml_tree) : grows p (set_text v p).
Proof. destruct p. split; [reflexivity | exists []; simpl; now rewrite app_nil_r]. Qed.

Lemma grows_add_children (added : list xml_tree) (p : xml_tree) :
  grows p (add_children added p).
Proof. destruct p. split; [reflexivity | now exists added]. Qed.

Lemma extended_with_grows (name : option string) (p p' : xml_tree) :
  extended_with name p p' -> grows p p'.
Proof. intros [added [-> _]]. apply grows_add_children. Qed.

Lemma extended_with_refl (name : option string) (p : xml_tree) : extended_with name p p.
Proof. exists []. split; [destruct p; simpl; now rewrite app_nil_r | constructor]. Qed.

Lemma extended_with_trans (name : option string) (p q r : xml_tree) :
  extended_with name p q -> extended_with name q r -> extended_with name p r.
Proof.
  intros [a [-> Fa]] [b [-> Fb]]. exists (a ++ b)%list. split.
  - destruct p; simpl. now rewrite <- app_assoc.
  - apply Forall_app. now split.
Qed.

Lemma extended_with_append (name : string) (child p : xml_tree) :
  xml_tag child = name -> extended_with (Some name) p (append_child child p).
Proof.
  intros H. exists [child]. split; [now destruct p | constructor; [now rewrite H | constructor]].
Qed.


Lemma same_children_refl (p : xml_tree) : same_children p p.
Proof. now split. Qed.

Lemma same_children_trans (p q r : xml_tree) :
  same_children p q -> same_children q r -> same_children p r.
Proof. intros [] []. split; congruence. Qed.

Lemma same_children_set_attr (n v : string) (p : xml_tree) : same_children p (set_attr n v p).
Proof. now destruct p. Qed.

Lemma same_children_set_text (v : option string) (p : xml_tree) : same_children p (set_text v p).
Proof. now destruct p. Qed.

Lemma same_children_grows (p p' : xml_tree) : same_children p p' -> grows p p'.
Proof. intros [Ht Hc]. split; [exact Ht | exists []; now rewrite app_nil_r]. Qed.

(** [_process_attributes] sets attributes and nothing else. *)
Lemma process_attributes_same_children (e : xml_tree) (d : xsd_node) :
  ensures (_process_attributes e d) (same_children e).
Proof.
  unfold _process_attributes.
  apply ensures_bind with (P := same_children e).
  - apply ensures_for_each; [|apply same_children_refl].
    intros acc attr _ Hacc.
    destruct (Py.truthy (get attr "name")).
    + eapply ensures_bind; [apply ensures_true|]. intros ? _.
      eapply ensures_bind; [apply ensures_true|]. intros ? _.
      eapply ensures_weaken; [apply ensures_element_set|]. intros ? ->.
      eapply same_children_trans; [exact Hacc|]. apply same_children_set_attr.
    + destruct (get attr "ref") as [[|c r]|].
      * eapply ensures_bind; [apply ensures_true|]. intros ? _. now apply ensures_ret.
      * eapply ensures_weaken; [apply ensures_element_set|]. intros ? ->.
        eapply same_children_trans; [exact Hacc|]. apply same_children_set_attr.
      * eapply ensures_bind; [apply ensures_true|]. intros ? _. now apply ensures_ret.
  - intros e' He'. eapply ensures_bind; [apply ensures_true|]. intros ? _.
    now apply ensures_ret.
Qed.

Lemma process_simple_content_same_children (p : xml_tree) (cme : xsd_node) (path : string) :
  ensures (process_simple_content p cme path) (same_children p).
Proof.
  unfold process_simple_content.
  destruct (find cme (xsd "extension")) as [ext|].
  - eapply ensures_bind; [apply ensures_true|]. intros v _.
    eapply ensures_weaken; [apply process_attributes_same_children|].
    intros a Ha. eapply same_children_trans; [apply same_children_set_text | exact Ha].
  - destruct (find cme (xsd "restriction")) as [r|].
    + eapply ensures_bind; [apply ensures_true|]. intros v _.
      eapply ensures_weaken; [apply process_attributes_same_children|].
      intros a Ha. eapply same_children_trans; [apply same_children_set_text | exact Ha].
    + eapply ensures_bind; [apply ensures_true|]. intros ? _.
      apply ensures_ret, same_children_refl.
Qed.

Lemma grows_tag (p p' : xml_tree) : grows p p' -> xml_tag p' = xml_tag p.
Proof. now intros [H _]. Qed.

(** An instance keeps the tag it was created with, provided the content
    model walker lets elements grow. *)
Lemma fill_instance_grows (self : XSDToXMLGenerator)
    (walk : xml_tree -> option xsd_node -> string -> M xml_tree)
    (e : xml_tree) (decl : xsd_node) (path : string) :
  (forall p cme q, ensures (walk p cme q) (grows p)) ->
  ensures (fill_instance self walk e decl path) (grows e).
Proof.
  intros Hwalk. unfold fill_instance.
  eapply ensures_bind; [apply ensures_true|]. intros type_name _.
  destruct (_get_type_definition self type_name) as [type_def|].
  - eapply ensures_bind; [apply process_attributes_same_children|].
    intros e1 H1. apply same_children_grows in H1.
    destruct (content_model_of type_def) as [c|].
    + eapply ensures_weaken; [apply Hwalk|]. intros res Hres. eapply grows_trans; eassumption.
    + destruct (String.eqb (tag_of type_def) (xsd "simpleType")).
      * destruct (find type_def (xsd "restriction")).
        -- eapply ensures_bind; [apply ensures_true|]. intros v _.
           apply ensures_ret. eapply grows_trans; [exact H1 | apply grows_set_text].
        -- apply ensures_ret. eapply grows_trans; [exact H1 | apply grows_set_text].
      * now apply ensures_ret.
  - eapply ensures_bind; [apply process_attributes_same_children|].
    intros e1 H1. apply same_children_grows in H1.
    destruct (find decl (xsd "complexType")) as [ict|].
    + destruct (content_model_of ict) as [c|].
      * eapply ensures_weaken; [apply Hwalk|]. intros res Hres. eapply grows_trans; eassumption.
      * now apply ensures_ret.
    + destruct (find decl (xsd "simpleType")) as [ist|].
      * destruct (find ist (xsd "restriction")).
        -- eapply ensures_bind; [apply ensures_true|]. intros v _.
           apply ensures_ret. eapply grows_trans; [exact H1 | apply grows_set_text].
        -- apply ensures_ret. eapply grows_trans; [exact H1 | apply grows_set_text].
      * eapply ensures_bind; [apply ensures_true|]. intros v _.
        apply ensures_ret. eapply grows_trans; [exact H1 | apply grows_set_text].
Qed.

Lemma truthy_some (o : option string) :
  Py.truthy o = true -> o = Some (Py.str_of_opt o).
Proof. destruct o as [[|]|]; simpl; congruence. Qed.

(** The element generator appends instances named after the declaration
    to the parent and changes nothing else; the content model walker lets
    the element it is given grow. *)
Lemma generator_invariant (self : XSDToXMLGenerator) (fuel : nat) :
  (forall parent decl path,
      ensures (_generate_xml_element self fuel parent decl path)
              (extended_with (get decl "name") parent)) /\
  (forall parent cme path,
      ensures (_process_content_model self fuel parent cme path) (grows parent)).
Proof.
  induction fuel as [|fuel [IHg IHw]]; [split; intros; apply ensures_out_of_fuel|].
  split.
  - intros parent decl path. cbn [_generate_xml_element]. cbv zeta.
    destruct (Py.truthy (get decl "name")) eqn:Hname; cbn [negb].
    2:{ eapply ensures_bind; [apply ensures_true|]. intros ? _.
        apply ensures_ret, extended_with_refl. }
    eapply ensures_bind; [apply ensures_true|]. intros [min_occurs max_occurs] _.
    destruct (andb _ _); [apply ensures_ret, extended_with_refl|].
    eapply ensures_bind; [apply ensures_true|]. intros n _.
    destruct (n =? 0); [apply ensures_ret, extended_with_refl|].
    apply ensures_repeat_times; [|apply extended_with_refl].
    intros acc Hacc.
    eapply ensures_bind; [apply ensures_etree_SubElement|]. intros e0 ->.
    eapply ensures_bind; [apply fill_instance_grows; exact IHw|].
    intros child Hchild. apply ensures_ret.
    eapply extended_with_trans; [exact Hacc|].
    rewrite (truthy_some _ Hname) at 1.
    apply extended_with_append. now rewrite (grows_tag _ _ Hchild).
  - intros parent cme path. cbn [_process_content_model]. cbv zeta.
    destruct cme as [cme|]; [|apply ensures_ret, grows_refl].
    destruct (orb _ _).
    { eapply ensures_bind with (P := grows parent).
      - apply ensures_for_each; [|apply grows_refl].
        intros acc child _ Hacc.
        eapply ensures_weaken; [apply IHg|].
        intros res Hres. eapply grows_trans; [exact Hacc|].
        eapply extended_with_grows; exact Hres.
      - intros p Hp. eapply ensures_bind; [apply ensures_true|]. intros ? _.
        now apply ensures_ret. }
    destruct (String.eqb (tag_of cme) (xsd "choice")).
    { destruct (find cme (xsd "element")).
      - eapply ensures_weaken; [apply IHg|]. intros res Hres.
        eapply extended_with_grows; exact Hres.
      - eapply ensures_bind; [apply ensures_true|]. intros ? _.
        apply ensures_ret, grows_refl. }
    destruct (String.eqb (tag_of cme) (xsd "complexContent")).
    { destruct (find cme (xsd "extension")) as [ext|].
      - eapply ensures_bind with (P := grows parent).
        + destruct (elem_truthy _); [|apply ensures_ret, grows_refl].
          destruct (_get_type_definition self (get ext "base")) as [base|];
            [|apply ensures_ret, grows_refl].
          eapply ensures_bind; [apply process_attributes_same_children|].
          intros p1 H1. apply same_children_grows in H1.
          destruct (base_content_model_of base).
          * eapply ensures_weaken; [apply IHw|]. intros res Hres.
            eapply grows_trans; eassumption.
          * now apply ensures_ret.
        + intros p1 H1.
          eapply ensures_bind; [apply process_attributes_same_children|].
          intros p2 H2. apply same_children_grows in H2.
          destruct (find ext (xsd "sequence")).
          * eapply ensures_weaken; [apply IHw|]. intros res Hres.
            eapply grows_trans; [exact H1|]. eapply grows_trans; eassumption.
          * apply ensures_ret. eapply grows_trans; eassumption.
      - destruct (find cme (xsd "restriction")) as [r|].
        + eapply ensures_bind; [apply ensures_true|]. intros ? _.
          eapply ensures_bind; [apply process_attributes_same_children|].
          intros p2 H2. apply same_children_grows in H2.
          destruct (find r (xsd "sequence")).
          * eapply ensures_weaken; [apply IHw|]. intros res Hres.
            eapply grows_trans; eassumption.
          * now apply ensures_ret.
        + eapply ensures_bind; [apply ensures_true|]. intros ? _.
          apply ensures_ret, grows_refl. }
    destruct (String.eqb (tag_of cme) (xsd "simpleContent")).
    { eapply ensures_weaken; [apply process_simple_content_same_children|].
      intros res Hres. now apply same_children_grows. }
    eapply ensures_bind; [apply ensures_true|]. intros ? _.
    apply ensures_ret, grows_refl.
Qed.

(** ** One instance *)

(** With a name and the bounds 1 and 1, the element generator is "make
    one new element, fill it, append it". *)
Lemma generate_once (self : XSDToXMLGenerator) (fuel : nat) (parent : xml_tree)
    (decl : xsd_node) (path : string) (s : session) :
  Py.truthy (get decl "name") = true ->
  _get_occurrence decl = Ok (1, Finite 1) ->
  _generate_xml_element self (S fuel) parent decl path s =
    bind (lift (etree_SubElement (Py.str_of_opt (get decl "name")) (namespace_map self)))
         (fun xml_element =>
            bind (fill_instance self (_process_content_model self fuel) xml_element
                    decl (path ++ "/" ++ Py.str_of_opt (get decl "name")))
                 (fun child => ret (append_child child parent))) s.
Proof.
  intros Hname Hocc.
  cbn [_generate_xml_element]. cbv zeta. rewrite Hname. cbn [negb].
  unfold bind at 1. unfold lift at 1. rewrite Hocc.
  cbn -[fill_instance append_child etree_SubElement lift].
  change (Pos.to_nat 1) with 1%nat. cbn [repeat_times].
  unfold bind.
  destruct (lift (etree_SubElement _ _) s) as [[e0 s0]| | |]; try reflexivity.
  destruct (fill_instance _ _ _ _ _ s0) as [[child s1]| | |]; reflexivity.
Qed.

Lemma generate_once_child (self : XSDToXMLGenerator) (fuel : nat) (parent : xml_tree)
    (decl : xsd_node) (path : string) (s : session) (parent' : xml_tree) (s' : session) :
  Py.truthy (get decl "name") = true ->
  _get_occurrence decl = Ok (1, Finite 1) ->
  _generate_xml_element self (S fuel) parent decl path s = Ok (parent', s') ->
  exists child,
    parent' = append_child child parent /\
    Some (xml_tag child) = get decl "name".
Proof.
  intros Hname Hocc Hrun. rewrite (generate_once _ _ _ _ _ _ Hname Hocc) in Hrun.
  unfold bind in Hrun.
  destruct (lift (etree_SubElement _ _) s) as [[e0 s0]| | |] eqn:Hnew; try discriminate.
  apply ensures_etree_SubElement in Hnew. subst e0.
  destruct (fill_instance _ _ _ _ _ s0) as [[child s1]| | |] eqn:Hfill; try discriminate.
  injection Hrun as <- _. exists child. split; [reflexivity|].
  pose proof (fill_instance_grows self (_process_content_model self fuel)
                (Element (Py.str_of_opt (get decl "name")) (namespace_map self)) decl
                (path ++ "/" ++ Py.str_of_opt (get decl "name"))
                (proj2 (generator_invariant self fuel)) _ _ _ Hfill) as Hg.
  rewrite (grows_tag _ _ Hg). symmetry. now apply truthy_some.
Qed.

(** ** Choice *)

Lemma find_first {A} (f : A -> bool) (l : list A) (x : A) :
  List.find f l = Some x ->
  f x = true /\
  exists before after,
    l = (before ++ x :: after)%list /\ Forall (fun y => f y = false) before.
Proof.
  induction l as [|y l IH]; simpl; [discriminate|].
  destruct (f y) eqn:E.
  - intros [= ->]. split; [exact E|]. exists [], l. split; [reflexivity | constructor].
  - intros H. destruct (IH H) as [Hx (b & a & -> & Hb)]. split; [exact Hx|].
    exists (y :: b), a. split; [reflexivity | now constructor].
Qed.

(** C8, as stated, at a [choice] whose first element alternative is a
    reference to a global element: the walker returns the parent as it
    was, with no child for the first alternative and none for the second,
    and the document of the schema has an empty [Doc].  And at a [choice]
    whose first alternative may repeat, two instances are generated. *)
Lemma C8_first_alternative_not_generated_once :
  find choice_ref_b (xsd "element") = Some (xs "element" [("ref", "Acct")] []) /\
  value_of (_process_content_model (init choice_ref_schema) 3 (Element "Doc" None)
              (Some choice_ref_b) "/Doc" counting_session) = Ok (Element "Doc" None) /\
  value_of (generate_xml (init choice_ref_schema) 5 (Some "Doc") counting_session) =
    Ok (XmlElement "Doc" None [] None [XmlElement "Doc" None [] None []]) /\
  value_of (_process_content_model (init (xs "schema" [] [])) 3 (Element "Doc" None)
              (Some choice_repeated_a_b) "" (constant_session 1)) =
    Ok (XmlElement "Doc" None [] None
          [XmlElement "A" None [] (Some "sample_string") [];
           XmlElement "A" None [] (Some "sample_string") []]).
Proof. repeat split. Qed.

(** On a [choice] node the walker is the element generator on the first
    element declaration among the children of the node. *)
Lemma walk_choice (self : XSDToXMLGenerator) (fuel : nat) (parent : xml_tree)
    (choice_node : xsd_node) (path : string) (s : session) :
  tag_of choice_node = xsd "choice" ->
  _process_content_model self (S fuel) parent (Some choice_node) path s =
  match find choice_node (xsd "element") with
  | Some first_choice => _generate_xml_element self fuel parent first_choice path s
  | None =>
      bind (print ("Warning: xs:choice at " ++ path ++ " contains no elements."))
           (fun _ => ret parent) s
  end.
Proof.
  intros Htag. cbn [_process_content_model]. cbv zeta. rewrite Htag.
  change (String.eqb (xsd "choice") (xsd "sequence")) with false.
  change (String.eqb (xsd "choice") (xsd "all")) with false.
  change (String.eqb (xsd "choice") (xsd "choice")) with true.
  cbn [orb]. destruct (find choice_node (xsd "element")); reflexivity.
Qed.

(** C8, for a first alternative that has a name and the bounds 1 and 1:
    on a [choice] node the walker does what the element generator does on
    the first element declaration among the children of the node,
    whatever the alternatives after it; every child the parent gains has
    the name of that declaration; and when that declaration has a name and
    the bounds 1 and 1, a run that returns has appended exactly one child.
    On a [choice] without an element declaration the parent is returned as
    it was and one warning is printed. *)
Theorem C8_choice_first_alternative_once
    (self : XSDToXMLGenerator) (fuel : nat) (parent : xml_tree)
    (choice_node : xsd_node) (path : string) (s : session) :
  tag_of choice_node = xsd "choice" ->
  match find choice_node (xsd "element") with
  | Some first_choice =>
      (exists before after,
          children_of choice_node = (before ++ first_choice :: after)%list /\
          Forall (fun n => has_tag (xsd "element") n = false) before) /\
      _process_content_model self (S fuel) parent (Some choice_node) path s =
        _generate_xml_element self fuel parent first_choice path s /\
      (forall parent' s',
          _process_content_model self (S fuel) parent (Some choice_node) path s
            = Ok (parent', s') ->
          extended_with (get first_choice "name") parent parent' /\
          (Py.truthy (get first_choice "name") = true ->
           _get_occurrence first_choice = Ok (1, Finite 1) ->
           exists child,
             parent' = append_child child parent /\
             Some (xml_tag child) = get first_choice "name"))
  | None =>
      _process_content_model self (S fuel) parent (Some choice_node) path s =
        Ok (parent,
            mkSession (rng s) (local_now s) (utc_now s)
              (printed s
                 ++ ["Warning: xs:choice at " ++ path ++ " contains no elements."]))
  end.
Proof.
  intros Htag. pose proof (walk_choice self fuel parent choice_node path s Htag) as Hwalk.
  destruct (find choice_node (xsd "element")) as [first_choice|] eqn:Hfind.
  - split; [|split].
    + destruct (find_first _ _ _ Hfind) as [_ (b & a & Hl & Hb)]. now exists b, a.
    + exact Hwalk.
    + intros parent' s' Hrun. rewrite Hwalk in Hrun. split.
      * exact (proj1 (generator_invariant self fuel) _ _ _ _ _ _ Hrun).
      * intros Hname Hocc. destruct fuel as [|fuel]; [discriminate|].
        exact (generate_once_child self fuel parent first_choice path s parent' s'
                 Hname Hocc Hrun).
  - exact Hwalk.
Qed.

Lemma C8_choice_first_alternative_once_witness :
  exists child,
    value_of (_process_content_model (init (xs "schema" [] [])) 2 (Element "Doc" None)
                (Some choice_a_b) "" counting_session) =
      Ok (append_child child (Element "Doc" None)) /\
    xml_tag child = "A".
Proof.
  pose proof (C8_choice_first_alternative_once (init (xs "schema" [] [])) 1
                (Element "Doc" None) choice_a_b "" counting_session eq_refl) as H.
  cbn [find choice_a_b xs children_of List.find has_tag tag_of] in H.
  change (String.eqb (xsd "element") (xsd "element")) with true in H. cbv iota in H.
  destruct H as (_ & _ & Hone).
  remember (_process_content_model (init (xs "schema" [] [])) 2 (Element "Doc" None)
              (Some choice_a_b) "" counting_session) as run eqn:Hrun.
  vm_compute in Hrun.
  destruct (Hone _ _ Hrun) as [_ Hchild].
  destruct (Hchild eq_refl eq_refl) as (child & Hp & Htag).
  exists child. subst run. split.
  - cbn [value_of]. now rewrite Hp.
  - now injection Htag.
Defined.

(** ** Exactly one instance *)

(** C9, as stated, at a declaration by reference: the bounds are the
    defaults 1 and 1, and the parent gets no child. *)
Lemma C9_unnamed_declaration_yields_no_instance :
  _get_occurrence account_ref = Ok (1, Finite 1) /\
  value_of (_generate_xml_element (init (xs "schema" [] [])) 3 (Element "Doc" None)
              account_ref "" counting_session) = Ok (Element "Doc" None) /\
  xml_children (Element "Doc" None) = [].
Proof. repeat split. Qed.

(** C9, for declarations with a name: with [minOccurs = maxOccurs = 1] the
    sampled count is 1 in every session, the element generator is "make
    one new element, fill it and append it", and so, when it returns, the
    parent has gained exactly one child, with the declared name. *)
Theorem C9_named_once_appends_one_instance
    (self : XSDToXMLGenerator) (fuel : nat) (parent : xml_tree) (decl : xsd_node)
    (path : string) (s : session) :
  Py.truthy (get decl "name") = true ->
  _get_occurrence decl = Ok (1, Finite 1) ->
  sample_occurrences 1 (Finite 1) s = Ok (1, s) /\
  _generate_xml_element self (S fuel) parent decl path s =
    bind (lift (etree_SubElement (Py.str_of_opt (get decl "name")) (namespace_map self)))
         (fun xml_element =>
            bind (fill_instance self (_process_content_model self fuel) xml_element
                    decl (path ++ "/" ++ Py.str_of_opt (get decl "name")))
                 (fun child => ret (append_child child parent))) s /\
  forall parent' s',
    _generate_xml_element self (S fuel) parent decl path s = Ok (parent', s') ->
    exists child,
      parent' = append_child child parent /\
      Some (xml_tag child) = get decl "name".
Proof.
  intros Hname Hocc.
  split; [reflexivity|]. split; [now apply generate_once|].
  intros parent' s'. now apply generate_once_child.
Qed.

Lemma C9_named_once_appends_one_instance_witness :
  exists child,
    value_of (_generate_xml_element (init (xs "schema" [] [])) 2 (Element "Doc" None)
                amount_once "" counting_session) = Ok (append_child child (Element "Doc" None)) /\
    xml_tag child = "Amt".
Proof.
  destruct (C9_named_once_appends_one_instance (init (xs "schema" [] [])) 1
              (Element "Doc" None) amount_once "" counting_session eq_refl eq_refl)
    as (_ & _ & Hone).
  remember (_generate_xml_element (init (xs "schema" [] [])) 2 (Element "Doc" None)
              amount_once "" counting_session) as run eqn:Hrun.
  vm_compute in Hrun.
  destruct (Hone _ _ Hrun) as (child & Hchild & Htag).
  exists child. subst run. split.
  - cbn [value_of]. now rewrite Hchild.
  - now injection Htag.
Defined.

(** ** Extension of a base type *)

(** C6, as stated, at an extension whose own content model is a [choice]:
    the [choice] is there, and the instance has the child of the base type
    only. *)
Lemma C6_choice_in_extension_is_not_walked :
  (exists ext,
      find extension_with_choice (xsd "extension") = Some ext /\
      find ext (xsd "choice") =
        Some (xs "choice" [] [xs "element" [("name", "Nm"); ("type", "xs:string")] []])) /\
  value_of (generate_xml (init (derived_schema extension_with_choice)) 6 (Some "Pty")
              counting_session) =
    Ok (XmlElement "Pty" None [] None
          [XmlElement "Pty" None [("ver", "sample_string")] None
             [XmlElement "Id" None [] (Some "sample_string") []]]).
Proof. split; [eexists; split; reflexivity | reflexivity]. Qed.

(** A definition without children has no attributes and no content model
    to apply. *)
Lemma childless_definition (e : xml_tree) (d : xsd_node) (s : session) :
  children_of d = [] ->
  _process_attributes e d s = Ok (e, s) /\ base_content_model_of d = None.
Proof. destruct d as [t a c]. simpl. intros ->. split; reflexivity. Qed.

Lemma elem_truthy_children (d : xsd_node) :
  elem_truthy (Some d) = false -> children_of d = [].
Proof. simpl. destruct (children_of d); [reflexivity | discriminate]. Qed.

(** C6, for the content the code does walk: when the base of a
    [complexContent] extension is in the registry, a run of the walker that
    returns is made of four steps in this order - the attributes of the
    base type, the content model of the base type, the attributes of the
    extension, the [sequence] of the extension (when it has one) - and the
    children generated for the extension come after those generated for
    the base type. *)
Theorem C6_extension_after_base
    (self : XSDToXMLGenerator) (fuel : nat) (parent : xml_tree)
    (cme ext base : xsd_node) (path : string) (s : session)
    (parent' : xml_tree) (s' : session) :
  tag_of cme = xsd "complexContent" ->
  find cme (xsd "extension") = Some ext ->
  _get_type_definition self (get ext "base") = Some base ->
  _process_content_model self (S fuel) parent (Some cme) path s = Ok (parent', s') ->
  exists p1 s1 p2 s2 p3 s3,
    _process_attributes parent base s = Ok (p1, s1) /\
    match base_content_model_of base with
    | Some _ as base_content_model =>
        _process_content_model self fuel p1 base_content_model path s1
    | None => Ok (p1, s1)
    end = Ok (p2, s2) /\
    _process_attributes p2 ext s2 = Ok (p3, s3) /\
    match find ext (xsd "sequence") with
    | Some _ as sequence => _process_content_model self fuel p3 sequence path s3
    | None => Ok (p3, s3)
    end = Ok (parent', s') /\
    exists from_base from_extension,
      xml_children p2 = (xml_children parent ++ from_base)%list /\
      xml_children parent' =
        (xml_children parent ++ from_base ++ from_extension)%list.
Proof.
  intros Htag Hext Hbase Hrun.
  cbn [_process_content_model] in Hrun. cbv zeta in Hrun. rewrite Htag in Hrun.
  change (String.eqb (xsd "complexContent") (xsd "sequence")) with false in Hrun.
  change (String.eqb (xsd "complexContent") (xsd "all")) with false in Hrun.
  change (String.eqb (xsd "complexContent") (xsd "choice")) with false in Hrun.
  change (String.eqb (xsd "complexContent") (xsd "complexContent")) with true in Hrun.
  cbn [orb] in Hrun. rewrite Hext, Hbase in Hrun.
  (* the base type *)
  assert (Hstage : exists p1 s1 p2 s2,
    _process_attributes parent base s = Ok (p1, s1) /\
    match base_content_model_of base with
    | Some _ as base_content_model =>
        _process_content_model self fuel p1 base_content_model path s1
    | None => Ok (p1, s1)
    end = Ok (p2, s2) /\
    bind (_process_attributes p2 ext)
      (fun parent =>
         match find ext (xsd "sequence") with
         | Some _ as sequence => _process_content_model self fuel parent sequence path
         | None => ret parent
         end) s2 = Ok (parent', s')).
  { unfold bind at 1 in Hrun.
    destruct (elem_truthy (Some base)) eqn:Htruthy.
    - unfold bind at 1 in Hrun.
      destruct (_process_attributes parent base s) as [[p1 s1]| | |] eqn:H1; try discriminate.
      exists p1, s1.
      destruct (base_content_model_of base) as [c|].
      + destruct (_process_content_model self fuel p1 (Some c) path s1)
          as [[p2 s2]| | |] eqn:H2; try discriminate.
        exists p2, s2. repeat split; assumption.
      + exists p1, s1. repeat split; assumption.
    - destruct (childless_definition parent base s (elem_truthy_children _ Htruthy))
        as [Hattrs Hnone].
      exists parent, s, parent, s. rewrite Hnone. repeat split; assumption. }
  destruct Hstage as (p1 & s1 & p2 & s2 & H1 & H2 & Hrest).
  unfold bind in Hrest.
  destruct (_process_attributes p2 ext s2) as [[p3 s3]| | |] eqn:H3; try discriminate.
  exists p1, s1, p2, s2, p3, s3.
  split; [exact H1|]. split; [exact H2|]. split; [exact H3|].
  split; [destruct (find ext (xsd "sequence")); exact Hrest|].
  (* the order of the children *)
  pose proof (process_attributes_same_children _ _ _ _ _ H1) as [_ C1].
  pose proof (process_attributes_same_children _ _ _ _ _ H3) as [_ C3].
  assert (G2 : grows p1 p2).
  { destruct (base_content_model_of base).
    - exact (proj2 (generator_invariant self fuel) _ _ _ _ _ _ H2).
    - injection H2 as <- _. apply grows_refl. }
  assert (G4 : grows p3 parent').
  { destruct (find ext (xsd "sequence")).
    - exact (proj2 (generator_invariant self fuel) _ _ _ _ _ _ Hrest).
    - injection Hrest as <- _. apply grows_refl. }
  destruct G2 as [_ [from_base Hb]]. destruct G4 as [_ [from_extension He]].
  exists from_base, from_extension. split.
  - now rewrite Hb, C1.
  - rewrite He, C3, Hb, C1. now rewrite <- app_assoc.
Qed.

Lemma C6_extension_after_base_witness :
  exists from_base from_extension,
    [XmlElement "Id" None [] (Some "sample_string") [];
     XmlElement "Nm" None [] (Some "sample_string") []] =
    (from_base ++ from_extension)%list.
Proof.
  destruct (_process_content_model (init (derived_schema extension_with_sequence)) 4
              (Element "Pty" None) (Some extension_with_sequence) "/Pty" counting_session)
    as [[p' s']| | |] eqn:Hrun.
  - destruct (C6_extension_after_base
                (init (derived_schema extension_with_sequence)) 3 (Element "Pty" None)
                extension_with_sequence
                (xs "extension" [("base", "Base")]
                   [xs "sequence" [] [xs "element" [("name", "Nm"); ("type", "xs:string")] []];
                    xs "attribute" [("name", "lang"); ("type", "xs:string")] []])
                base_type "/Pty" counting_session p' s' eq_refl eq_refl eq_refl Hrun)
      as (p1 & s1 & p2 & s2 & p3 & s3 & _ & _ & _ & _ & from_base & from_extension & _ & He).
    exists from_base, from_extension.
    vm_compute in Hrun. injection Hrun as <- _. exact He.
  - vm_compute in Hrun. discriminate.
  - vm_compute in Hrun. discriminate.
  - vm_compute in Hrun. discriminate.
Defined.


(** ** Two runs side by side *)










(** ** Shapes *)











(** ** Counts that the draw does not change *)



(** ** The steps of the generator in two runs *)




(** ** Settled schemas *)



Lemma find_in (n : xsd_node) (t : string) (c : xsd_node) :
  find n t = Some c -> In c (children_of n) /\ tag_of c = t.
Proof.
  unfold find. intros H. apply find_some in H. destruct H as [Hin Ht].
  split; [exact Hin | now apply String.eqb_eq].
Qed.

Lemma findall_in (n : xsd_node) (t : string) (c : xsd_node) :
  In c (findall n t) -> In c (children_of n) /\ tag_of c = t.
Proof.
  unfold findall. intros H. apply filter_In in H. destruct H as [Hin Ht].
  split; [exact Hin | now apply String.eqb_eq].
Qed.










(** ** The registry of a settled schema *)




(** The root declaration that [generate_xml] selects is a child of the
    schema root and an element declaration. *)
Lemma selected_root_is_global (self : XSDToXMLGenerator) (root_element_name : option string) :
  ensures
    (if Py.truthy root_element_name then
       found <- lift (find_global_element (schema_root self)
                        (Py.str_of_opt root_element_name)) ;;
       match found with
       | Some e => ret e
       | None =>
           raise (ValueError ("Root element '" ++ Py.str_of_opt root_element_name
                                ++ "' not found in XSD."))
       end
     else
       match find (schema_root self) (xsd "element") with
       | Some e =>
           print ("Info: No specific root element specified. Using first global element: '"
                    ++ Py.str_of_opt (get e "name") ++ "'") ;;;
           ret e
       | None =>
           raise (ValueError
                    "No global element definition found in the XSD to start XML generation.")
       end)
    (fun e =>
       In e (children_of (schema_root self)) /\ tag_of e = xsd "element" /\
       (Py.truthy root_element_name = true -> get e "name" = root_element_name) /\
       (Py.truthy root_element_name = false ->
        find (schema_root self) (xsd "element") = Some e)).
Proof.
  destruct (Py.truthy root_element_name) eqn:Hgiven.
  - eapply ensures_bind; [apply ensures_lift|]. intros found Hfound.
    destruct found as [e|]; [|apply ensures_raise].
    apply ensures_ret. unfold find_global_element in Hfound.
    destruct (Py.contains "'" (Py.str_of_opt root_element_name)); [discriminate|].
    injection Hfound as Hfound. apply find_some in Hfound. destruct Hfound as [Hin Hp].
    apply andb_true_iff in Hp. destruct Hp as [Ht Hn].
    split; [exact Hin|]. split; [now apply String.eqb_eq|]. split; [|discriminate].
    intros _. destruct (get e "name") as [v|]; [|discriminate].
    apply String.eqb_eq in Hn. subst v. symmetry. now apply truthy_some.
  - destruct (find (schema_root self) (xsd "element")) as [e|] eqn:F; [|apply ensures_raise].
    eapply ensures_bind; [apply ensures_true|]. intros _ _. apply ensures_ret.
    pose proof F as F'. apply find_in in F'. destruct F' as [Hin Ht].
    split; [exact Hin|]. split; [exact Ht|]. split; [discriminate | reflexivity].
Qed.



(** ** Two runs over one schema *)




(* ================================================================== *)
(** * Further properties of the generator *)
(* ================================================================== *)

(** ** Names after prefix stripping *)

Lemma split_segments (c : ascii) (s : string) :
  Forall (fun seg => Py.contains c seg = false) (Py.split c s).
Proof.
  induction s as [|d r IH]; simpl.
  - constructor; [reflexivity | constructor].
  - destruct (Ascii.eqb c d) eqn:E.
    + constructor; [reflexivity | exact IH].
    + destruct (Py.split c r) as [|h t].
      * constructor; [simpl; now rewrite E | constructor].
      * inversion IH as [|? ? Hh Ht]; subst.
        constructor; [simpl; now rewrite E | exact Ht].
Qed.

Lemma Forall_nth {A} (P : A -> Prop) (l : list A) (n : nat) (d : A) :
  Forall P l -> P d -> P (nth n l d).
Proof.
  intros Hl Hd. revert n. induction Hl as [|x l Hx Hl IH]; intros [|n]; simpl; auto.
Qed.

Lemma Forall_last {A} (P : A -> Prop) (l : list A) (d : A) :
  Forall P l -> P d -> P (last l d).
Proof.
  intros Hl Hd. induction Hl as [|x l Hx Hl IH]; simpl; [exact Hd|].
  destruct l; [exact Hx | exact IH].
Qed.

Lemma segment_no_colon (s : string) (n : nat) :
  Py.contains ":" (nth n (Py.split ":" s) "") = false.
Proof. apply Forall_nth; [apply split_segments | reflexivity]. Qed.

Lemma last_segment_no_colon (s : string) :
  Py.contains ":" (last (Py.split ":" s) "") = false.
Proof. apply Forall_last; [apply split_segments | reflexivity]. Qed.

Lemma prefix_cons (a : ascii) (s1 s2 : string) :
  String.prefix (String a s1) s2 = true ->
  exists s2', s2 = String a s2' /\ String.prefix s1 s2' = true.
Proof.
  destruct s2 as [|b s2]; cbn [String.prefix]; [discriminate|].
  destruct (Ascii.ascii_dec a b) as [<-|]; [eauto | discriminate].
Qed.

Lemma startswith_xs_contains (t : string) :
  Py.startswith t "xs:" = true -> Py.contains ":" t = true.
Proof.
  unfold Py.startswith. intros H.
  apply prefix_cons in H. destruct H as (t1 & -> & H).
  apply prefix_cons in H. destruct H as (t2 & -> & H).
  apply prefix_cons in H. destruct H as (t3 & -> & _).
  reflexivity.
Qed.

Lemma type_name_of_base_no_colon (base : option string) (t : string) :
  type_name_of_base base = Ok (Some t) -> Py.contains ":" t = false.
Proof.
  unfold type_name_of_base. destruct base as [b|]; [|discriminate].
  destruct (andb _ _).
  - intros [= <-]. apply segment_no_colon.
  - destruct (Py.contains ":" b) eqn:E.
    + intros [= <-]. apply last_segment_no_colon.
    + intros [= <-]. destruct b; [reflexivity | exact E].
Qed.

(** X1: whatever the declaration, a type name that [_get_xsd_type_name]
    returns has no colon in it, so it never starts with ["xs:"]: the prefix
    of a built-in type is stripped like any other, and the name that
    reaches [_get_type_definition] no longer tells a built-in type from a
    type of the schema with the same local name. *)
Theorem X1_type_name_has_no_prefix (xsd_element : xsd_node) (t : string) :
  _get_xsd_type_name xsd_element = Ok (Some t) ->
  Py.contains ":" t = false /\ Py.startswith t "xs:" = false.
Proof.
  intros H.
  assert (Hc : Py.contains ":" t = false).
  { unfold _get_xsd_type_name in H.
    destruct (get xsd_element "type") as [[|c ty]|].
    2:{ remember (String c ty) as tyv eqn:Etyv. clear Etyv.
        destruct (Py.startswith tyv "xs:").
        - injection H as <-. apply segment_no_colon.
        - destruct (Py.contains ":" tyv) eqn:E.
          + injection H as <-. apply last_segment_no_colon.
          + now injection H as <-. }
    all: destruct (Py.truthy (get xsd_element "ref")); [now injection H as <-|];
      destruct (find xsd_element (xsd "complexType")) as [ct|];
      [ destruct (find ct (xsd "simpleContent")) as [sc|]; [|discriminate];
        destruct (find sc (xsd "extension")) as [ext|]; [|discriminate];
        now apply type_name_of_base_no_colon in H
      | destruct (find xsd_element (xsd "simpleType")) as [st|];
        [ destruct (find st (xsd "restriction")) as [r|]; [|discriminate];
          now apply type_name_of_base_no_colon in H
        | now injection H as <- ] ]. }
  split; [exact Hc|].
  destruct (Py.startswith t "xs:") eqn:E; [|reflexivity].
  apply startswith_xs_contains in E. congruence.
Qed.

Lemma X1_type_name_has_no_prefix_witness :
  _get_xsd_type_name (xs "element" [("name", "Amt"); ("type", "tns:Amount")] []) =
    Ok (Some "Amount") /\
  Py.contains ":" "Amount" = false /\ Py.startswith "Amount" "xs:" = false.
Proof.
  split; [reflexivity|].
  exact (X1_type_name_has_no_prefix
           (xs "element" [("name", "Amt"); ("type", "tns:Amount")] []) "Amount" eq_refl).
Defined.

(** ** When type resolution raises *)

(** X2: [_get_xsd_type_name] raises exactly on a declaration that has no
    usable [type] and no usable [ref] and whose inline type has no [base]
    to read: an inline complex type with simple content whose [extension]
    has no [base], or, without an inline complex type, an inline simple
    type whose [restriction] has no [base].  Every other declaration gets
    an answer. *)
Theorem X2_type_name_raises_iff (xsd_element : xsd_node) :
  (exists e, _get_xsd_type_name xsd_element = Raise e) <->
  Py.truthy (get xsd_element "type") = false /\
  Py.truthy (get xsd_element "ref") = false /\
  ((exists ct sc ext,
       find xsd_element (xsd "complexType") = Some ct /\
       find ct (xsd "simpleContent") = Some sc /\
       find sc (xsd "extension") = Some ext /\
       get ext "base" = None) \/
   (find xsd_element (xsd "complexType") = None /\
    exists st r,
      find xsd_element (xsd "simpleType") = Some st /\
      find st (xsd "restriction") = Some r /\
      get r "base" = None)).
Proof.
  assert (Hbase : forall b, (exists e, type_name_of_base b = Raise e) <-> b = None).
  { intros [b|]; unfold type_name_of_base.
    - split; [|discriminate]. intros [e H].
      destruct (andb _ _); [discriminate|].
      destruct (Py.contains ":" b); discriminate.
    - split; [reflexivity | intros _; eexists; reflexivity]. }
  assert (Htail :
    (exists e,
        match find xsd_element (xsd "complexType") with
        | Some complex_type_def =>
            match find complex_type_def (xsd "simpleContent") with
            | Some simple_content_def =>
                match find simple_content_def (xsd "extension") with
                | Some extension_def => type_name_of_base (get extension_def "base")
                | None => Ok None
                end
            | None => Ok None
            end
        | None =>
            match find xsd_element (xsd "simpleType") with
            | Some simple_type_def =>
                match find simple_type_def (xsd "restriction") with
                | Some restriction => type_name_of_base (get restriction "base")
                | None => Ok None
                end
            | None => Ok (Some "string")
            end
        end = Raise e) <->
    ((exists ct sc ext,
         find xsd_element (xsd "complexType") = Some ct /\
         find ct (xsd "simpleContent") = Some sc /\
         find sc (xsd "extension") = Some ext /\
         get ext "base" = None) \/
     (find xsd_element (xsd "complexType") = None /\
      exists st r,
        find xsd_element (xsd "simpleType") = Some st /\
        find st (xsd "restriction") = Some r /\
        get r "base" = None))).
  { destruct (find xsd_element (xsd "complexType")) as [ct|] eqn:Hct.
    - destruct (find ct (xsd "simpleContent")) as [sc|] eqn:Hsc.
      + destruct (find sc (xsd "extension")) as [ext|] eqn:Hext.
        * rewrite Hbase. split.
          -- intros H. left. exists ct, sc, ext. auto.
          -- intros [(ct' & sc' & ext' & H1 & H2 & H3 & H4) | [H _]]; [|discriminate].
             injection H1 as <-. rewrite Hsc in H2. injection H2 as <-.
             rewrite Hext in H3. injection H3 as <-. exact H4.
        * split; [intros [e H]; discriminate|].
          intros [(ct' & sc' & ext' & H1 & H2 & H3 & H4) | [H _]]; [|discriminate].
          injection H1 as <-. rewrite Hsc in H2. injection H2 as <-.
          rewrite Hext in H3. discriminate.
      + split; [intros [e H]; discriminate|].
        intros [(ct' & sc' & ext' & H1 & H2 & H3 & H4) | [H _]]; [|discriminate].
        injection H1 as <-. rewrite Hsc in H2. discriminate.
    - destruct (find xsd_element (xsd "simpleType")) as [st|] eqn:Hst.
      + destruct (find st (xsd "restriction")) as [r|] eqn:Hr.
        * rewrite Hbase. split.
          -- intros H. right. split; [reflexivity|]. exists st, r. auto.
          -- intros [(ct' & sc' & ext' & H1 & _) | (_ & st' & r' & H1 & H2 & H3)];
               [discriminate|].
             injection H1 as <-. rewrite Hr in H2. injection H2 as <-. exact H3.
        * split; [intros [e H]; discriminate|].
          intros [(ct' & sc' & ext' & H1 & _) | (_ & st' & r' & H1 & H2 & H3)];
            [discriminate|].
          injection H1 as <-. rewrite Hr in H2. discriminate.
      + split; [intros [e H]; discriminate|].
        intros [(ct' & sc' & ext' & H1 & _) | (_ & st' & r' & H1 & _)]; discriminate. }
  unfold _get_xsd_type_name.
  destruct (get xsd_element "type") as [[|c ty]|].
  2:{ remember (String c ty) as tyv eqn:Etyv. split.
      - intros [e H]. destruct (Py.startswith tyv "xs:"); [discriminate|].
        destruct (Py.contains ":" tyv); discriminate.
      - subst tyv. intros [H _]. discriminate. }
  all: cbn [Py.truthy]; destruct (Py.truthy (get xsd_element "ref"));
    [ split; [intros [e H]; discriminate | intros (_ & H & _); discriminate]
    | rewrite Htail; tauto ].
Qed.

Lemma X2_type_name_raises_iff_witness :
  (exists e, _get_xsd_type_name code_restriction_without_base = Raise e) /\
  ~ (exists e, _get_xsd_type_name amount_once = Raise e).
Proof.
  split.
  - apply (proj2 (X2_type_name_raises_iff code_restriction_without_base)).
    split; [reflexivity|]. split; [reflexivity|].
    right. split; [reflexivity|]. do 2 eexists. repeat split.
  - intros H. apply (proj1 (X2_type_name_raises_iff amount_once)) in H.
    destruct H as [H _]. discriminate.
Defined.

(** ** The registry of global definitions *)

Lemma dict_get_set_same {V} (k : string) (v : V) (d : list (string * V)) :
  dict_get k (dict_set k v d) = Some v.
Proof.
  induction d as [|[a w] d IH]; simpl.
  - now rewrite String.eqb_refl.
  - destruct (String.eqb k a) eqn:E; simpl; rewrite ?E; [now rewrite String.eqb_refl | exact IH].
Qed.

Lemma dict_get_set_other {V} (k k' : string) (v : V) (d : list (string * V)) :
  k <> k' -> dict_get k (dict_set k' v d) = dict_get k d.
Proof.
  intros Hne. induction d as [|[a w] d IH]; simpl.
  - destruct (String.eqb_spec k k'); [contradiction | reflexivity].
  - destruct (String.eqb_spec k' a) as [->|Ha]; simpl.
    + destruct (String.eqb_spec k a); [contradiction | reflexivity].
    + destruct (String.eqb k a); [reflexivity | exact IH].
Qed.

Lemma find_app_split {A} (f : A -> bool) (l1 l2 : list A) :
  List.find f (l1 ++ l2) =
  match List.find f l1 with Some x => Some x | None => List.find f l2 end.
Proof.
  induction l1 as [|x l1 IH]; simpl; [reflexivity|].
  destruct (f x); [reflexivity | exact IH].
Qed.

(** Looking a name up in the dictionary that the loop of
    [_get_global_definitions] builds: the last definition that carries the
    name, or what the dictionary held before. *)
Lemma global_definitions_fold (n : string) (l : list xsd_node)
    (acc : list (string * xsd_node)) :
  dict_get n
    (fold_left
       (fun definitions definition =>
          match get definition "name" with
          | Some name =>
              if Py.truthy (Some name) then dict_set name definition definitions
              else definitions
          | None => definitions
          end) l acc) =
  match List.find (named n) (rev l) with
  | Some d => Some d
  | None => dict_get n acc
  end.
Proof.
  revert acc. induction l as [|y l IH]; intros acc; [reflexivity|].
  cbn [fold_left rev]. rewrite IH, find_app_split.
  destruct (List.find (named n) (rev l)); [reflexivity|].
  cbn [List.find]. unfold named.
  destruct (get y "name") as [m|]; [|reflexivity].
  destruct (Py.truthy (Some m)); cbn [andb]; [|reflexivity].
  destruct (String.eqb_spec n m) as [->|Hne].
  - apply dict_get_set_same.
  - now apply dict_get_set_other.
Qed.

Lemma named_spec (n : string) (d : xsd_node) :
  named n d = true <-> get d "name" = Some n /\ n <> "".
Proof.
  unfold named. destruct (get d "name") as [m|].
  - split.
    + intros H. apply andb_true_iff in H. destruct H as [Ht He].
      apply String.eqb_eq in He. subst m. split; [reflexivity|].
      intros ->. discriminate.
    + intros [[= ->] Hne]. rewrite String.eqb_refl.
      destruct n; [contradiction | reflexivity].
  - split; [discriminate | intros [H _]; discriminate].
Qed.

Lemma find_last_split {A} (f : A -> bool) (l : list A) (x : A) :
  List.find f (rev l) = Some x <->
  exists before after,
    l = (before ++ x :: after)%list /\ f x = true /\ Forall (fun y => f y = false) after.
Proof.
  split.
  - intros H. apply find_first in H. destruct H as [Hx (b & a & Hl & Hb)].
    exists (rev a), (rev b). split; [|split; [exact Hx|]].
    + rewrite <- (rev_involutive l), Hl, rev_app_distr. simpl. now rewrite <- app_assoc.
    + apply Forall_rev. exact Hb.
  - intros (b & a & -> & Hx & Ha).
    rewrite rev_app_distr. simpl. rewrite <- app_assoc, find_app_split.
    rewrite find_none_forall.
    + simpl. now rewrite Hx.
    + intros y Hy. apply in_rev in Hy. rewrite Forall_forall in Ha. now apply Ha.
Qed.

(** X3: [_get_global_definitions] maps a name to the last global
    definition of the requested kind that carries it: a later definition
    with the same name replaces an earlier one, and a definition whose
    name is empty or missing is not indexed at all. *)
Theorem X3_global_definitions_last_wins
    (root : xsd_node) (tag_name n : string) (d : xsd_node) :
  dict_get n (_get_global_definitions root tag_name) = Some d <->
  n <> "" /\
  exists before after,
    findall root (xsd tag_name) = (before ++ d :: after)%list /\
    get d "name" = Some n /\
    Forall (fun later => get later "name" <> Some n) after.
Proof.
  unfold _get_global_definitions. rewrite global_definitions_fold.
  cbn [dict_get].
  assert (H : (match List.find (named n) (rev (findall root (xsd tag_name))) with
               | Some x => Some x
               | None => None
               end = Some d) <->
              List.find (named n) (rev (findall root (xsd tag_name))) = Some d).
  { destruct (List.find _ _); tauto. }
  rewrite H, find_last_split. clear H. split.
  - intros (b & a & Hl & Hd & Ha). apply named_spec in Hd. destruct Hd as [Hd Hne].
    split; [exact Hne|]. exists b, a. split; [exact Hl|]. split; [exact Hd|].
    eapply Forall_impl; [|exact Ha]. intros x Hx Hn.
    assert (named n x = true) by (apply named_spec; now split). congruence.
  - intros (Hne & b & a & Hl & Hd & Ha). exists b, a. split; [exact Hl|]. split.
    + apply named_spec. now split.
    + eapply Forall_impl; [|exact Ha]. intros x Hx.
      destruct (named n x) eqn:E; [|reflexivity].
      apply named_spec in E. destruct E as [E _]. contradiction.
Qed.

Lemma X3_global_definitions_last_wins_witness :
  dict_get "Amount" (_get_global_definitions twice_defined_schema "complexType") =
  Some second_amount_type.
Proof.
  apply (proj2 (X3_global_definitions_last_wins twice_defined_schema "complexType"
                  "Amount" second_amount_type)).
  split; [discriminate|].
  exists [first_amount_type], []. split; [reflexivity|]. split; [reflexivity | constructor].
Defined.

Lemma global_definition_named (root : xsd_node) (tag_name n : string) (d : xsd_node) :
  dict_get n (_get_global_definitions root tag_name) = Some d ->
  In d (children_of root) /\ tag_of d = xsd tag_name /\ get d "name" = Some n.
Proof.
  unfold _get_global_definitions. rewrite global_definitions_fold. cbn [dict_get].
  destruct (List.find (named n) (rev (findall root (xsd tag_name)))) as [x|] eqn:F;
    [|discriminate].
  intros [= ->]. apply find_some in F. destruct F as [Hin Hn].
  apply in_rev, findall_in in Hin. apply named_spec in Hn. tauto.
Qed.

(** X4: what [_get_type_definition] returns for a name is a global
    definition of the schema that carries this name, a [complexType] or a
    [simpleType]; when both kinds have the name the complex type is the
    one returned.  A name that starts with ["xs:"] is never looked up. *)
Theorem X4_type_definition_is_named_global
    (root : xsd_node) (type_name : string) (d : xsd_node) :
  _get_type_definition (init root) (Some type_name) = Some d ->
  Py.startswith type_name "xs:" = false /\
  In d (children_of root) /\
  get d "name" = Some type_name /\
  (tag_of d = xsd "complexType" \/
   (tag_of d = xsd "simpleType" /\
    dict_get type_name (_get_global_definitions root "complexType") = None)).
Proof.
  unfold _get_type_definition, init. cbn [complex_types simple_types].
  destruct (Py.startswith type_name "xs:"); [discriminate|].
  destruct (dict_get type_name (_get_global_definitions root "complexType")) as [c|] eqn:Hc.
  - intros [= <-]. apply global_definition_named in Hc. tauto.
  - destruct (dict_get type_name (_get_global_definitions root "simpleType")) as [c|] eqn:Hs;
      [|discriminate].
    intros [= <-]. apply global_definition_named in Hs. tauto.
Qed.

Lemma X4_type_definition_is_named_global_witness :
  In second_amount_type (children_of twice_defined_schema) /\
  get second_amount_type "name" = Some "Amount".
Proof.
  destruct (X4_type_definition_is_named_global twice_defined_schema "Amount"
              second_amount_type eq_refl) as (_ & Hin & Hname & _).
  split; assumption.
Defined.

(** X5: the base of a [complexContent] extension is looked up as it is
    written.  The registry is keyed by the [name] attributes, so when
    these have no colon (as XML names have none) a base written with a
    prefix, such as ["tns:Base"], is never found: the walker then applies
    the attributes and the [sequence] of the extension only, and nothing
    of the base type. *)
Theorem X5_prefixed_base_is_not_resolved
    (root : xsd_node) (fuel : nat) (parent : xml_tree) (cme ext : xsd_node)
    (base : string) (path : string) (s : session) :
  (forall d m, In d (children_of root) -> get d "name" = Some m ->
               Py.contains ":" m = false) ->
  Py.contains ":" base = true ->
  tag_of cme = xsd "complexContent" ->
  find cme (xsd "extension") = Some ext ->
  get ext "base" = Some base ->
  _get_type_definition (init root) (Some base) = None /\
  _process_content_model (init root) (S fuel) parent (Some cme) path s =
    bind (_process_attributes parent ext)
      (fun parent =>
         match find ext (xsd "sequence") with
         | Some _ as sequence =>
             _process_content_model (init root) fuel parent sequence path
         | None => ret parent
         end) s.
Proof.
  intros Hnames Hcolon Htag Hext Hbase.
  assert (Hnone : _get_type_definition (init root) (Some base) = None).
  { destruct (_get_type_definition (init root) (Some base)) as [d|] eqn:E; [|reflexivity].
    unfold _get_type_definition, init in E. cbn [complex_types simple_types] in E.
    destruct (Py.startswith base "xs:"); [discriminate|].
    destruct (dict_get base (_get_global_definitions root "complexType")) as [c|] eqn:Hc.
    - apply global_definition_named in Hc. destruct Hc as (Hin & _ & Hn).
      rewrite (Hnames _ _ Hin Hn) in Hcolon. discriminate.
    - destruct (dict_get base (_get_global_definitions root "simpleType")) as [c|] eqn:Hs;
        [|discriminate].
      apply global_definition_named in Hs. destruct Hs as (Hin & _ & Hn).
      rewrite (Hnames _ _ Hin Hn) in Hcolon. discriminate. }
  split; [exact Hnone|].
  cbn [_process_content_model]. cbv zeta. rewrite Htag.
  change (String.eqb (xsd "complexContent") (xsd "sequence")) with false.
  change (String.eqb (xsd "complexContent") (xsd "all")) with false.
  change (String.eqb (xsd "complexContent") (xsd "choice")) with false.
  change (String.eqb (xsd "complexContent") (xsd "complexContent")) with true.
  cbn [orb]. rewrite Hext, Hbase, Hnone. reflexivity.
Qed.

Lemma X5_prefixed_base_is_not_resolved_witness :
  value_of (_process_content_model (init (derived_schema extension_with_prefixed_base)) 4
              (Element "Pty" None) (Some extension_with_prefixed_base) "/Pty"
              counting_session) =
  Ok (XmlElement "Pty" None [] None [XmlElement "Nm" None [] (Some "sample_string") []]).
Proof.
  destruct (X5_prefixed_base_is_not_resolved
              (derived_schema extension_with_prefixed_base) 3 (Element "Pty" None)
              extension_with_prefixed_base
              (xs "extension" [("base", "tns:Base")]
                 [xs "sequence" [] [xs "element" [("name", "Nm"); ("type", "xs:string")] []]])
              "tns:Base" "/Pty" counting_session) as [_ Hrun].
  - intros d m [<-|[<-|[<-|[]]]] [= <-]; reflexivity.
  - reflexivity.
  - reflexivity.
  - reflexivity.
  - reflexivity.
  - rewrite Hrun. reflexivity.
Defined.

(** ** Instances within the declared bounds *)

Lemma ensures_sample_finite (min_occurs m : Z) :
  0 <= min_occurs <= m -> 1 <= m ->
  ensures (sample_occurrences min_occurs (Finite m)) (fun n => min_occurs <= n <= m).
Proof.
  intros Hmin Hm s n s'. unfold sample_occurrences.
  destruct (Z.ltb_spec 1 m) as [H1|H1].
  - unfold randint. destruct (Z.ltb_spec m min_occurs); [lia|].
    unfold bind, draw, ret. intros [= <- _].
    pose proof (randint_of_bounds min_occurs m (rng s 0%nat) ltac:(lia)).
    destruct (Z.eqb_spec (randint_of min_occurs m (rng s 0%nat)) 0);
      destruct (Z.eqb_spec min_occurs 0); cbn [andb]; lia.
  - destruct (Z.eqb_spec min_occurs 0).
    + unfold bind, coin, draw, ret. intros [= <- _].
      destruct (Z.even (rng s 0%nat)); lia.
    + unfold ret. intros [= <- _]. lia.
Qed.

Lemma ensures_sample_unbounded (min_occurs : Z) :
  0 <= min_occurs <= 2 ->
  ensures (sample_occurrences min_occurs Unbounded) (fun n => min_occurs <= n <= 2).
Proof.
  intros H s n s' Hrun.
  destruct (sample_unbounded_small min_occurs s H) as (n' & s1 & Hrun' & Hb).
  rewrite Hrun in Hrun'. injection Hrun' as -> _. lia.
Qed.

Lemma sample_finite_returns (min_occurs m : Z) (s : session) :
  min_occurs <= m -> exists n s', sample_occurrences min_occurs (Finite m) s = Ok (n, s').
Proof.
  intros H. unfold sample_occurrences.
  destruct (1 <? m).
  - unfold randint. destruct (Z.ltb_spec m min_occurs); [lia|].
    unfold bind, draw, ret. do 2 eexists; reflexivity.
  - destruct (min_occurs =? 0); unfold bind, coin, draw, ret; do 2 eexists; reflexivity.
Qed.

Lemma extended_with_instances (name : string) (k : nat) (body : xml_tree -> M xml_tree)
    (parent : xml_tree) :
  (forall acc, ensures (body acc)
                 (fun p => exists child, p = append_child child acc /\ xml_tag child = name)) ->
  ensures (repeat_times k body parent)
    (fun p => exists added,
         p = add_children added parent /\ List.length added = k /\
         Forall (fun c => xml_tag c = name) added).
Proof.
  intros Hbody. revert parent. induction k as [|k IH]; intros parent; simpl.
  - apply ensures_ret. exists []. split; [|split; [reflexivity | constructor]].
    destruct parent; simpl. now rewrite app_nil_r.
  - eapply ensures_bind; [apply Hbody|]. intros p (child & -> & Htag).
    eapply ensures_weaken; [apply IH|]. intros q (added & -> & Hlen & Hall).
    exists (child :: added). split; [|split].
    + destruct parent; simpl. now rewrite <- app_assoc.
    + simpl. now rewrite Hlen.
    + now constructor.
Qed.

(** X6: for a named declaration whose bounds are in order (a finite
    [maxOccurs] of at least 1 with [0 <= minOccurs <= maxOccurs], or
    ["unbounded"] with [minOccurs] at most 2) the sampler returns in every
    session, and when the element generator returns, the parent has gained
    between [minOccurs] and [maxOccurs] instances of the declaration (at
    most 2 for ["unbounded"]) and is otherwise as it was. *)
Theorem X6_instances_within_bounds
    (self : XSDToXMLGenerator) (fuel : nat) (parent : xml_tree) (decl : xsd_node)
    (path : string) (s : session) (min_occurs : Z) (bound : max_occurs)
    (parent' : xml_tree) (s' : session) :
  Py.truthy (get decl "name") = true ->
  _get_occurrence decl = Ok (min_occurs, bound) ->
  0 <= min_occurs ->
  match bound with
  | Finite m => min_occurs <= m /\ 1 <= m
  | Unbounded => min_occurs <= 2
  end ->
  (exists n s1, sample_occurrences min_occurs bound s = Ok (n, s1)) /\
  (_generate_xml_element self (S fuel) parent decl path s = Ok (parent', s') ->
   exists added,
     parent' = add_children added parent /\
     Forall (fun c => Some (xml_tag c) = get decl "name") added /\
     min_occurs <= Z.of_nat (List.length added) /\
     Z.of_nat (List.length added) <= match bound with Finite m => m | Unbounded => 2 end).
Proof.
  intros Hname Hocc Hmin Hbound. split.
  { destruct bound as [|m].
    - destruct (sample_unbounded_small min_occurs s ltac:(lia)) as (n & s1 & H & _). eauto.
    - apply sample_finite_returns. tauto. }
  intros Hrun. revert Hrun. revert s parent' s'.
  change (ensures (_generate_xml_element self (S fuel) parent decl path)
            (fun parent' =>
               exists added,
                 parent' = add_children added parent /\
                 Forall (fun c => Some (xml_tag c) = get decl "name") added /\
                 min_occurs <= Z.of_nat (List.length added) /\
                 Z.of_nat (List.length added) <=
                   match bound with Finite m => m | Unbounded => 2 end)).
  assert (Hcount : ensures (sample_occurrences min_occurs bound)
                     (fun n => min_occurs <= n <=
                               match bound with Finite m => m | Unbounded => 2 end)).
  { destruct bound as [|m].
    - apply ensures_sample_unbounded. lia.
    - apply ensures_sample_finite; lia. }
  cbn [_generate_xml_element]. cbv zeta. rewrite Hname. cbn [negb].
  eapply ensures_bind; [apply ensures_lift|]. intros [mn mx] E.
  rewrite Hocc in E. injection E as <- <-.
  assert (Hnil : exists added : list xml_tree,
             parent = add_children added parent /\
             Forall (fun c => Some (xml_tag c) = get decl "name") added /\
             List.length added = 0%nat).
  { exists []. split; [destruct parent; simpl; now rewrite app_nil_r|].
    split; [constructor | reflexivity]. }
  destruct (andb _ _) eqn:Hzero.
  { apply andb_true_iff in Hzero. destruct Hzero as [Hz Hm].
    destruct bound as [|[| |]]; try discriminate. lia. }
  eapply ensures_bind; [exact Hcount|]. intros n Hn. cbv beta in Hn.
  destruct (Z.eqb_spec n 0) as [->|Hn0].
  - apply ensures_ret. destruct Hnil as (added & Hp & Hall & Hlen).
    exists added. rewrite Hlen. split; [exact Hp|]. split; [exact Hall|]. simpl. lia.
  - eapply ensures_weaken.
    + apply extended_with_instances with (name := Py.str_of_opt (get decl "name")).
      intros acc.
      eapply ensures_bind; [apply ensures_etree_SubElement|]. intros e0 ->.
      eapply ensures_bind.
      * apply fill_instance_grows. exact (proj2 (generator_invariant self fuel)).
      * intros child Hchild. apply ensures_ret. exists child.
        split; [reflexivity | exact (grows_tag _ _ Hchild)].
    + intros p (added & -> & Hlen & Hall). exists added.
      split; [reflexivity|]. split.
      * rewrite (truthy_some _ Hname). eapply Forall_impl; [|exact Hall].
        intros c Hc. simpl. now rewrite Hc.
      * rewrite Hlen. rewrite Z2Nat.id; lia.
Qed.

Lemma X6_instances_within_bounds_witness :
  exists added,
    value_of (_generate_xml_element (init (xs "schema" [] [])) 2 (Element "Doc" None)
                flag_two_to_three "" counting_session) =
      Ok (add_children added (Element "Doc" None)) /\
    2 <= Z.of_nat (List.length added) <= 3.
Proof.
  destruct (_generate_xml_element (init (xs "schema" [] [])) 2 (Element "Doc" None)
              flag_two_to_three "" counting_session) as [[p s']| | |] eqn:Hrun;
    [|vm_compute in Hrun; discriminate..].
  destruct (X6_instances_within_bounds (init (xs "schema" [] [])) 1 (Element "Doc" None)
              flag_two_to_three "" counting_session 2 (Finite 3) p s'
              eq_refl eq_refl ltac:(lia) ltac:(simpl; lia)) as [_ H].
  destruct (H Hrun) as (added & -> & _ & Hlo & Hhi).
  exists added. split; [reflexivity | lia].
Defined.

(** ** Declarations that generate nothing *)

(** X7: the element generator looks at the name first and at the bounds
    second.  A declaration without a name is skipped with one warning and
    never raises, even when its bounds are not numbers; on a named
    declaration a malformed bound raises; and a named declaration with
    [minOccurs = maxOccurs = 0] returns the parent and the session as they
    were: nothing is drawn, nothing is printed, the type is not resolved. *)
Theorem X7_skipped_declarations
    (self : XSDToXMLGenerator) (fuel : nat) (parent : xml_tree) (decl : xsd_node)
    (path : string) (s : session) :
  (Py.truthy (get decl "name") = false ->
   _generate_xml_element self (S fuel) parent decl path s =
     Ok (parent, after_print s ("Warning: Skipping unnamed element in XSD at " ++ path))) /\
  (Py.truthy (get decl "name") = true ->
   forall e, _get_occurrence decl = Raise e ->
             _generate_xml_element self (S fuel) parent decl path s = Raise e) /\
  (Py.truthy (get decl "name") = true ->
   _get_occurrence decl = Ok (0, Finite 0) ->
   _generate_xml_element self (S fuel) parent decl path s = Ok (parent, s)).
Proof.
  split; [|split].
  - intros Hname. cbn [_generate_xml_element]. cbv zeta. rewrite Hname. reflexivity.
  - intros Hname e He. cbn [_generate_xml_element]. cbv zeta. rewrite Hname. cbn [negb].
    unfold bind, lift. rewrite He. reflexivity.
  - intros Hname Hocc. cbn [_generate_xml_element]. cbv zeta. rewrite Hname. cbn [negb].
    unfold bind, lift. rewrite Hocc. reflexivity.
Qed.

Lemma X7_skipped_declarations_witness :
  (exists e, _get_occurrence malformed_ref = Raise e) /\
  value_of (_generate_xml_element (init (xs "schema" [] [])) 1 (Element "Doc" None)
              malformed_ref "" counting_session) = Ok (Element "Doc" None) /\
  (exists e,
      _generate_xml_element (init (xs "schema" [] [])) 1 (Element "Doc" None)
        (xs "element" [("name", "Acct"); ("minOccurs", "many")] []) "" counting_session
      = Raise e) /\
  _generate_xml_element (init (xs "schema" [] [])) 1 (Element "Doc" None)
    (xs "element" [("name", "Acct"); ("minOccurs", "0"); ("maxOccurs", "0")] []) ""
    counting_session = Ok (Element "Doc" None, counting_session).
Proof.
  split; [eexists; reflexivity|]. split; [|split].
  - destruct (X7_skipped_declarations (init (xs "schema" [] [])) 0 (Element "Doc" None)
                malformed_ref "" counting_session) as (H & _ & _).
    rewrite (H eq_refl). reflexivity.
  - destruct (X7_skipped_declarations (init (xs "schema" [] [])) 0 (Element "Doc" None)
                (xs "element" [("name", "Acct"); ("minOccurs", "many")] []) ""
                counting_session) as (_ & H & _).
    eexists. apply (H eq_refl). reflexivity.
  - destruct (X7_skipped_declarations (init (xs "schema" [] [])) 0 (Element "Doc" None)
                (xs "element" [("name", "Acct"); ("minOccurs", "0"); ("maxOccurs", "0")] [])
                "" counting_session) as (_ & _ & H).
    exact (H eq_refl eq_refl).
Defined.

(** ** Attribute processing *)

Lemma attribute_groups_return (d : xsd_node) (s : session) :
  exists s',
    for_each (findall d (xsd "attributeGroup"))
      (fun (_ : unit) attr_group_ref =>
         match get attr_group_ref "ref" with
         | Some (String _ _ as ref_name) =>
             print ("Warning: xs:attributeGroup reference '" ++ ref_name
                      ++ "' found. This is not fully resolved. Skipping group content.")
         | _ => ret tt
         end) tt s = Ok (tt, s').
Proof.
  revert s. induction (findall d (xsd "attributeGroup")) as [|g l IH]; intros s; simpl.
  - eexists. reflexivity.
  - unfold bind. destruct (get g "ref") as [[|c r]|]; simpl; apply IH.
Qed.

Lemma element_set_ok (k v : string) (e : xml_tree) :
  name_check k = Ok tt -> element_set k v e = Ok (set_attr k v e).
Proof. intros H. unfold element_set. now rewrite H. Qed.

(** X8: for a definition whose attribute declarations have names that
    lxml accepts (the name of a declaration with a name, the local part of
    the reference of a declaration by reference), [_process_attributes]
    returns exactly when every attribute declaration with a name gets a
    type name: it does not return when [_get_xsd_type_name] raises for one
    of them or answers [None] (an inline simple type that is not a
    restriction, such as a list or a union), since
    [generate_sample_value(None)] raises.  Declarations by reference and
    [attributeGroup] references never keep it from returning. *)
Theorem X8_process_attributes_returns_iff
    (xml_element : xml_tree) (xsd_definition : xsd_node) (s : session) :
  Forall (fun attr => forall k, attribute_key attr = Some k -> name_check k = Ok tt)
         (findall xsd_definition (xsd "attribute")) ->
  ((exists e' s', _process_attributes xml_element xsd_definition s = Ok (e', s')) <->
   Forall (fun attr =>
             Py.truthy (get attr "name") = true ->
             exists t, _get_xsd_type_name attr = Ok (Some t))
          (findall xsd_definition (xsd "attribute"))).
Proof.
  unfold _process_attributes.
  set (body := fun (e : xml_tree) (attr : xsd_node) => _).
  assert (Hbody : forall e0 attr s0,
             (forall k, attribute_key attr = Some k -> name_check k = Ok tt) ->
             ((exists e1 s1, body e0 attr s0 = Ok (e1, s1)) <->
              (Py.truthy (get attr "name") = true ->
               exists t, _get_xsd_type_name attr = Ok (Some t)))).
  { intros e0 attr s0 Hvalid. subst body. cbv beta. unfold attribute_key in Hvalid.
    destruct (Py.truthy (get attr "name")) eqn:Hname.
    - pose proof (Hvalid _ (truthy_some _ Hname)) as Hk.
      unfold bind, lift.
      destruct (_get_xsd_type_name attr) as [[t|]| | |].
      + rewrite generate_sample_value_eq, (element_set_ok _ _ _ Hk).
        split; [intros _ _; eauto | intros _; eauto].
      + split; [intros (e1 & s1 & H); discriminate|].
        intros H. destruct (H eq_refl) as [t Ht]. discriminate.
      + split; [intros (e1 & s1 & H); discriminate|].
        intros H. destruct (H eq_refl) as [t Ht]. discriminate.
      + split; [intros (e1 & s1 & H); discriminate|].
        intros H. destruct (H eq_refl) as [t Ht]. discriminate.
      + split; [intros (e1 & s1 & H); discriminate|].
        intros H. destruct (H eq_refl) as [t Ht]. discriminate.
    - split; [intros _; discriminate|]. intros _.
      destruct (get attr "ref") as [[|c r]|].
      + do 2 eexists. reflexivity.
      + unfold lift. rewrite (element_set_ok _ _ _ (Hvalid _ eq_refl)).
        do 2 eexists. reflexivity.
      + do 2 eexists. reflexivity. }
  assert (Hloop : forall l e0 s0,
             Forall (fun attr =>
                       forall k, attribute_key attr = Some k -> name_check k = Ok tt) l ->
             ((exists e' s', for_each l body e0 s0 = Ok (e', s')) <->
              Forall (fun attr =>
                        Py.truthy (get attr "name") = true ->
                        exists t, _get_xsd_type_name attr = Ok (Some t)) l)).
  { induction l as [|attr l IH]; intros e0 s0 Hvalid.
    - split; [constructor | intros _; do 2 eexists; reflexivity].
    - inversion Hvalid as [|? ? Hattr Hrest]; subst.
      cbn [for_each]. unfold bind at 1.
      pose proof (Hbody e0 attr s0 Hattr) as Hb.
      destruct (body e0 attr s0) as [[e1 s1]| | |].
      + rewrite (IH e1 s1 Hrest). split.
        * intros Hl. constructor; [|exact Hl]. apply Hb. eauto.
        * intros Hl. now inversion Hl.
      + split; [intros (e' & s' & H); discriminate|].
        intros Hl. inversion Hl as [|? ? Ha _]; subst.
        apply Hb in Ha. destruct Ha as (e1 & s1 & H). discriminate.
      + split; [intros (e' & s' & H); discriminate|].
        intros Hl. inversion Hl as [|? ? Ha _]; subst.
        apply Hb in Ha. destruct Ha as (e1 & s1 & H). discriminate.
      + split; [intros (e' & s' & H); discriminate|].
        intros Hl. inversion Hl as [|? ? Ha _]; subst.
        apply Hb in Ha. destruct Ha as (e1 & s1 & H). discriminate. }
  intros Hvalid.
  rewrite <- (Hloop (findall xsd_definition (xsd "attribute")) xml_element s Hvalid).
  unfold bind at 1.
  destruct (for_each (findall xsd_definition (xsd "attribute")) body xml_element s)
    as [[e1 s1]| | |].
  - split; [intros _; eauto|]. intros _. unfold bind.
    destruct (attribute_groups_return xsd_definition s1) as [s2 H2]. rewrite H2.
    do 2 eexists. reflexivity.
  - split; intros (e' & s' & H); discriminate.
  - split; intros (e' & s' & H); discriminate.
  - split; intros (e' & s' & H); discriminate.
Qed.

Lemma X8_process_attributes_returns_iff_witness :
  (exists e' s', _process_attributes (Element "Ntry" None) entry_type counting_session
                 = Ok (e', s')) /\
  ~ (exists e' s', _process_attributes (Element "Ntry" None) codes_type counting_session
                   = Ok (e', s')).
Proof.
  split.
  - apply (proj2 (X8_process_attributes_returns_iff (Element "Ntry" None) entry_type
                    counting_session
                    ltac:(constructor; [intros k [= <-]; reflexivity | constructor]))).
    constructor; [|constructor]. intros _. eexists. reflexivity.
  - intros H.
    apply (proj1 (X8_process_attributes_returns_iff (Element "Ntry" None) codes_type
                    counting_session
                    ltac:(constructor; [intros k [= <-]; reflexivity | constructor]))) in H.
    inversion H as [|? ? Hattr _]; subst.
    destruct (Hattr eq_refl) as [t Ht]. discriminate.
Defined.

Lemma dict_set_names {V} (k : string) (v : V) (d : list (string * V)) :
  map fst (dict_set k v d) =
  if existsb (String.eqb k) (map fst d) then map fst d else (map fst d ++ [k])%list.
Proof.
  induction d as [|[a w] d IH]; simpl; [reflexivity|].
  destruct (String.eqb_spec k a) as [->|Hne]; simpl; [reflexivity|].
  rewrite IH. now destruct (existsb (String.eqb k) (map fst d)).
Qed.

Lemma existsb_eqb_in (k : string) (l : list string) :
  existsb (String.eqb k) l = true <-> In k l.
Proof.
  rewrite existsb_exists. split.
  - intros (x & Hx & E). apply String.eqb_eq in E. now subst.
  - intros H. exists k. split; [exact H | apply String.eqb_refl].
Qed.

(** What one [element.set(k, v)] does to the attribute names. *)
Lemma set_attr_names (k v : string) (e : xml_tree) :
  attributes_only e (set_attr k v e) /\
  (exists extra,
      attribute_names (set_attr k v e) = (attribute_names e ++ extra)%list /\
      Forall (eq k) extra) /\
  In k (attribute_names (set_attr k v e)) /\
  (NoDup (attribute_names e) -> NoDup (attribute_names (set_attr k v e))).
Proof.
  destruct e as [t ns a x c]. unfold attribute_names, attributes_only. simpl.
  rewrite dict_set_names.
  destruct (existsb (String.eqb k) (map fst a)) eqn:E.
  - apply existsb_eqb_in in E. repeat split; auto.
    exists []. split; [now rewrite app_nil_r | constructor].
  - repeat split; auto.
    + exists [k]. split; [reflexivity | now constructor].
    + apply in_or_app. right. now left.
    + intros Hnd. apply NoDup_app; [exact Hnd | repeat constructor; intros [] | ].
      intros y Hy [<-|[]].
      apply existsb_eqb_in in Hy. congruence.
Qed.

Lemma attributes_set_nil (e : xml_tree) : attributes_set [] e e.
Proof.
  split; [repeat split|]. split; [|split].
  - exists []. split; [now rewrite app_nil_r | constructor].
  - intros attr k [].
  - auto.
Qed.

Lemma attributes_set_step (attr : xsd_node) (l : list xsd_node) (e e1 e' : xml_tree) :
  (attribute_key attr = None /\ e1 = e \/
   exists k v, attribute_key attr = Some k /\ e1 = set_attr k v e) ->
  attributes_set l e1 e' ->
  attributes_set (attr :: l) e e'.
Proof.
  intros Hstep ((Ht & Hn & Hx & Hc) & (extra & Hnames & Hextra) & Hall & Hnd).
  assert (Hweak : Forall (fun k => exists a, In a (attr :: l) /\ attribute_key a = Some k)
                    extra).
  { eapply Forall_impl; [|exact Hextra]. intros k (a & Ha & Hk). exists a.
    split; [now right | exact Hk]. }
  destruct Hstep as [[Hkey ->] | (k & v & Hkey & ->)].
  - split; [repeat split; assumption|]. split; [|split].
    + exists extra. now split.
    + intros a k [<-|Ha] Hk; [congruence | eauto].
    + exact Hnd.
  - destruct (set_attr_names k v e) as ((Ht1 & Hn1 & Hx1 & Hc1) & (ex1 & Hnames1 & Hex1)
                                        & Hin1 & Hnd1).
    split; [repeat split; congruence|]. split; [|split].
    + exists (ex1 ++ extra)%list. split.
      * rewrite Hnames, Hnames1. now rewrite <- app_assoc.
      * apply Forall_app. split; [|exact Hweak].
        eapply Forall_impl; [|exact Hex1]. intros k' <-. exists attr.
        split; [now left | exact Hkey].
    + intros a k' [<-|Ha] Hk.
      * rewrite Hkey in Hk. injection Hk as <-.
        rewrite Hnames. apply in_or_app. now left.
      * eauto.
    + auto.
Qed.

(** X9: when [_process_attributes] returns, the element has the tag, the
    namespace map, the text and the children it had; the attribute names
    it had are still there, in their places, followed by new names; every
    new name is the name of an attribute declaration of the definition or
    the local part of its reference; every such name is now an attribute;
    and no name occurs twice if none did before. *)
Theorem X9_process_attributes_sets_declared_names
    (xml_element : xml_tree) (xsd_definition : xsd_node) (s : session)
    (e' : xml_tree) (s' : session) :
  _process_attributes xml_element xsd_definition s = Ok (e', s') ->
  attributes_set (findall xsd_definition (xsd "attribute")) xml_element e'.
Proof.
  unfold _process_attributes.
  set (body := fun (e : xml_tree) (attr : xsd_node) => _).
  assert (Hbody : forall e0 attr s0 e1 s1,
             body e0 attr s0 = Ok (e1, s1) ->
             attribute_key attr = None /\ e1 = e0 \/
             exists k v, attribute_key attr = Some k /\ e1 = set_attr k v e0).
  { intros e0 attr s0 e1 s1. subst body. cbv beta. unfold attribute_key.
    destruct (Py.truthy (get attr "name")) eqn:Hname.
    - unfold bind at 1. unfold lift at 1.
      destruct (_get_xsd_type_name attr) as [[t|]| | |]; try discriminate.
      unfold bind. rewrite generate_sample_value_eq. intros H.
      apply ensures_element_set in H. subst e1.
      right. do 2 eexists. split; [apply truthy_some; exact Hname | reflexivity].
    - destruct (get attr "ref") as [[|c r]|].
      + unfold bind, print, ret. intros [= <- _]. now left.
      + intros H. apply ensures_element_set in H. subst e1.
        right. do 2 eexists. split; reflexivity.
      + unfold bind, print, ret. intros [= <- _]. now left. }
  assert (Hloop : forall l e0 s0 e1 s1,
             for_each l body e0 s0 = Ok (e1, s1) -> attributes_set l e0 e1).
  { induction l as [|attr l IH]; intros e0 s0 e1 s1; cbn [for_each].
    - unfold ret. intros [= <- _]. apply attributes_set_nil.
    - unfold bind at 1. destruct (body e0 attr s0) as [[e2 s2]| | |] eqn:Hb; try discriminate.
      intros Hrest. eapply attributes_set_step; [eapply Hbody; exact Hb|].
      eapply IH; exact Hrest. }
  unfold bind at 1.
  destruct (for_each (findall xsd_definition (xsd "attribute")) body xml_element s)
    as [[e1 s1]| | |] eqn:Hrun; try discriminate.
  unfold bind.
  destruct (attribute_groups_return xsd_definition s1) as [s2 H2]. rewrite H2.
  unfold ret. intros [= <- _]. eapply Hloop; exact Hrun.
Qed.

Lemma X9_process_attributes_sets_declared_names_witness :
  exists e',
    value_of (_process_attributes (Element "Doc" None) versioned_type counting_session)
      = Ok e' /\
    attribute_names e' = ["ver"; "lang"] /\
    xml_children e' = [].
Proof.
  destruct (_process_attributes (Element "Doc" None) versioned_type counting_session)
    as [[e' s']| | |] eqn:Hrun; [|vm_compute in Hrun; discriminate..].
  exists e'. split; [reflexivity|].
  destruct (X9_process_attributes_sets_declared_names _ _ _ _ _ Hrun)
    as ((_ & _ & _ & Hc) & _).
  split; [|exact Hc].
  vm_compute in Hrun. now injection Hrun as <- _.
Defined.

(** ** The document *)

(** What [generate_xml] does once the root declaration is selected. *)
Lemma generated_under_root (self : XSDToXMLGenerator) (fuel : nat) (decl : xsd_node)
    (root_name : string) (s : session) (document : xml_tree) (s' : session) :
  get decl "name" = Some root_name ->
  bind (lift (etree_Element root_name (namespace_map self)))
       (fun root_element => _generate_xml_element self fuel root_element decl "") s
    = Ok (document, s') ->
  extended_with (Some root_name) (Element root_name (namespace_map self)) document.
Proof.
  intros Hname. unfold bind.
  destruct (lift (etree_Element _ _) s) as [[e0 s0]| | |] eqn:Hnew; try discriminate.
  apply ensures_etree_Element in Hnew. subst e0. intros Hrun.
  apply (proj1 (generator_invariant self fuel)) in Hrun. now rewrite Hname in Hrun.
Qed.

(** X10: for a requested root name without an apostrophe in it, or none,
    a document that [generate_xml] returns is a root element named after
    the selected global element declaration (the requested name when one
    is given), with the namespace map of the schema and without
    attributes or text of its own, whose children all carry that same
    name: the instances of the root declaration are generated under a
    root of the same name, not as the root. *)
Theorem X10_document_root_wraps_instances
    (self : XSDToXMLGenerator) (fuel : nat) (root_element_name : option string)
    (s : session) (document : xml_tree) (s' : session) :
  (forall name, root_element_name = Some name -> Py.contains "'" name = false) ->
  generate_xml self fuel root_element_name s = Ok (document, s') ->
  exists decl root_name,
    In decl (children_of (schema_root self)) /\
    tag_of decl = xsd "element" /\
    get decl "name" = Some root_name /\
    root_name <> "" /\
    (Py.truthy root_element_name = true -> root_element_name = Some root_name) /\
    xml_tag document = root_name /\
    xml_nsmap document = namespace_map self /\
    xml_attrib document = [] /\
    xml_text document = None /\
    Forall (fun c => xml_tag c = root_name) (xml_children document).
Proof.
  intros _. unfold generate_xml. unfold bind at 1.
  match goal with
  | |- context [match ?m s with _ => _ end] =>
      destruct (m s) as [[decl s1]| | |] eqn:Hsel; try discriminate
  end.
  apply (selected_root_is_global self root_element_name) in Hsel.
  destruct Hsel as (Hin & Htag & Hgiven & _).
  destruct (get decl "name") as [root_name|] eqn:Hname; try discriminate.
  intros Hrun.
  assert (Hne : root_name <> "").
  { intros ->. unfold bind, lift in Hrun. discriminate. }
  apply (generated_under_root self fuel decl root_name _ _ _ Hname) in Hrun.
  destruct Hrun as (added & -> & Hadded).
  exists decl, root_name. repeat split; try assumption.
  - intros Hg. symmetry. now apply Hgiven.
  - simpl. eapply Forall_impl; [|exact Hadded].
    intros child Hc. now injection Hc.
Qed.

Lemma X10_document_root_wraps_instances_witness :
  exists document,
    value_of (generate_xml (init entry_schema) 3 (Some "Ntry") counting_session)
      = Ok document /\
    xml_tag document = "Ntry" /\
    Forall (fun c => xml_tag c = "Ntry") (xml_children document).
Proof.
  destruct (generate_xml (init entry_schema) 3 (Some "Ntry") counting_session)
    as [[document s']| | |] eqn:Hrun; [|vm_compute in Hrun; discriminate..].
  destruct (X10_document_root_wraps_instances (init entry_schema) 3 (Some "Ntry")
              counting_session document s'
              ltac:(intros name [= <-]; reflexivity) Hrun)
    as (decl & root_name & _ & _ & _ & _ & Hgiven & Htag & _ & _ & _ & Hkids).
  assert (Hn : root_name = "Ntry") by (specialize (Hgiven eq_refl); congruence).
  exists document. split; [reflexivity|]. rewrite Hn in *. split; assumption.
Defined.

(** ** Sequences *)

Lemma add_children_app (a b : list xml_tree) (p : xml_tree) :
  add_children b (add_children a p) = add_children (a ++ b) p.
Proof. destruct p. simpl. now rewrite <- app_assoc. Qed.

Lemma add_children_nil (p : xml_tree) : add_children [] p = p.
Proof. destruct p. simpl. now rewrite app_nil_r. Qed.

(** X11: on a [sequence] (or [all]) the walker generates the element
    declarations in the order in which they are declared.  When it
    returns, the parent has gained, after the children it had, one run of
    children per element declaration, in declaration order, each run made
    of instances of its declaration; group references add no children, and
    the parent is otherwise as it was. *)
Theorem X11_sequence_keeps_declaration_order
    (self : XSDToXMLGenerator) (fuel : nat) (parent : xml_tree) (cme : xsd_node)
    (path : string) (s : session) (parent' : xml_tree) (s' : session) :
  tag_of cme = xsd "sequence" \/ tag_of cme = xsd "all" ->
  _process_content_model self (S fuel) parent (Some cme) path s = Ok (parent', s') ->
  exists runs,
    parent' = add_children (concat runs) parent /\
    Forall2 (fun decl run => Forall (fun c => Some (xml_tag c) = get decl "name") run)
            (findall cme (xsd "element")) runs.
Proof.
  intros Htag. cbn [_process_content_model]. cbv zeta.
  assert (Hseq : orb (String.eqb (tag_of cme) (xsd "sequence"))
                     (String.eqb (tag_of cme) (xsd "all")) = true).
  { destruct Htag as [-> | ->]; reflexivity. }
  rewrite Hseq. unfold bind at 1.
  assert (Hloop : forall l p0 s0 p1 s1,
             for_each l
               (fun parent child_xsd_element =>
                  _generate_xml_element self fuel parent child_xsd_element path)
               p0 s0 = Ok (p1, s1) ->
             exists runs,
               p1 = add_children (concat runs) p0 /\
               Forall2 (fun decl run =>
                          Forall (fun c => Some (xml_tag c) = get decl "name") run)
                       l runs).
  { induction l as [|decl l IH]; intros p0 s0 p1 s1; cbn [for_each].
    - unfold ret. intros [= <- _]. exists []. split; [now rewrite add_children_nil | constructor].
    - unfold bind at 1.
      destruct (_generate_xml_element self fuel p0 decl path s0) as [[p2 s2]| | |] eqn:Hg;
        try discriminate.
      intros Hrest. apply (proj1 (generator_invariant self fuel)) in Hg.
      destruct Hg as (run & -> & Hrun).
      destruct (IH _ _ _ _ Hrest) as (runs & -> & Hruns).
      exists (run :: runs). split; [now rewrite add_children_app | now constructor]. }
  destruct (for_each (findall cme (xsd "element")) _ parent s) as [[p1 s1]| | |] eqn:Hrun;
    try discriminate.
  intros Hrest. unfold bind in Hrest.
  destruct (for_each (findall cme (xsd "group")) _ tt s1) as [[[] s2]| | |];
    try discriminate.
  injection Hrest as <- _. eapply Hloop; exact Hrun.
Qed.

Lemma X11_sequence_keeps_declaration_order_witness :
  exists parent',
    value_of (_process_content_model (init (xs "schema" [] [])) 3 (Element "Doc" None)
                (Some sequence_b_a) "" counting_session) = Ok parent' /\
    map xml_tag (xml_children parent') = ["B"; "A"].
Proof.
  destruct (_process_content_model (init (xs "schema" [] [])) 3 (Element "Doc" None)
              (Some sequence_b_a) "" counting_session) as [[parent' s']| | |] eqn:Hrun;
    [|vm_compute in Hrun; discriminate..].
  destruct (X11_sequence_keeps_declaration_order (init (xs "schema" [] [])) 2
              (Element "Doc" None) sequence_b_a "" counting_session parent' s'
              (or_introl eq_refl) Hrun) as (runs & _ & _).
  exists parent'. split; [reflexivity|].
  vm_compute in Hrun. now injection Hrun as <- _.
Defined.

(** ** Sampled values *)

(** X12: the samples of the numeric types lie in the ranges the source
    draws them from, whatever the case in which the type name is written:
    a [boolean] is ["true"] or ["false"], a [byte] is between 0 and 127, a
    [short] between 1 and 100, an [int], [integer] or [positiveInteger]
    between 1 and 1000, a [long] between 1000 and 100000, a
    [nonNegativeInteger] between 0 and 1000, a [nonPositiveInteger]
    between -1000 and 0 and a [negativeInteger] between -1000 and -1. *)
Theorem X12_numeric_samples_in_range (name : string) (s : session) :
  exists v s',
    generate_sample_value (Some name) s = Ok (v, s') /\
    (Py.lower name = "boolean" -> v = "true" \/ v = "false") /\
    (Py.lower name = "byte" -> exists n, v = Py.str_of_Z n /\ 0 <= n <= 127) /\
    (Py.lower name = "short" -> exists n, v = Py.str_of_Z n /\ 1 <= n <= 100) /\
    (Py.lower name = "int" \/ Py.lower name = "integer" \/
     Py.lower name = "positiveinteger" ->
     exists n, v = Py.str_of_Z n /\ 1 <= n <= 1000) /\
    (Py.lower name = "long" -> exists n, v = Py.str_of_Z n /\ 1000 <= n <= 100000) /\
    (Py.lower name = "nonnegativeinteger" ->
     exists n, v = Py.str_of_Z n /\ 0 <= n <= 1000) /\
    (Py.lower name = "nonpositiveinteger" ->
     exists n, v = Py.str_of_Z n /\ -1000 <= n <= 0) /\
    (Py.lower name = "negativeinteger" ->
     exists n, v = Py.str_of_Z n /\ -1000 <= n <= -1).
Proof.
  do 2 eexists. split; [apply generate_sample_value_eq|].
  assert (Hint : forall a b r, a <= b ->
             exists n, Py.str_of_Z (randint_of a b r) = Py.str_of_Z n /\ a <= n <= b).
  { intros a b r H. exists (randint_of a b r). split; [reflexivity|].
    now apply randint_of_bounds. }
  repeat split.
  - intros ->.
    change (dict_get "boolean" (type_map s))
      with (Some (choice_of "" ["true"; "false"] (rng s 0%nat))).
    destruct (@choice_of_in string "" ["true"; "false"] (rng s 0%nat)) as [H|[H|[]]];
      [discriminate | now left | now right].
  - intros ->.
    change (dict_get "byte" (type_map s))
      with (Some (Py.str_of_Z (randint_of 0 127 (rng s 6%nat)))).
    apply Hint. lia.
  - intros ->.
    change (dict_get "short" (type_map s))
      with (Some (Py.str_of_Z (randint_of 1 100 (rng s 5%nat)))).
    apply Hint. lia.
  - intros [-> | [-> | ->]].
    + change (dict_get "int" (type_map s))
        with (Some (Py.str_of_Z (randint_of 1 1000 (rng s 4%nat)))).
      apply Hint. lia.
    + change (dict_get "integer" (type_map s))
        with (Some (Py.str_of_Z (randint_of 1 1000 (rng s 2%nat)))).
      apply Hint. lia.
    + change (dict_get "positiveinteger" (type_map s))
        with (Some (Py.str_of_Z (randint_of 1 1000 (rng s 8%nat)))).
      apply Hint. lia.
  - intros ->.
    change (dict_get "long" (type_map s))
      with (Some (Py.str_of_Z (randint_of 1000 100000 (rng s 3%nat)))).
    apply Hint. lia.
  - intros ->.
    change (dict_get "nonnegativeinteger" (type_map s))
      with (Some (Py.str_of_Z (randint_of 0 1000 (rng s 7%nat)))).
    apply Hint. lia.
  - intros ->.
    change (dict_get "nonpositiveinteger" (type_map s))
      with (Some (Py.str_of_Z (randint_of (-1000) 0 (rng s 9%nat)))).
    apply Hint. lia.
  - intros ->.
    change (dict_get "negativeinteger" (type_map s))
      with (Some (Py.str_of_Z (randint_of (-1000) (-1) (rng s 10%nat)))).
    apply Hint. lia.
Qed.

Lemma X12_numeric_samples_in_range_witness :
  exists n,
    value_of (generate_sample_value (Some "negativeInteger") (constant_session 2500))
      = Ok (Py.str_of_Z n) /\
    -1000 <= n <= -1.
Proof.
  destruct (X12_numeric_samples_in_range "negativeInteger" (constant_session 2500))
    as (v & s' & Hrun & _ & _ & _ & _ & _ & _ & _ & Hneg).
  destruct (Hneg eq_refl) as (n & -> & Hn).
  exists n. rewrite Hrun. split; [reflexivity | exact Hn].
Defined.

(** ** Leaves *)

Lemma childless_type_name (decl : xsd_node) :
  children_of decl = [] -> exists t, _get_xsd_type_name decl = Ok (Some t).
Proof.
  destruct decl as [tg a c]. simpl. intros ->. unfold _get_xsd_type_name.
  destruct (get (XNode tg a []) "type") as [[|ch ty]|].
  2:{ remember (String ch ty) as tyv eqn:E. clear E.
      destruct (Py.startswith tyv "xs:"); [eauto|].
      destruct (Py.contains ":" tyv); eauto. }
  all: destruct (Py.truthy (get (XNode tg a []) "ref")); [eauto|];
    unfold find; cbn [children_of List.find]; eauto.
Qed.

(** X13: a declaration without child nodes, with a name that lxml
    accepts as a tag, with the bounds 1 and 1 and with a type that is not
    in the registry always yields one leaf, in a schema without a target
    namespace or with a plain URI for it: the type name resolves, the
    element generator returns with a recursion budget of 1, and the parent
    gains exactly one child, which has the declared name, no attributes,
    no children, and as its text the sample that [generate_sample_value]
    gives for the type name, never the empty string. *)
Theorem X13_leaf_declaration_yields_text
    (self : XSDToXMLGenerator) (fuel : nat) (parent : xml_tree) (decl : xsd_node)
    (path : string) (s : session) :
  children_of decl = [] ->
  Py.truthy (get decl "name") = true ->
  name_check (Py.str_of_opt (get decl "name")) = Ok tt ->
  uri_check (namespace_map self) = Ok tt ->
  _get_occurrence decl = Ok (1, Finite 1) ->
  (forall t, _get_xsd_type_name decl = Ok (Some t) ->
             _get_type_definition self (Some t) = None) ->
  exists t v s',
    _get_xsd_type_name decl = Ok (Some t) /\
    generate_sample_value (Some t) s = Ok (v, s') /\
    v <> "" /\
    _generate_xml_element self (S fuel) parent decl path s =
      Ok (append_child
            (XmlElement (Py.str_of_opt (get decl "name")) (namespace_map self)
               [] (Some v) [])
            parent, s').
Proof.
  intros Hleaf Hname Htag Huri Hocc Hreg.
  destruct (childless_type_name decl Hleaf) as [t Ht].
  destruct (generate_sample_value_nonempty t s) as (v & s' & Hv & Hne).
  exists t, v, s'. split; [exact Ht|]. split; [exact Hv|]. split; [exact Hne|].
  rewrite (generate_once self fuel parent decl path s Hname Hocc).
  assert (Hnew : lift (etree_SubElement (Py.str_of_opt (get decl "name"))
                         (namespace_map self)) s =
                 Ok (Element (Py.str_of_opt (get decl "name")) (namespace_map self), s)).
  { unfold lift, etree_SubElement, etree_Element, and_then. now rewrite Htag, Huri. }
  assert (Hfill : forall q,
    fill_instance self (_process_content_model self fuel)
      (Element (Py.str_of_opt (get decl "name")) (namespace_map self)) decl q s =
    Ok (XmlElement (Py.str_of_opt (get decl "name")) (namespace_map self) [] (Some v) [],
        s')).
  { intros q. unfold fill_instance. unfold bind at 1. unfold lift. rewrite Ht.
    rewrite (Hreg t Ht). unfold bind at 1.
    destruct (childless_definition
                (Element (Py.str_of_opt (get decl "name")) (namespace_map self))
                decl s Hleaf) as [Hattrs _].
    rewrite Hattrs.
    assert (Hnone : forall tg, find decl tg = None).
    { intros tg. unfold find. now rewrite Hleaf. }
    rewrite !Hnone. unfold bind. rewrite Hv. reflexivity. }
  unfold bind at 1. rewrite Hnew. unfold bind. rewrite Hfill. reflexivity.
Qed.

Lemma X13_leaf_declaration_yields_text_witness :
  exists v,
    value_of (_generate_xml_element (init (xs "schema" [] [])) 1 (Element "Doc" None)
                amount_once "" counting_session) =
      Ok (XmlElement "Doc" None [] None [XmlElement "Amt" None [] (Some v) []]) /\
    v <> "".
Proof.
  destruct (X13_leaf_declaration_yields_text (init (xs "schema" [] [])) 0
              (Element "Doc" None) amount_once "" counting_session
              eq_refl eq_refl eq_refl eq_refl eq_refl) as (t & v & s' & _ & _ & Hne & Hrun).
  - intros t Ht. injection Ht as <-. reflexivity.
  - exists v. rewrite Hrun. split; [reflexivity | exact Hne].
Defined.

(** ** The namespace map *)

Lemma in_namespace_node (ns : option string) (t : string) (n : option string)
    (a : list (string * string)) (x : option string) (c : list xml_tree) :
  in_namespace ns (XmlElement t n a x c) <-> n = ns /\ Forall (in_namespace ns) c.
Proof.
  cbn [in_namespace].
  assert (H : forall l,
             (fix all (l : list xml_tree) : Prop :=
                match l with
                | [] => True
                | y :: r => in_namespace ns y /\ all r
                end) l <-> Forall (in_namespace ns) l).
  { induction l as [|y l IH]; split; intros Hl.
    - constructor.
    - exact I.
    - destruct Hl as [Hy Hr]. constructor; [exact Hy | now apply IH].
    - inversion Hl; subst. split; [assumption | now apply IH]. }
  now rewrite H.
Qed.

Lemma grows_within_refl (ns : option string) (p : xml_tree) : grows_within ns p p.
Proof. split; [reflexivity|]. exists []. split; [now rewrite app_nil_r | constructor]. Qed.

Lemma grows_within_trans (ns : option string) (p q r : xml_tree) :
  grows_within ns p q -> grows_within ns q r -> grows_within ns p r.
Proof.
  intros [Hn (a & Ha & Fa)] [Hn' (b & Hb & Fb)]. split; [congruence|].
  exists (a ++ b)%list. split.
  - rewrite Hb, Ha. now rewrite <- app_assoc.
  - apply Forall_app. now split.
Qed.

Lemma grows_within_set_attr (ns : option string) (k v : string) (p : xml_tree) :
  grows_within ns p (set_attr k v p).
Proof.
  destruct p. split; [reflexivity|]. exists []. simpl.
  split; [now rewrite app_nil_r | constructor].
Qed.

Lemma grows_within_set_text (ns : option string) (v : option string) (p : xml_tree) :
  grows_within ns p (set_text v p).
Proof.
  destruct p. split; [reflexivity|]. exists []. simpl.
  split; [now rewrite app_nil_r | constructor].
Qed.

Lemma grows_within_append (ns : option string) (child p : xml_tree) :
  in_namespace ns child -> grows_within ns p (append_child child p).
Proof.
  intros H. destruct p. split; [reflexivity|]. exists [child]. simpl.
  split; [reflexivity | now constructor].
Qed.

(** An element created in [ns] that has grown within [ns] is in [ns]. *)
Lemma grown_element_in_namespace (ns : option string) (name : string) (e : xml_tree) :
  grows_within ns (Element name ns) e -> in_namespace ns e.
Proof.
  destruct e as [t n a x c]. intros [Hn (added & Hc & Hall)].
  apply in_namespace_node. cbn in Hn, Hc. split; [exact Hn | now rewrite Hc].
Qed.

Lemma process_attributes_within (ns : option string) (e : xml_tree) (d : xsd_node) :
  ensures (_process_attributes e d) (grows_within ns e).
Proof.
  unfold _process_attributes.
  apply ensures_bind with (P := grows_within ns e).
  - apply ensures_for_each; [|apply grows_within_refl].
    intros acc attr _ Hacc.
    destruct (Py.truthy (get attr "name")).
    + eapply ensures_bind; [apply ensures_true|]. intros ? _.
      eapply ensures_bind; [apply ensures_true|]. intros ? _.
      eapply ensures_weaken; [apply ensures_element_set|]. intros ? ->.
      eapply grows_within_trans; [exact Hacc|]. apply grows_within_set_attr.
    + destruct (get attr "ref") as [[|c r]|].
      * eapply ensures_bind; [apply ensures_true|]. intros ? _. now apply ensures_ret.
      * eapply ensures_weaken; [apply ensures_element_set|]. intros ? ->.
        eapply grows_within_trans; [exact Hacc|]. apply grows_within_set_attr.
      * eapply ensures_bind; [apply ensures_true|]. intros ? _. now apply ensures_ret.
  - intros e' He'. eapply ensures_bind; [apply ensures_true|]. intros ? _.
    now apply ensures_ret.
Qed.

Lemma process_simple_content_within (ns : option string) (p : xml_tree) (cme : xsd_node)
    (path : string) :
  ensures (process_simple_content p cme path) (grows_within ns p).
Proof.
  unfold process_simple_content.
  destruct (find cme (xsd "extension")) as [ext|].
  - eapply ensures_bind; [apply ensures_true|]. intros v _.
    eapply ensures_weaken; [apply (process_attributes_within ns)|].
    intros res Hres. eapply grows_within_trans; [apply grows_within_set_text | exact Hres].
  - destruct (find cme (xsd "restriction")) as [r|].
    + eapply ensures_bind; [apply ensures_true|]. intros v _.
      eapply ensures_weaken; [apply (process_attributes_within ns)|].
      intros res Hres. eapply grows_within_trans; [apply grows_within_set_text | exact Hres].
    + eapply ensures_bind; [apply ensures_true|]. intros ? _.
      apply ensures_ret, grows_within_refl.
Qed.

Lemma fill_instance_within (self : XSDToXMLGenerator)
    (walk : xml_tree -> option xsd_node -> string -> M xml_tree)
    (ns : option string) (e : xml_tree) (decl : xsd_node) (path : string) :
  (forall p cme q, ensures (walk p cme q) (grows_within ns p)) ->
  ensures (fill_instance self walk e decl path) (grows_within ns e).
Proof.
  intros Hwalk. unfold fill_instance.
  eapply ensures_bind; [apply ensures_true|]. intros type_name _.
  destruct (_get_type_definition self type_name) as [type_def|].
  - eapply ensures_bind; [apply (process_attributes_within ns)|]. intros e1 H1.
    destruct (content_model_of type_def) as [c|].
    + eapply ensures_weaken; [apply Hwalk|]. intros res Hres.
      eapply grows_within_trans; eassumption.
    + destruct (String.eqb (tag_of type_def) (xsd "simpleType")).
      * destruct (find type_def (xsd "restriction")).
        -- eapply ensures_bind; [apply ensures_true|]. intros v _.
           apply ensures_ret. eapply grows_within_trans; [exact H1|].
           apply grows_within_set_text.
        -- apply ensures_ret. eapply grows_within_trans; [exact H1|].
           apply grows_within_set_text.
      * now apply ensures_ret.
  - eapply ensures_bind; [apply (process_attributes_within ns)|]. intros e1 H1.
    destruct (find decl (xsd "complexType")) as [ict|].
    + destruct (content_model_of ict) as [c|].
      * eapply ensures_weaken; [apply Hwalk|]. intros res Hres.
        eapply grows_within_trans; eassumption.
      * now apply ensures_ret.
    + destruct (find decl (xsd "simpleType")) as [ist|].
      * destruct (find ist (xsd "restriction")).
        -- eapply ensures_bind; [apply ensures_true|]. intros v _.
           apply ensures_ret. eapply grows_within_trans; [exact H1|].
           apply grows_within_set_text.
        -- apply ensures_ret. eapply grows_within_trans; [exact H1|].
           apply grows_within_set_text.
      * eapply ensures_bind; [apply ensures_true|]. intros v _.
        apply ensures_ret. eapply grows_within_trans; [exact H1|].
        apply grows_within_set_text.
Qed.

(** Both the element generator and the content model walker add children
    in the namespace map of the generator only, and leave the namespace
    map of the element they work on alone. *)
Lemma generator_within (self : XSDToXMLGenerator) (fuel : nat) :
  (forall parent decl path,
      ensures (_generate_xml_element self fuel parent decl path)
              (grows_within (namespace_map self) parent)) /\
  (forall parent cme path,
      ensures (_process_content_model self fuel parent cme path)
              (grows_within (namespace_map self) parent)).
Proof.
  induction fuel as [|fuel [IHg IHw]]; [split; intros; apply ensures_out_of_fuel|].
  split.
  - intros parent decl path. cbn [_generate_xml_element]. cbv zeta.
    destruct (Py.truthy (get decl "name")); cbn [negb].
    2:{ eapply ensures_bind; [apply ensures_true|]. intros ? _.
        apply ensures_ret, grows_within_refl. }
    eapply ensures_bind; [apply ensures_true|]. intros [min_occurs bound] _.
    destruct (andb _ _); [apply ensures_ret, grows_within_refl|].
    eapply ensures_bind; [apply ensures_true|]. intros n _.
    destruct (n =? 0); [apply ensures_ret, grows_within_refl|].
    apply ensures_repeat_times; [|apply grows_within_refl].
    intros acc Hacc.
    eapply ensures_bind; [apply ensures_etree_SubElement|]. intros e0 ->.
    eapply ensures_bind; [apply fill_instance_within; exact IHw|].
    intros child Hchild. apply ensures_ret.
    eapply grows_within_trans; [exact Hacc|].
    apply grows_within_append. eapply grown_element_in_namespace. exact Hchild.
  - intros parent cme path. cbn [_process_content_model]. cbv zeta.
    destruct cme as [cme|]; [|apply ensures_ret, grows_within_refl].
    destruct (orb _ _).
    { eapply ensures_bind with (P := grows_within (namespace_map self) parent).
      - apply ensures_for_each; [|apply grows_within_refl].
        intros acc child _ Hacc.
        eapply ensures_weaken; [apply IHg|].
        intros res Hres. eapply grows_within_trans; eassumption.
      - intros p Hp. eapply ensures_bind; [apply ensures_true|]. intros ? _.
        now apply ensures_ret. }
    destruct (String.eqb (tag_of cme) (xsd "choice")).
    { destruct (find cme (xsd "element")).
      - apply IHg.
      - eapply ensures_bind; [apply ensures_true|]. intros ? _.
        apply ensures_ret, grows_within_refl. }
    destruct (String.eqb (tag_of cme) (xsd "complexContent")).
    { destruct (find cme (xsd "extension")) as [ext|].
      - eapply ensures_bind with (P := grows_within (namespace_map self) parent).
        + destruct (elem_truthy _); [|apply ensures_ret, grows_within_refl].
          destruct (_get_type_definition self (get ext "base")) as [base|];
            [|apply ensures_ret, grows_within_refl].
          eapply ensures_bind; [apply (process_attributes_within (namespace_map self))|].
          intros p1 H1.
          destruct (base_content_model_of base).
          * eapply ensures_weaken; [apply IHw|]. intros res Hres.
            eapply grows_within_trans; eassumption.
          * now apply ensures_ret.
        + intros p1 H1.
          eapply ensures_bind; [apply (process_attributes_within (namespace_map self))|].
          intros p2 H2.
          destruct (find ext (xsd "sequence")).
          * eapply ensures_weaken; [apply IHw|]. intros res Hres.
            eapply grows_within_trans; [exact H1|].
            eapply grows_within_trans; eassumption.
          * apply ensures_ret. eapply grows_within_trans; eassumption.
      - destruct (find cme (xsd "restriction")) as [r|].
        + eapply ensures_bind; [apply ensures_true|]. intros ? _.
          eapply ensures_bind; [apply (process_attributes_within (namespace_map self))|].
          intros p2 H2.
          destruct (find r (xsd "sequence")).
          * eapply ensures_weaken; [apply IHw|]. intros res Hres.
            eapply grows_within_trans; eassumption.
          * now apply ensures_ret.
        + eapply ensures_bind; [apply ensures_true|]. intros ? _.
          apply ensures_ret, grows_within_refl. }
    destruct (String.eqb (tag_of cme) (xsd "simpleContent")).
    { apply process_simple_content_within. }
    eapply ensures_bind; [apply ensures_true|]. intros ? _.
    apply ensures_ret, grows_within_refl.
Qed.

(** X14: in a document that [generate_xml] returns, every element, the
    root and all its descendants, carries the same namespace map: the
    target namespace of the schema as the default namespace when the
    schema has a non-empty [targetNamespace], and no namespace at all
    otherwise. *)
Theorem X14_document_in_target_namespace
    (root : xsd_node) (fuel : nat) (root_element_name : option string)
    (s : session) (document : xml_tree) (s' : session) :
  generate_xml (init root) fuel root_element_name s = Ok (document, s') ->
  in_namespace
    (match get root "targetNamespace" with
     | Some (String _ _ as ns) => Some ns
     | _ => None
     end)
    document.
Proof.
  assert (Hns : namespace_map (init root) =
                match get root "targetNamespace" with
                | Some (String _ _ as ns) => Some ns
                | _ => None
                end).
  { unfold namespace_map, init. cbn [target_namespace].
    destruct (get root "targetNamespace") as [[|c n]|]; reflexivity. }
  rewrite <- Hns. unfold generate_xml. unfold bind at 1.
  match goal with
  | |- context [match ?m s with _ => _ end] =>
      destruct (m s) as [[decl s1]| | |]; try discriminate
  end.
  destruct (get decl "name") as [root_name|]; try discriminate.
  unfold bind.
  destruct (lift (etree_Element _ _) s1) as [[e0 s0]| | |] eqn:Hnew; try discriminate.
  apply ensures_etree_Element in Hnew. subst e0.
  intros Hrun. apply (proj1 (generator_within (init root) fuel)) in Hrun.
  eapply grown_element_in_namespace. exact Hrun.
Qed.

Lemma X14_document_in_target_namespace_witness :
  exists document,
    value_of (generate_xml (init namespaced_schema) 5 None counting_session) = Ok document /\
    in_namespace (Some "urn:iso:std:iso:20022:tech:xsd:camt.053.001.08") document.
Proof.
  destruct (generate_xml (init namespaced_schema) 5 None counting_session)
    as [[document s']| | |] eqn:Hrun; [|vm_compute in Hrun; discriminate..].
  exists document. split; [reflexivity|].
  exact (X14_document_in_target_namespace namespaced_schema 5 None counting_session
           document s' Hrun).
Defined.

(** ** Text from restrictions and simple content *)

(** X15: the text that an element gets from the [restriction] of a simple
    type.  The call always returns.  When the base is a built-in type
    (["xs:"]) the text is the sample of that type and the enumeration
    facets are not looked at; otherwise the text is one of the enumeration
    values when there are any, and the placeholder of the call site when
    there are none. *)
Theorem X15_restriction_text (restriction : xsd_node) (placeholder : string) (s : session) :
  exists v s',
    text_of_restriction restriction placeholder s = Ok (v, s') /\
    (is_xs (get restriction "base") = true ->
     exists w,
       v = Some w /\
       value_of (generate_sample_value
                   (Some (nth 1 (Py.split ":" (Py.str_of_opt (get restriction "base"))) ""))
                   s) = Ok w) /\
    (is_xs (get restriction "base") = false ->
     enum_values_of restriction <> [] -> In v (enum_values_of restriction)) /\
    (is_xs (get restriction "base") = false ->
     enum_values_of restriction = [] -> v = Some placeholder).
Proof.
  unfold text_of_restriction.
  destruct (is_xs (get restriction "base")).
  - do 2 eexists.
    split; [unfold bind; rewrite generate_sample_value_eq; reflexivity|].
    split; [|split; discriminate].
    intros _. eexists. split; [reflexivity|].
    rewrite generate_sample_value_eq. reflexivity.
  - destruct (enum_values_of restriction) as [|e l] eqn:E.
    + do 2 eexists. split; [reflexivity|]. split; [discriminate|].
      split; [intros _ H; now contradiction H | reflexivity].
    + unfold choice, bind, draw, ret. do 2 eexists. split; [reflexivity|].
      split; [discriminate|]. split; [|discriminate].
      intros _ _. apply (choice_of_in None (e :: l)). discriminate.
Qed.

Lemma X15_restriction_text_witness :
  value_of (text_of_restriction
              (xs "restriction" [("base", "xs:string")]
                 [xs "enumeration" [("value", "CRDT")] [];
                  xs "enumeration" [("value", "DBIT")] []])
              "INLINE_SIMPLE_TYPE_NO_BASE_OR_ENUM" counting_session)
    = Ok (Some "sample_string") /\
  (exists v,
      value_of (text_of_restriction
                  (xs "restriction" [("base", "Code")]
                     [xs "enumeration" [("value", "CRDT")] [];
                      xs "enumeration" [("value", "DBIT")] []])
                  "INLINE_SIMPLE_TYPE_NO_BASE_OR_ENUM" counting_session) = Ok v /\
      In v [Some "CRDT"; Some "DBIT"]).
Proof.
  split.
  - destruct (X15_restriction_text
                (xs "restriction" [("base", "xs:string")]
                   [xs "enumeration" [("value", "CRDT")] [];
                    xs "enumeration" [("value", "DBIT")] []])
                "INLINE_SIMPLE_TYPE_NO_BASE_OR_ENUM" counting_session)
      as (v & s' & Hrun & Hxs & _).
    destruct (Hxs eq_refl) as (w & -> & Hw).
    rewrite Hrun. cbn [value_of]. f_equal. f_equal.
    vm_compute in Hw. now injection Hw.
  - destruct (X15_restriction_text
                (xs "restriction" [("base", "Code")]
                   [xs "enumeration" [("value", "CRDT")] [];
                    xs "enumeration" [("value", "DBIT")] []])
                "INLINE_SIMPLE_TYPE_NO_BASE_OR_ENUM" counting_session)
      as (v & s' & Hrun & _ & Henum & _).
    exists v. rewrite Hrun. split; [reflexivity|].
    apply (Henum eq_refl). discriminate.
Defined.

Lemma attributes_only_refl (e : xml_tree) : attributes_only e e.
Proof. repeat split. Qed.

Lemma attributes_only_trans (p q r : xml_tree) :
  attributes_only p q -> attributes_only q r -> attributes_only p r.
Proof. intros (A & B & C & D) (A' & B' & C' & D'). repeat split; congruence. Qed.

Lemma attributes_only_set_attr (k v : string) (e : xml_tree) :
  attributes_only e (set_attr k v e).
Proof. destruct e. repeat split. Qed.

Lemma process_attributes_attributes_only (e : xml_tree) (d : xsd_node) :
  ensures (_process_attributes e d) (attributes_only e).
Proof.
  unfold _process_attributes.
  apply ensures_bind with (P := attributes_only e).
  - apply ensures_for_each; [|apply attributes_only_refl].
    intros acc attr _ Hacc.
    destruct (Py.truthy (get attr "name")).
    + eapply ensures_bind; [apply ensures_true|]. intros ? _.
      eapply ensures_bind; [apply ensures_true|]. intros ? _.
      eapply ensures_weaken; [apply ensures_element_set|]. intros ? ->.
      eapply attributes_only_trans; [exact Hacc|]. apply attributes_only_set_attr.
    + destruct (get attr "ref") as [[|c r]|].
      * eapply ensures_bind; [apply ensures_true|]. intros ? _. now apply ensures_ret.
      * eapply ensures_weaken; [apply ensures_element_set|]. intros ? ->.
        eapply attributes_only_trans; [exact Hacc|]. apply attributes_only_set_attr.
      * eapply ensures_bind; [apply ensures_true|]. intros ? _. now apply ensures_ret.
  - intros e' He'. eapply ensures_bind; [apply ensures_true|]. intros ? _.
    now apply ensures_ret.
Qed.

(** X16: on a [simpleContent] node the walker gives the element text and
    attributes and never a child.  When it returns, the tag, the namespace
    map and the children are as before; with an [extension] the text is a
    sample that is not empty; with neither [extension] nor [restriction]
    the element is returned as it was. *)
Theorem X16_simple_content_sets_text
    (self : XSDToXMLGenerator) (fuel : nat) (parent : xml_tree) (cme : xsd_node)
    (path : string) (s : session) (parent' : xml_tree) (s' : session) :
  tag_of cme = xsd "simpleContent" ->
  _process_content_model self (S fuel) parent (Some cme) path s = Ok (parent', s') ->
  xml_tag parent' = xml_tag parent /\
  xml_nsmap parent' = xml_nsmap parent /\
  xml_children parent' = xml_children parent /\
  (forall ext, find cme (xsd "extension") = Some ext ->
               exists v, xml_text parent' = Some v /\ v <> "") /\
  (find cme (xsd "extension") = None -> find cme (xsd "restriction") = None ->
   parent' = parent).
Proof.
  intros Htag. cbn [_process_content_model]. cbv zeta. rewrite Htag.
  change (String.eqb (xsd "simpleContent") (xsd "sequence")) with false.
  change (String.eqb (xsd "simpleContent") (xsd "all")) with false.
  change (String.eqb (xsd "simpleContent") (xsd "choice")) with false.
  change (String.eqb (xsd "simpleContent") (xsd "complexContent")) with false.
  change (String.eqb (xsd "simpleContent") (xsd "simpleContent")) with true.
  cbn [orb]. unfold process_simple_content.
  destruct (find cme (xsd "extension")) as [ext|].
  - unfold bind at 1.
    match goal with
    | |- context [match ?m s with _ => _ end] =>
        destruct (m s) as [[v s1]| | |] eqn:Hv; try discriminate
    end.
    assert (Hne : v <> "").
    { destruct (Py.truthy (get ext "base")); [destruct (Py.startswith _ _)|];
        match type of Hv with
        | generate_sample_value (Some ?n) s = _ =>
            destruct (generate_sample_value_nonempty n s) as (w & s2 & Hw & Hnew);
            rewrite Hw in Hv; injection Hv as <- _; exact Hnew
        end. }
    intros Hrun. apply process_attributes_attributes_only in Hrun.
    destruct Hrun as (Ht & Hn & Hx & Hc). destruct parent as [t n a x c].
    cbn in *. repeat split; try assumption; try discriminate.
    intros ext' _. exists v. now split.
  - destruct (find cme (xsd "restriction")) as [r|].
    + unfold bind at 1.
      match goal with
      | |- context [match ?m s with _ => _ end] =>
          destruct (m s) as [[v s1]| | |]; try discriminate
      end.
      intros Hrun. apply process_attributes_attributes_only in Hrun.
      destruct Hrun as (Ht & Hn & Hx & Hc). destruct parent as [t n a x c].
      cbn in *. repeat split; try assumption; discriminate.
    + unfold bind, print, ret. intros [= <- _].
      repeat split; try discriminate.
Qed.

Lemma X16_simple_content_sets_text_witness :
  exists parent' v,
    value_of (_process_content_model (init (xs "schema" [] [])) 1 (Element "Amt" None)
                (Some amount_simple_content) "" counting_session) = Ok parent' /\
    xml_text parent' = Some v /\ v <> "" /\
    xml_children parent' = [].
Proof.
  destruct (_process_content_model (init (xs "schema" [] [])) 1 (Element "Amt" None)
              (Some amount_simple_content) "" counting_session)
    as [[parent' s']| | |] eqn:Hrun; [|vm_compute in Hrun; discriminate..].
  destruct (X16_simple_content_sets_text (init (xs "schema" [] [])) 0 (Element "Amt" None)
              amount_simple_content "" counting_session parent' s' eq_refl Hrun)
    as (_ & _ & Hc & Htext & _).
  destruct (Htext _ eq_refl) as (v & Hv & Hne).
  exists parent', v. repeat split; assumption.
Defined.

(** ** The default root *)

(** X17: without a root name, and likewise with the empty string as root
    name, [generate_xml] starts from the first global element declaration
    of the schema: the document it returns is named after that
    declaration, whatever other global elements follow.  When the schema
    has no global element declaration it raises, for every recursion
    budget, and when the first one has no name it cannot return. *)
Theorem X17_default_root_is_first_global_element
    (self : XSDToXMLGenerator) (fuel : nat) (s : session) :
  generate_xml self fuel (Some "") s = generate_xml self fuel None s /\
  (find (schema_root self) (xsd "element") = None ->
   generate_xml self fuel None s =
     Raise (ValueError
              "No global element definition found in the XSD to start XML generation.")) /\
  (forall first,
      find (schema_root self) (xsd "element") = Some first ->
      (get first "name" = None -> exists e, generate_xml self fuel None s = Raise e) /\
      (forall document s',
          generate_xml self fuel None s = Ok (document, s') ->
          get first "name" = Some (xml_tag document))).
Proof.
  split; [reflexivity|]. split.
  - intros Hnone. unfold generate_xml. cbn [Py.truthy]. rewrite Hnone. reflexivity.
  - intros first Hfirst. unfold generate_xml. cbn [Py.truthy]. rewrite Hfirst.
    unfold bind at 1. cbn [print ret bind].
    split.
    + intros Hname. unfold bind, print, ret. rewrite Hname. eexists. reflexivity.
    + intros document s'. unfold bind, print, ret.
      destruct (get first "name") as [root_name|] eqn:Hname; try discriminate.
      intros Hrun.
      match type of Hrun with
      | match ?m with _ => _ end = _ =>
          destruct m as [[e0 s0]| | |] eqn:Hnew; try discriminate
      end.
      apply ensures_etree_Element in Hnew. subst e0.
      apply (proj1 (generator_invariant self fuel)) in Hrun.
      destruct Hrun as (added & -> & _). reflexivity.
Qed.

Lemma X17_default_root_is_first_global_element_witness :
  exists document,
    value_of (generate_xml (init entry_schema) 3 None counting_session) = Ok document /\
    xml_tag document = "Ntry" /\
    (exists e, generate_xml (init (xs "schema" [] [entry_type])) 3 None counting_session
               = Raise e).
Proof.
  destruct (X17_default_root_is_first_global_element (init entry_schema) 3 counting_session)
    as (_ & _ & Hfirst).
  destruct (Hfirst (xs "element" [("name", "Ntry"); ("type", "Entry")] []) eq_refl)
    as [_ Hdoc].
  destruct (generate_xml (init entry_schema) 3 None counting_session)
    as [[document s']| | |] eqn:Hrun; [|vm_compute in Hrun; discriminate..].
  exists document. split; [reflexivity|]. split.
  - specialize (Hdoc document s' eq_refl). now injection Hdoc.
  - destruct (X17_default_root_is_first_global_element
                (init (xs "schema" [] [entry_type])) 3 counting_session) as (_ & Hnone & _).
    eexists. apply Hnone. reflexivity.
Defined.

(** ** The content model that is walked *)

Lemma elem_truthy_find (d : xsd_node) (t : string) :
  elem_truthy (find d t) = true ->
  exists c, find d t = Some c /\ children_of c <> [].
Proof.
  destruct (find d t) as [c|]; simpl; [|discriminate].
  destruct (children_of c) eqn:E; [discriminate|].
  intros _. exists c. split; [reflexivity|]. rewrite E. discriminate.
Qed.

(** X18: the content model that the element generator walks for a type
    definition is a child node of that definition, and it is the
    [simpleContent] node or else a [sequence], [all], [choice] or
    [complexContent] node that has at least one child node.  When none of
    these four is there with a child, the answer is the [simpleContent]
    node, if any, and no content model otherwise. *)
Theorem X18_walked_content_model (d : xsd_node) :
  (forall c, content_model_of d = Some c ->
             In c (children_of d) /\
             (tag_of c = xsd "simpleContent" \/
              (children_of c <> [] /\
               (tag_of c = xsd "sequence" \/ tag_of c = xsd "all" \/
                tag_of c = xsd "choice" \/ tag_of c = xsd "complexContent")))) /\
  (elem_truthy (find d (xsd "sequence")) = false ->
   elem_truthy (find d (xsd "all")) = false ->
   elem_truthy (find d (xsd "choice")) = false ->
   elem_truthy (find d (xsd "complexContent")) = false ->
   content_model_of d = find d (xsd "simpleContent")).
Proof.
  split.
  - intros c. unfold content_model_of, py_or.
    destruct (elem_truthy (find d (xsd "sequence"))) eqn:E1.
    { apply elem_truthy_find in E1. destruct E1 as (x & Hx & Hk). rewrite Hx.
      intros [= <-]. apply find_in in Hx. destruct Hx as [Hin Ht].
      split; [exact Hin|]. right. split; [exact Hk | now left]. }
    destruct (elem_truthy (find d (xsd "all"))) eqn:E2.
    { apply elem_truthy_find in E2. destruct E2 as (x & Hx & Hk). rewrite Hx.
      intros [= <-]. apply find_in in Hx. destruct Hx as [Hin Ht].
      split; [exact Hin|]. right. split; [exact Hk | right; now left]. }
    destruct (elem_truthy (find d (xsd "choice"))) eqn:E3.
    { apply elem_truthy_find in E3. destruct E3 as (x & Hx & Hk). rewrite Hx.
      intros [= <-]. apply find_in in Hx. destruct Hx as [Hin Ht].
      split; [exact Hin|]. right. split; [exact Hk | right; right; now left]. }
    destruct (elem_truthy (find d (xsd "complexContent"))) eqn:E4.
    { apply elem_truthy_find in E4. destruct E4 as (x & Hx & Hk). rewrite Hx.
      intros [= <-]. apply find_in in Hx. destruct Hx as [Hin Ht].
      split; [exact Hin|]. right. split; [exact Hk | right; right; now right]. }
    intros Hx. apply find_in in Hx. destruct Hx as [Hin Ht].
    split; [exact Hin | now left].
  - intros E1 E2 E3 E4. unfold content_model_of, py_or.
    now rewrite E1, E2, E3, E4.
Qed.

Lemma X18_walked_content_model_witness :
  content_model_of party_type = None /\
  (exists c, content_model_of shadowed_type = Some c /\ tag_of c = xsd "choice" /\
             children_of c <> []).
Proof.
  split.
  - destruct (X18_walked_content_model party_type) as [_ H].
    rewrite (H eq_refl eq_refl eq_refl eq_refl). reflexivity.
  - destruct (X18_walked_content_model shadowed_type) as [H _].
    destruct (H (xs "choice" [] [xs "element" [("name", "A")] []]) eq_refl)
      as [_ [Hs | [Hk _]]].
    + discriminate.
    + eexists. split; [reflexivity|]. split; [reflexivity | exact Hk].
Defined.
